(** * Medalion: the Chan-theory signal pipeline and the strategy tree

    A shallow embedding of
      - [src/strategies/base_strategy.py]     (signals, strategy base class),
      - [src/strategies/changlun_strategy.py] (fractals, strokes, trend,
        relative position, buy/sell points, divergence, emotion, decision),
      - [src/strategies/strategy_tree.py]     (weighted fusion, weight
        adaptation),
      - [src/strategies/trend_strategy.py]    (moving-average, ADX and MACD
        scores),
      - [src/strategies/strength_strategy.py] (RSI, CCI, Williams %R, ROC
        and volume scores),
    followed by the properties proved about them.

    Conventions of the embedding.
      - Python floats are idealised as exact rationals [Q]; decimal literals
        are the source's.  [Qmin]/[Qmax] return the same argument as Python's
        two-argument [min]/[max] (the first one unless the second is strictly
        smaller/larger).
      - A [DataFrame] is the list of its rows; every indicator column the
        strategy reads is a field of [Bar].  The trend and strength
        strategies read columns that may be missing, so their frames
        ([Labelled.Frame]) have finite maps from column labels as rows.
      - Exceptions are values of [result]; [IndexError] is what pandas and
        numpy raise for a position outside the data.
      - Strategy objects live in a [store] indexed by object identity, and a
        strategy tree holds references, since the tree mutates the strategies
        it was handed.
      - Reason strings are kept as structured [Text]; the wall-clock
        [timestamp] of a signal is not modelled. *)

From Stdlib Require Import QArith Qminmax Qabs Lqa ZArith Lia.
From stdpp Require Import gmap strings list sorting pretty.

Open Scope Q_scope.

(** ** Comparisons of floats as booleans *)

Definition Qltb (x y : Q) : bool :=
  match x ?= y with Lt => true | _ => false end.
Definition Qleb (x y : Q) : bool :=
  match x ?= y with Gt => false | _ => true end.

Notation "x <? y" := (Qltb x y) : Q_scope.
Notation "x <=? y" := (Qleb x y) : Q_scope.
Notation "x >? y" := (Qltb y x) : Q_scope.
Notation "x >=? y" := (Qleb y x) : Q_scope.

(** ** Exceptions *)

Inductive exn := IndexError | KeyError.

Inductive result (A : Type) :=
| Ok (a : A)
| Raise (e : exn).
Arguments Ok {A} a.
Arguments Raise {A} e.

#[global] Instance result_ret : MRet result := fun A a => Ok a.
#[global] Instance result_bind : MBind result := fun A B k m =>
  match m with
  | Ok a => k a
  | Raise e => Raise e
  end.

(** [l[-1]] of a pandas frame or a list: the last row, or [IndexError]. *)
Definition iloc_last {A} (l : list A) : result A :=
  match last l with
  | Some a => Ok a
  | None => Raise IndexError
  end.

(** [l[i]] of a numpy array at a non-negative position. *)
Definition at_index {A} (l : list A) (i : nat) : result A :=
  match l !! i with
  | Some a => Ok a
  | None => Raise IndexError
  end.

(** [l[-n:]]: the trailing [n] elements (all of [l] when it is shorter). *)
Definition lastn {A} (n : nat) (l : list A) : list A :=
  drop (length l - n) l.

(** ** Data model *)

(** *** base_strategy.py *)

Inductive SignalType := BUY | SELL | HOLD.
Inductive SignalStrength := WEAK | MEDIUM | STRONG.

(** [SignalStrength.value] *)
Definition strength_value (s : SignalStrength) : Q :=
  match s with
  | WEAK => 1
  | MEDIUM => 2
  | STRONG => 3
  end.

(** *** changlun_strategy.py *)

Inductive TrendDirection := UP | DOWN | SIDEWAYS.

Inductive RelativePosition := HIGH | MEDIUM_HIGH | MEDIUM_POS | MEDIUM_LOW | LOW.

Inductive BuyingSellPoint := BUY_1 | BUY_2 | BUY_3 | SELL_1 | SELL_2 | SELL_3.

(** The two strings [_detect_divergence] returns. *)
Inductive Divergence := bullish_divergence | bearish_divergence.

Inductive FractalType := top | bottom.
Inductive Direction := up | down.

#[global] Instance SignalType_eq_dec : EqDecision SignalType.
Proof. solve_decision. Defined.
#[global] Instance SignalStrength_eq_dec : EqDecision SignalStrength.
Proof. solve_decision. Defined.
#[global] Instance TrendDirection_eq_dec : EqDecision TrendDirection.
Proof. solve_decision. Defined.
#[global] Instance RelativePosition_eq_dec : EqDecision RelativePosition.
Proof. solve_decision. Defined.
#[global] Instance BuyingSellPoint_eq_dec : EqDecision BuyingSellPoint.
Proof. solve_decision. Defined.
#[global] Instance Divergence_eq_dec : EqDecision Divergence.
Proof. solve_decision. Defined.
#[global] Instance FractalType_eq_dec : EqDecision FractalType.
Proof. solve_decision. Defined.
#[global] Instance Direction_eq_dec : EqDecision Direction.
Proof. solve_decision. Defined.

(** [RelativePosition.value] *)
Definition position_value (p : RelativePosition) : Z :=
  match p with
  | HIGH => 3
  | MEDIUM_HIGH => 2
  | MEDIUM_POS => 1
  | MEDIUM_LOW => 0
  | LOW => -1
  end.

(** One row of the input frame: its index label and the columns read. *)
Record Bar := {
  timestamp : Z;
  high : Q;
  low : Q;
  close : Q;
  MA_5 : Q;
  MA_20 : Q;
  MA_60 : Q;
  MACD : Q;
  MACD_Hist : Q;
  RSI : Q
}.

Definition DataFrame := list Bar.

(** [data[c].iloc[i]] for a position inside the frame. *)
Definition col (c : Bar -> Q) (data : DataFrame) (i : nat) : Q :=
  default 0 (c <$> data !! i).

Record Fractal := {
  fractal_index : nat;
  fractal_type : FractalType;
  price : Q;
  fractal_timestamp : Z
}.

Record Stroke := {
  start_fractal : Fractal;
  end_fractal : Fractal;
  direction : Direction;
  stroke_strength : Q;
  start_index : nat;
  end_index : nat
}.

(** The dictionary built by [_monitor_emotion_indicators]. *)
Record Emotion := {
  rsi_overbought : bool;
  rsi_oversold : bool;
  extreme_emotion : bool;
  rsi_value : Q
}.

(** The reasons [_make_comprehensive_decision] appends, in source order. *)
Inductive Note :=
| TrendUpWithPoints (points : list BuyingSellPoint)
| TrendDownWithPoints (points : list BuyingSellPoint)
| PositionLowSafe
| PositionHighCaution
| PositionHighLimited
| BottomDivergenceConfirmsBuy
| TopDivergenceConfirmsSell
| RsiExtremeOversold (rsi : Q)
| RsiExtremeOverbought (rsi : Q).

(** The [reason] of a signal: free text of some strategy, the joined notes of
    the Chan strategy, one [reason(weight)] part of a fusion, or the joined
    parts of a fusion. *)
#[warnings="-register-all"]
Inductive Text :=
| Plain (s : string)
| ChangLunText (notes : list Note)
| Weighted (reason : Text) (weight : Q)
| CompositeText (parts : list Text).

Record TradingSignal := {
  signal_type : SignalType;
  strength : SignalStrength;
  confidence : Q;
  reason : Text
}.

(** ** base_strategy.py: [BaseStrategy] *)

Module BaseStrategy.

Record t := {
  name : string;
  weight : Q;
  enabled : bool;
  performance_metrics : gmap string Q;
  calculate_signal : DataFrame -> result (option TradingSignal);
  get_required_indicators : list string
}.

Definition set_weight (self : t) (w : Q) : t :=
  {| name := name self; weight := w; enabled := enabled self;
     performance_metrics := performance_metrics self;
     calculate_signal := calculate_signal self;
     get_required_indicators := get_required_indicators self |}.

Definition set_performance_metrics (self : t) (m : gmap string Q) : t :=
  {| name := name self; weight := weight self; enabled := enabled self;
     performance_metrics := m;
     calculate_signal := calculate_signal self;
     get_required_indicators := get_required_indicators self |}.

(** [__init__(name, weight=1.0)] of a subclass with the given methods. *)
Definition init (name : string) (weight : Q)
    (calculate_signal : DataFrame -> result (option TradingSignal))
    (get_required_indicators : list string) : t :=
  {| name := name; weight := weight; enabled := true;
     performance_metrics := ∅;
     calculate_signal := calculate_signal;
     get_required_indicators := get_required_indicators |}.

(** The object after the call, and whether the call raised. *)
Definition update_performance (self : t) (profit_loss : Q) : result unit * t :=
  let m := performance_metrics self in
  let m :=
    match m !! "total_pnl" with
    | None => <["trade_count" := 0]> (<["total_pnl" := 0]> m)
    | Some _ => m
    end in
  match m !! "total_pnl" with
  | None => (Raise KeyError, set_performance_metrics self m)
  | Some total_pnl =>
      let m := <["total_pnl" := total_pnl + profit_loss]> m in
      match m !! "trade_count" with
      | None => (Raise KeyError, set_performance_metrics self m)
      | Some trade_count =>
          (Ok (), set_performance_metrics self
                    (<["trade_count" := trade_count + 1]> m))
      end
  end.

Definition get_win_rate (self : t) : Q :=
  default 0.0 (performance_metrics self !! "win_rate").

Definition adjust_weight (self : t) (performance_factor : Q) : t :=
  let self := set_weight self (weight self * performance_factor) in
  set_weight self (Qmax 0.1 (Qmin 2.0 (weight self))).

End BaseStrategy.

(** ** changlun_strategy.py: [ChangLunStrategy] *)

Module ChangLunStrategy.

(** Parameters fixed by [__init__]. *)
Definition min_k_for_stroke : Z := 5.
Definition position_lookback : nat := 120.
Definition rsi_overbought_level : Q := 80.
Definition rsi_oversold_level : Q := 20.
Definition base_position : Q := 0.2.
Definition max_position : Q := 0.5.

Definition get_required_indicators : list string :=
  ["MA_5"; "MA_20"; "MA_60"; "MACD"; "MACD_Signal"; "MACD_Hist"; "RSI";
   "Volume"]%string.

(** The body of the loop of [_identify_fractals] at position [i]; the loop
    keeps [i-2 .. i+2] inside the frame. *)
Definition fractals_at (data : DataFrame) (i : nat) : list Fractal :=
  let high_i := col high data i in
  let low_i := col low data i in
  let ts := default 0%Z (timestamp <$> data !! i) in
  (if (high_i >? col high data (i - 2)) && (high_i >? col high data (i - 1))
      && (high_i >? col high data (i + 1)) && (high_i >? col high data (i + 2))
   then [ {| fractal_index := i; fractal_type := top; price := high_i;
             fractal_timestamp := ts |} ]
   else [])
  ++
  (if (low_i <? col low data (i - 2)) && (low_i <? col low data (i - 1))
      && (low_i <? col low data (i + 1)) && (low_i <? col low data (i + 2))
   then [ {| fractal_index := i; fractal_type := bottom; price := low_i;
             fractal_timestamp := ts |} ]
   else []).

(** [for i in range(2, len(data) - 2)] *)
Definition _identify_fractals (data : DataFrame) : list Fractal :=
  flat_map (fractals_at data) (seq 2 (length data - 2 - 2)).

(** One iteration of the loop of [_identify_strokes]: the strokes so far
    and the anchor [current_fractal]. *)
Definition stroke_step (acc : list Stroke * Fractal) (next_fractal : Fractal)
    : list Stroke * Fractal :=
  let '(strokes, current_fractal) := acc in
  if bool_decide (fractal_type current_fractal ≠ fractal_type next_fractal)
     && (min_k_for_stroke <=?
           Z.of_nat (fractal_index next_fractal)
           - Z.of_nat (fractal_index current_fractal))%Z
  then
    let '(direction, strength) :=
      if bool_decide (fractal_type current_fractal = bottom)
         && bool_decide (fractal_type next_fractal = top)
      then (up, (price next_fractal - price current_fractal)
                  / price current_fractal)
      else (down, (price current_fractal - price next_fractal)
                    / price current_fractal) in
    (strokes ++ [ {| start_fractal := current_fractal;
                     end_fractal := next_fractal;
                     direction := direction;
                     stroke_strength := strength;
                     start_index := fractal_index current_fractal;
                     end_index := fractal_index next_fractal |} ],
     next_fractal)
  else (strokes, current_fractal).

Definition _identify_strokes (data : DataFrame) (fractals : list Fractal)
    : list Stroke :=
  match fractals with
  | current_fractal :: (_ :: _) as rest =>
      fst (fold_left stroke_step rest ([], current_fractal))
  | _ => []
  end.

Definition count_direction (d : Direction) (l : list Stroke) : nat :=
  length (filter (fun stroke => direction stroke = d) l).

Definition _analyze_trend (data : DataFrame) (strokes : list Stroke)
    : result TrendDirection :=
  if (length strokes <? 3)%nat then Ok SIDEWAYS
  else
    let recent_strokes := lastn 3 strokes in
    let up_strokes := count_direction up recent_strokes in
    let down_strokes := count_direction down recent_strokes in
    latest ← iloc_last data;
    let ma5 := MA_5 latest in
    let ma20 := MA_20 latest in
    let ma60 := MA_60 latest in
    let ma_trend_score : Q :=
      if (ma5 >? ma20) && (ma20 >? ma60) then 1
      else if (ma5 <? ma20) && (ma20 <? ma60) then -1
      else 0 in
    let stroke_trend_score : Q :=
      if (down_strokes <? up_strokes)%nat then 1
      else if (up_strokes <? down_strokes)%nat then -1
      else 0 in
    let combined_score := (stroke_trend_score + ma_trend_score) / 2 in
    if combined_score >? 0.5 then Ok UP
    else if combined_score <? -0.5 then Ok DOWN
    else Ok SIDEWAYS.

(** [Series.max()] and [Series.min()] of a non-empty column. *)
Definition series_max (l : list Q) : Q :=
  match l with
  | [] => 0
  | x :: xs => fold_left Qmax xs x
  end.
Definition series_min (l : list Q) : Q :=
  match l with
  | [] => 0
  | x :: xs => fold_left Qmin xs x
  end.

Definition _calculate_relative_position (data : DataFrame)
    : result RelativePosition :=
  let lookback_data := lastn position_lookback data in
  latest ← iloc_last data;
  let current_price := close latest in
  let high_price := series_max (high <$> lookback_data) in
  let low_price := series_min (low <$> lookback_data) in
  let position_pct :=
    if Qeq_bool high_price low_price then 0.5
    else (current_price - low_price) / (high_price - low_price) in
  if position_pct >=? 0.8 then Ok HIGH
  else if position_pct >=? 0.6 then Ok MEDIUM_HIGH
  else if position_pct >=? 0.4 then Ok MEDIUM_POS
  else if position_pct >=? 0.2 then Ok MEDIUM_LOW
  else Ok LOW.

Definition _is_second_buy_point (data : DataFrame) (strokes : list Stroke)
    : bool :=
  if (length strokes <? 3)%nat then false
  else
    match last strokes with
    | Some current_stroke =>
        if bool_decide (direction current_stroke = down) then
          let retracement := stroke_strength current_stroke in
          (0.3 <=? retracement) && (retracement <=? 0.618)
        else false
    | None => false
    end.

Definition _is_third_buy_point (data : DataFrame) (strokes : list Stroke)
    : bool :=
  if (length strokes <? 4)%nat then false
  else
    let recent_highs :=
      (fun stroke => price (end_fractal stroke)) <$>
      filter (fun stroke => direction stroke = up) (lastn 4 strokes) in
    match reverse recent_highs with
    | h_last :: h_prev :: _ => h_last >? h_prev
    | _ => false
    end.

Definition _is_second_sell_point (data : DataFrame) (strokes : list Stroke)
    : bool :=
  if (length strokes <? 3)%nat then false
  else
    match last strokes with
    | Some current_stroke =>
        if bool_decide (direction current_stroke = up) then
          let rebound := stroke_strength current_stroke in
          (0.3 <=? rebound) && (rebound <=? 0.618)
        else false
    | None => false
    end.

Definition _is_third_sell_point (data : DataFrame) (strokes : list Stroke)
    : bool :=
  if (length strokes <? 4)%nat then false
  else
    let recent_lows :=
      (fun stroke => price (end_fractal stroke)) <$>
      filter (fun stroke => direction stroke = down) (lastn 4 strokes) in
    match reverse recent_lows with
    | l_last :: l_prev :: _ => l_last <? l_prev
    | _ => false
    end.

(** [strokes[-1]] and [strokes[-2]] are read off the reversed list. *)
Definition _identify_buy_sell_points (data : DataFrame)
    (strokes : list Stroke) (trend : TrendDirection)
    : list BuyingSellPoint :=
  match reverse strokes with
  | latest_stroke :: prev_stroke :: _ =>
      match trend with
      | UP =>
          if bool_decide (direction latest_stroke = down)
             && (3 <=? length strokes)%nat
             && bool_decide (direction prev_stroke = up)
          then
            if _is_second_buy_point data strokes then [BUY_2]
            else if _is_third_buy_point data strokes then [BUY_3]
            else []
          else []
      | DOWN =>
          if bool_decide (direction latest_stroke = up)
             && (3 <=? length strokes)%nat
             && bool_decide (direction prev_stroke = down)
          then
            if _is_second_sell_point data strokes then [SELL_2]
            else if _is_third_sell_point data strokes then [SELL_3]
            else []
          else []
      | SIDEWAYS => []
      end
  | _ => []
  end.

Definition _detect_divergence (data : DataFrame) (strokes : list Stroke)
    : result (option Divergence) :=
  if (length strokes <? 2)%nat || (length data <? 50)%nat then Ok None
  else
    let macd := MACD <$> data in
    match reverse strokes with
    | latest_stroke :: prev_stroke :: _ =>
        if bool_decide (direction latest_stroke ≠ direction prev_stroke)
        then Ok None
        else
          match direction latest_stroke with
          | up =>
              let price_high1 := price (end_fractal prev_stroke) in
              let price_high2 := price (end_fractal latest_stroke) in
              macd_high1 ← at_index macd (end_index prev_stroke);
              macd_high2 ← at_index macd (end_index latest_stroke);
              if (price_high2 >? price_high1) && (macd_high2 <? macd_high1)
              then Ok (Some bullish_divergence)
              else Ok None
          | down =>
              let price_low1 := price (end_fractal prev_stroke) in
              let price_low2 := price (end_fractal latest_stroke) in
              macd_low1 ← at_index macd (end_index prev_stroke);
              macd_low2 ← at_index macd (end_index latest_stroke);
              if (price_low2 <? price_low1) && (macd_low2 >? macd_low1)
              then Ok (Some bearish_divergence)
              else Ok None
          end
    | _ => Ok None
    end.

Definition _monitor_emotion_indicators (data : DataFrame) : result Emotion :=
  latest ← iloc_last data;
  let rsi := RSI latest in
  Ok {| rsi_overbought := rsi >? rsi_overbought_level;
        rsi_oversold := rsi <? rsi_oversold_level;
        extreme_emotion := (rsi >? 90) || (rsi <? 10);
        rsi_value := rsi |}.

Definition _make_comprehensive_decision (trend : TrendDirection)
    (position : RelativePosition) (buy_sell_points : list BuyingSellPoint)
    (divergence : option Divergence) (emotion : Emotion) (data : DataFrame)
    : option TradingSignal :=
  let signal_type := HOLD in
  let strength := WEAK in
  let confidence := 0.5 in
  let reasons : list Note := [] in
  (* 1. trend and buy/sell point agree *)
  let '(signal_type, confidence, reasons) :=
    if bool_decide (trend = UP)
       && existsb (fun bp => bool_decide (bp ∈ [BUY_2; BUY_3]))
                  buy_sell_points
    then (BUY, confidence + 0.2,
          reasons ++ [TrendUpWithPoints buy_sell_points])
    else if bool_decide (trend = DOWN)
            && existsb (fun bp => bool_decide (bp ∈ [SELL_2; SELL_3]))
                       buy_sell_points
    then (SELL, confidence + 0.2,
          reasons ++ [TrendDownWithPoints buy_sell_points])
    else (signal_type, confidence, reasons) in
  (* 2. relative position *)
  let '(confidence, reasons) :=
    match signal_type with
    | BUY =>
        if bool_decide (position ∈ [LOW; MEDIUM_LOW])
        then (confidence + 0.2, reasons ++ [PositionLowSafe])
        else if bool_decide (position = HIGH)
        then (confidence - 0.1, reasons ++ [PositionHighCaution])
        else (confidence, reasons)
    | SELL =>
        if bool_decide (position ∈ [HIGH; MEDIUM_HIGH])
        then (confidence + 0.2, reasons ++ [PositionHighLimited])
        else (confidence, reasons)
    | HOLD => (confidence, reasons)
    end in
  (* 3. divergence confirmation *)
  let '(confidence, reasons) :=
    match divergence with
    | Some d =>
        if bool_decide (d = bearish_divergence)
           && bool_decide (signal_type = BUY)
        then (confidence + 0.15, reasons ++ [BottomDivergenceConfirmsBuy])
        else if bool_decide (d = bullish_divergence)
                && bool_decide (signal_type = SELL)
        then (confidence + 0.15, reasons ++ [TopDivergenceConfirmsSell])
        else (confidence, reasons)
    | None => (confidence, reasons)
    end in
  (* 4. emotion filter *)
  let '(strength, confidence, reasons) :=
    if extreme_emotion emotion then
      if rsi_oversold emotion && bool_decide (signal_type = BUY)
      then (STRONG, confidence + 0.1,
            reasons ++ [RsiExtremeOversold (rsi_value emotion)])
      else if rsi_overbought emotion && bool_decide (signal_type = SELL)
      then (STRONG, confidence + 0.1,
            reasons ++ [RsiExtremeOverbought (rsi_value emotion)])
      else (strength, confidence, reasons)
    else (strength, confidence, reasons) in
  (* 5. strength from confidence *)
  let strength :=
    if confidence >=? 0.8 then STRONG
    else if confidence >=? 0.6 then MEDIUM
    else strength in
  (* 6. final filter *)
  if bool_decide (signal_type = HOLD) || (confidence <? 0.5) then None
  else
    Some {| signal_type := signal_type;
            strength := strength;
            confidence := Qmin confidence 1.0;
            reason := ChangLunText reasons |}.

Definition calculate_signal (data : DataFrame)
    : result (option TradingSignal) :=
  if (length data <? position_lookback)%nat then Ok None
  else
    let fractals := _identify_fractals data in
    let strokes := _identify_strokes data fractals in
    match strokes with
    | [] => Ok None
    | _ :: _ =>
        trend_direction ← _analyze_trend data strokes;
        relative_position ← _calculate_relative_position data;
        let buy_sell_points :=
          _identify_buy_sell_points data strokes trend_direction in
        divergence_signal ← _detect_divergence data strokes;
        emotion_signal ← _monitor_emotion_indicators data;
        Ok (_make_comprehensive_decision trend_direction relative_position
              buy_sell_points divergence_signal emotion_signal data)
    end.

(** [calculate_signal] with the method [self._calculate_relative_position]
    it calls left open, as a subclass may override it. *)
Definition calculate_signal_with
    (_calculate_relative_position : DataFrame -> result RelativePosition)
    (data : DataFrame) : result (option TradingSignal) :=
  if (length data <? position_lookback)%nat then Ok None
  else
    let fractals := _identify_fractals data in
    let strokes := _identify_strokes data fractals in
    match strokes with
    | [] => Ok None
    | _ :: _ =>
        trend_direction ← _analyze_trend data strokes;
        relative_position ← _calculate_relative_position data;
        let buy_sell_points :=
          _identify_buy_sell_points data strokes trend_direction in
        divergence_signal ← _detect_divergence data strokes;
        emotion_signal ← _monitor_emotion_indicators data;
        Ok (_make_comprehensive_decision trend_direction relative_position
              buy_sell_points divergence_signal emotion_signal data)
    end.

Definition calculate_position_size (signal : TradingSignal)
    (market_data : DataFrame) : result Q :=
  let base_size := base_position in
  let size_multiplier :=
    match strength signal with
    | STRONG => 1.5
    | MEDIUM => 1.2
    | WEAK => 1.0
    end in
  let confidence_multiplier := confidence signal in
  position ← _calculate_relative_position market_data;
  let position_multiplier :=
    if bool_decide (signal_type signal = BUY) then
      if bool_decide (position = LOW) then 1.3
      else if bool_decide (position = HIGH) then 0.7
      else 1.0
    else 1.0 in
  let final_size :=
    base_size * size_multiplier * confidence_multiplier
    * position_multiplier in
  Ok (Qmin final_size max_position).

(** The dictionary [get_strategy_status] returns on enough data; the trend
    and the position are reported by the name of their enum member. *)
Record StatusReport := {
  status_trend_direction : TrendDirection;
  status_relative_position : RelativePosition;
  status_recent_strokes_count : nat;
  status_divergence_signal : option Divergence;
  status_rsi_value : Q;
  status_emotion_extreme : bool;
  status_last_fractal : option Fractal;
  status_last_stroke : option Stroke
}.

(** Either [{'status': 'insufficient_data'}] or the full report. *)
Inductive StrategyStatus :=
| insufficient_data
| report (r : StatusReport).

Definition get_strategy_status (data : DataFrame) : result StrategyStatus :=
  if (length data <? 50)%nat then Ok insufficient_data
  else
    let fractals := _identify_fractals data in
    let strokes := _identify_strokes data fractals in
    trend ← _analyze_trend data strokes;
    position ← _calculate_relative_position data;
    divergence ← _detect_divergence data strokes;
    emotion ← _monitor_emotion_indicators data;
    Ok (report
          {| status_trend_direction := trend;
             status_relative_position := position;
             status_recent_strokes_count := length strokes;
             status_divergence_signal := divergence;
             status_rsi_value := rsi_value emotion;
             status_emotion_extreme := extreme_emotion emotion;
             status_last_fractal := last fractals;
             status_last_stroke := last strokes |}).

(** [ChangLunStrategy(params)]: the object [__init__] builds. *)
Definition init : BaseStrategy.t :=
  BaseStrategy.init "ChangLun daily stroke strategy" 1.0
    calculate_signal get_required_indicators.

End ChangLunStrategy.

(** ** strategy_tree.py: [StrategyTree] *)

(** Object identities of strategies, and the state of every object. *)
Definition ref := nat.
Definition store := ref -> BaseStrategy.t.

Definition store_set (σ : store) (r : ref) (s : BaseStrategy.t) : store :=
  fun r' => if decide (r' = r) then s else σ r'.

(** One entry of [signal_history]. *)
Record HistoryEntry := {
  history_signal_type : SignalType;
  history_strength : SignalStrength;
  history_confidence : Q;
  history_buy_score : Q;
  history_sell_score : Q
}.

Module StrategyTree.

Record t := {
  strategies : list ref;
  signal_history : list HistoryEntry;
  risk_threshold : Q
}.

Definition init : t :=
  {| strategies := []; signal_history := []; risk_threshold := 0.6 |}.

Definition add_strategy (self : t) (strategy : ref) : t :=
  {| strategies := strategies self ++ [strategy];
     signal_history := signal_history self;
     risk_threshold := risk_threshold self |}.

Definition remove_strategy (σ : store) (self : t) (strategy_name : string)
    : t :=
  {| strategies :=
       filter (fun s => BaseStrategy.name (σ s) ≠ strategy_name)
              (strategies self);
     signal_history := signal_history self;
     risk_threshold := risk_threshold self |}.

(** First loop of [calculate_composite_signal]: the signals of the enabled
    strategies with their weights, and the running [total_weight]. *)
Fixpoint collect_signals (σ : store) (data : DataFrame) (l : list ref)
    (signals : list (TradingSignal * Q)) (total_weight : Q)
    : result (list (TradingSignal * Q) * Q) :=
  match l with
  | [] => Ok (signals, total_weight)
  | r :: l =>
      let strategy := σ r in
      if negb (BaseStrategy.enabled strategy)
      then collect_signals σ data l signals total_weight
      else
        signal ← BaseStrategy.calculate_signal strategy data;
        match signal with
        | Some signal =>
            collect_signals σ data l
              (signals ++ [(signal, BaseStrategy.weight strategy)])
              (total_weight + BaseStrategy.weight strategy)
        | None => collect_signals σ data l signals total_weight
        end
  end.

(** Second loop: [buy_score], [sell_score], [confidence_sum], [reasons]. *)
Definition score_step (acc : Q * Q * Q * list Text)
    (sw : TradingSignal * Q) : Q * Q * Q * list Text :=
  let '(buy_score, sell_score, confidence_sum, reasons) := acc in
  let '(signal, weight) := sw in
  let weighted_confidence := confidence signal * weight in
  let '(buy_score, sell_score) :=
    match signal_type signal with
    | BUY =>
        (buy_score + weighted_confidence * strength_value (strength signal),
         sell_score)
    | SELL =>
        (buy_score,
         sell_score + weighted_confidence * strength_value (strength signal))
    | HOLD => (buy_score, sell_score)
    end in
  (buy_score, sell_score, confidence_sum + weighted_confidence,
   reasons ++ [Weighted (reason signal) weight]).

Definition calculate_composite_signal (σ : store) (self : t)
    (data : DataFrame) : result (option TradingSignal * t) :=
  match strategies self with
  | [] => Ok (None, self)
  | _ :: _ =>
      '(signals, total_weight) ←
        collect_signals σ data (strategies self) [] 0;
      match signals with
      | [] => Ok (None, self)
      | _ :: _ =>
          let '(buy_score, sell_score, confidence_sum, reasons) :=
            fold_left score_step signals (0, 0, 0, []) in
          let '(buy_score, sell_score, confidence_sum) :=
            if total_weight >? 0
            then (buy_score / total_weight, sell_score / total_weight,
                  confidence_sum / total_weight)
            else (buy_score, sell_score, confidence_sum) in
          let signal_type := HOLD in
          let strength := WEAK in
          let '(signal_type, strength) :=
            if (buy_score >? sell_score)
               && (buy_score >? risk_threshold self)
            then (BUY,
                  if buy_score >? 0.8 then STRONG
                  else if buy_score >? 0.7 then MEDIUM
                  else strength)
            else if (sell_score >? buy_score)
                    && (sell_score >? risk_threshold self)
            then (SELL,
                  if sell_score >? 0.8 then STRONG
                  else if sell_score >? 0.7 then MEDIUM
                  else strength)
            else (signal_type, strength) in
          if bool_decide (signal_type = HOLD) then Ok (None, self)
          else
            let composite_signal :=
              {| signal_type := signal_type;
                 strength := strength;
                 confidence := confidence_sum;
                 reason := CompositeText reasons |} in
            Ok (Some composite_signal,
                {| strategies := strategies self;
                   signal_history :=
                     signal_history self ++
                     [ {| history_signal_type := signal_type;
                          history_strength := strength;
                          history_confidence := confidence_sum;
                          history_buy_score := buy_score;
                          history_sell_score := sell_score |} ];
                   risk_threshold := risk_threshold self |})
      end
  end.

(** The body of the loop of [optimize_weights] for one list entry. *)
Definition optimize_step (σ : store) (r : ref) : store :=
  let strategy := σ r in
  let win_rate := BaseStrategy.get_win_rate strategy in
  if win_rate >? 0.6
  then store_set σ r (BaseStrategy.adjust_weight strategy 1.1)
  else if win_rate <? 0.4
  then store_set σ r (BaseStrategy.adjust_weight strategy 0.9)
  else σ.

Definition optimize_weights (σ : store) (self : t) : store :=
  fold_left optimize_step (strategies self) σ.

End StrategyTree.

(** ** trend_strategy.py, strength_strategy.py: frames read by label *)

(** The indicator strategies read their frame by column label and tolerate
    missing columns ([Series.get]); a row is the finite map of its columns.
    The signals they build carry a [reason] formatted from their scores; it
    is kept as those scores. *)

Module Labelled.

Definition Series := gmap string Q.
Definition Frame := list Series.

Inductive exn := ValueError | IndexError | KeyError.

Inductive result (A : Type) :=
| Ok (a : A)
| Raise (e : exn).
Arguments Ok {A} a.
Arguments Raise {A} e.

#[global] Instance result_ret : MRet result := fun A a => Ok a.
#[global] Instance result_bind : MBind result := fun A B k m =>
  match m with
  | Ok a => k a
  | Raise e => Raise e
  end.

(** [data.iloc[-k]] for [k >= 1]. *)
Definition iloc_neg (data : Frame) (k : nat) : result Series :=
  match reverse data !! pred k with
  | Some row => Ok row
  | None => Raise IndexError
  end.

(** [row[label]] *)
Definition getitem (row : Series) (label : string) : result Q :=
  match row !! label with
  | Some x => Ok x
  | None => Raise KeyError
  end.

(** [row.get(label, fallback)] *)
Definition get (row : Series) (label : string) (fallback : Q) : Q :=
  default fallback (row !! label).

Record Signal (R : Type) := {
  signal_type : SignalType;
  strength : SignalStrength;
  confidence : Q;
  reason : R
}.
Arguments signal_type {R} _.
Arguments strength {R} _.
Arguments confidence {R} _.
Arguments reason {R} _.

(** Every row of the frame carries the same columns, as the rows of a
    [pandas.DataFrame] do. *)
Definition rectangular (data : Frame) : Prop :=
  Forall (fun row => Forall (fun row' => dom row =@{gset string} dom row') data)
         data.

End Labelled.

Module TrendStrategy.

Import Labelled.

Record t := { ma_periods : list Z }.

(** [__init__(ma_periods=[5, 20, 60])] *)
Definition init : t := {| ma_periods := [5; 20; 60]%Z |}.

(** [f'MA_{period}'] *)
Definition ma_column (period : Z) : string := "MA_" +:+ pretty period.

Definition get_required_indicators (self : t) : list string :=
  (ma_column <$> ma_periods self) ++ ["ADX"; "MACD"].

(** The two reasons of [calculate_signal], with the three scores they
    print. *)
Inductive Reason :=
| BullishTrendConfirmed (ma_trend_score adx_strength macd_signal : Q)
| BearishTrendConfirmed (ma_trend_score adx_strength macd_signal : Q).

(** [[latest[f'MA_{period}'] for period in periods]] *)
Fixpoint ma_values (latest : Series) (periods : list Z) : result (list Q) :=
  match periods with
  | [] => Ok []
  | period :: periods =>
      v ← getitem latest (ma_column period);
      vs ← ma_values latest periods;
      Ok (v :: vs)
  end.

(** [(ma_values[i], ma_values[i+1]) for i in range(len(ma_values)-1)] *)
Definition adjacent (ma_values : list Q) : list (Q * Q) :=
  zip ma_values (tail ma_values).

Definition _calculate_ma_trend (self : t) (data : Frame) : result Q :=
  latest ← iloc_neg data 1;
  ma_values ← ma_values latest (ma_periods self);
  if forallb (fun p => fst p >? snd p) (adjacent ma_values)
  then Ok 1.0
  else if forallb (fun p => fst p <? snd p) (adjacent ma_values)
  then Ok (-1.0)
  else
    Ok (fold_left
          (fun score p =>
             if fst p >? snd p then score + 0.3 else score - 0.3)
          (adjacent ma_values) 0).

Definition _calculate_adx_strength (latest_data : Series) : Q :=
  let adx := get latest_data "ADX" 0 in
  if adx >? 40 then 1.0
  else if adx >? 25 then 0.5
  else 0.0.

Definition _calculate_macd_signal (data : Frame) : result Q :=
  if (length data <? 2)%nat then Ok 0
  else
    current ← iloc_neg data 1;
    previous ← iloc_neg data 2;
    let macd := get current "MACD" 0 in
    let macd_signal := get current "MACD_Signal" 0 in
    let prev_macd := get previous "MACD" 0 in
    let prev_signal := get previous "MACD_Signal" 0 in
    if (macd >? macd_signal) && (prev_macd <=? prev_signal) then Ok 1.0
    else if (macd <? macd_signal) && (prev_macd >=? prev_signal)
    then Ok (-1.0)
    else if (macd >? macd_signal) && (macd >? 0) then Ok 0.5
    else if (macd <? macd_signal) && (macd <? 0) then Ok (-0.5)
    else Ok 0.

(** [max(periods)] of a list of integers; [ValueError] when it is empty. *)
Definition max_period (periods : list Z) : result Z :=
  match periods with
  | [] => Raise ValueError
  | period :: periods => Ok (fold_left Z.max periods period)
  end.

Definition calculate_signal (self : t) (data : Frame)
    : result (option (Signal Reason)) :=
  longest ← max_period (ma_periods self);
  if (Z.of_nat (length data) <? longest)%Z then Ok None
  else
    latest ← iloc_neg data 1;
    ma_trend_score ← _calculate_ma_trend self data;
    let adx_strength := _calculate_adx_strength latest in
    macd_signal ← _calculate_macd_signal data;
    let total_score := ma_trend_score + adx_strength + macd_signal in
    let confidence := Qmin (Qabs total_score / 3.0) 1.0 in
    if total_score >? 2
    then
      Ok (Some
            {| signal_type := BUY;
               strength := if total_score >? 2.5 then STRONG else MEDIUM;
               confidence := confidence;
               reason :=
                 BullishTrendConfirmed ma_trend_score adx_strength
                   macd_signal |})
    else if total_score <? -2
    then
      Ok (Some
            {| signal_type := SELL;
               strength := if total_score <? -2.5 then STRONG else MEDIUM;
               confidence := confidence;
               reason :=
                 BearishTrendConfirmed ma_trend_score adx_strength
                   macd_signal |})
    else Ok None.

End TrendStrategy.

Module StrengthStrategy.

Import Labelled.

Record t := { rsi_period : Z; momentum_period : Z }.

(** [__init__(rsi_period=14, momentum_period=10)] *)
Definition init : t := {| rsi_period := 14; momentum_period := 10 |}.

Definition get_required_indicators (self : t) : list string :=
  ["RSI"; "CCI"; "Williams_R"; "ROC"; "Volume_Ratio"].

(** The two reasons of [calculate_signal], with the four scores they
    print. *)
Inductive Reason :=
| StrongSignal (rsi_score cci_score wr_score roc_score : Q)
| WeakSignal (rsi_score cci_score wr_score roc_score : Q).

Definition _calculate_rsi_score (latest_data : Series) : Q :=
  let rsi := get latest_data "RSI" 50 in
  if rsi >? 80 then -1.0
  else if rsi >? 70 then -0.5
  else if rsi <? 20 then 1.0
  else if rsi <? 30 then 0.5
  else if rsi >? 50 then 0.2
  else -0.2.

Definition _calculate_cci_score (latest_data : Series) : Q :=
  let cci := get latest_data "CCI" 0 in
  if cci >? 200 then -0.8
  else if cci >? 100 then -0.4
  else if cci <? -200 then 0.8
  else if cci <? -100 then 0.4
  else cci / 200.

Definition _calculate_williams_score (latest_data : Series) : Q :=
  let wr := get latest_data "Williams_R" (-50) in
  if wr >? -20 then -1.0
  else if wr >? -40 then -0.3
  else if wr <? -80 then 1.0
  else if wr <? -60 then 0.3
  else 0.

Definition _calculate_roc_score (self : t) (data : Frame) : result Q :=
  if (Z.of_nat (length data) <? momentum_period self)%Z then Ok 0
  else
    latest ← iloc_neg data 1;
    let roc := get latest "ROC" 0 in
    if roc >? 10 then Ok 1.0
    else if roc >? 5 then Ok 0.5
    else if roc <? -10 then Ok (-1.0)
    else if roc <? -5 then Ok (-0.5)
    else Ok (roc / 10).

Definition _calculate_volume_score (latest_data : Series) : Q :=
  let volume_ratio := get latest_data "Volume_Ratio" 1.0 in
  if volume_ratio >? 2.0 then 0.8
  else if volume_ratio >? 1.5 then 0.5
  else if volume_ratio <? 0.5 then -0.3
  else 0.2.

Definition calculate_signal (self : t) (data : Frame)
    : result (option (Signal Reason)) :=
  if (Z.of_nat (length data) <? momentum_period self)%Z then Ok None
  else
    latest ← iloc_neg data 1;
    let rsi_score := _calculate_rsi_score latest in
    let cci_score := _calculate_cci_score latest in
    let wr_score := _calculate_williams_score latest in
    roc_score ← _calculate_roc_score self data;
    let volume_score := _calculate_volume_score latest in
    let weights := [0.3; 0.2; 0.2; 0.2; 0.1] in
    let scores := [rsi_score; cci_score; wr_score; roc_score; volume_score] in
    let total_score :=
      fold_left (fun acc ws => acc + fst ws * snd ws) (zip weights scores) 0 in
    let confidence := Qmin (Qabs total_score) 1.0 in
    if total_score >? 0.6
    then
      Ok (Some
            {| signal_type := BUY;
               strength := if total_score >? 0.8 then STRONG else MEDIUM;
               confidence := confidence;
               reason := StrongSignal rsi_score cci_score wr_score roc_score |})
    else if total_score <? -0.6
    then
      Ok (Some
            {| signal_type := SELL;
               strength := if total_score <? -0.8 then STRONG else MEDIUM;
               confidence := confidence;
               reason := WeakSignal rsi_score cci_score wr_score roc_score |})
    else Ok None.

End StrengthStrategy.

(** ** Concrete inputs used by the examples below *)

Module Examples.

Definition flat_bar (ts : Z) (macd : Q) (rsi : Q) : Bar :=
  {| timestamp := ts; high := 1; low := 1; close := 1;
     MA_5 := 1; MA_20 := 1; MA_60 := 1;
     MACD := macd; MACD_Hist := 0; RSI := rsi |}.

(** Fifty flat bars whose MACD is 2 at position 10, 1 at position 20 and 0
    elsewhere. *)
Definition macd_frame : DataFrame :=
  (fun i : nat =>
     flat_bar (Z.of_nat i)
              (if (i =? 10)%nat then 2 else if (i =? 20)%nat then 1 else 0)
              50)
  <$> seq 0 50.

Definition fractal (i : nat) (ty : FractalType) (p : Q) : Fractal :=
  {| fractal_index := i; fractal_type := ty; price := p;
     fractal_timestamp := Z.of_nat i |}.



(** The same two strokes preceded by an earlier down-stroke. *)
Definition three_strokes : list Stroke :=
  ChangLunStrategy._identify_strokes []
    (fractal 0 top 12 :: fractal 5 bottom 10 :: fractal 10 top 11
     :: [fractal 15 bottom 6.6]).

(** up to 10, down to 9, up to 12, down to 7.2 (a 0.40 retracement). *)
Definition four_strokes : list Stroke :=
  ChangLunStrategy._identify_strokes []
    [fractal 0 bottom 8; fractal 5 top 10; fractal 10 bottom 9;
     fractal 15 top 12; fractal 20 bottom 7.2].

(** down to 10, up to 12, down to 9, up to 12.6 (a 0.40 rebound). *)
Definition four_strokes_down : list Stroke :=
  ChangLunStrategy._identify_strokes []
    [fractal 0 top 14; fractal 5 bottom 10; fractal 10 top 12;
     fractal 15 bottom 9; fractal 20 top 12.6].

Definition stroke (d : Direction) (s e : Fractal) : Stroke :=
  {| start_fractal := s; end_fractal := e; direction := d;
     stroke_strength :=
       match d with
       | up => (price e - price s) / price s
       | down => (price s - price e) / price s
       end;
     start_index := fractal_index s; end_index := fractal_index e |}.

(** Two up-strokes in a row, ending at 10 (position 10) and at 12
    (position 20). *)
Definition up_pair : list Stroke :=
  [stroke up (fractal 5 bottom 8) (fractal 10 top 10);
   stroke up (fractal 15 bottom 9) (fractal 20 top 12)].

(** Two down-strokes in a row, ending at 12 (position 20) and at 10
    (position 10 of the frame is read for the later one). *)
Definition down_pair : list Stroke :=
[stroke down (fractal 15 top 14) (fractal 20 bottom 12);
 stroke down (fractal 5 top 13) (fractal 10 bottom 10)].

Definition calm : Emotion :=
  {| rsi_overbought := false; rsi_oversold := false;
     extreme_emotion := false; rsi_value := 50 |}.

(** What [_monitor_emotion_indicators] returns for an RSI of 5. *)
Definition extreme_oversold : Emotion :=
  {| rsi_overbought := false; rsi_oversold := true;
     extreme_emotion := true; rsi_value := 5 |}.

(** A strategy that always emits the given signal. *)
Definition constant_strategy (name : string) (weight : Q)
    (ty : SignalType) (st : SignalStrength) (c : Q) : BaseStrategy.t :=
  BaseStrategy.init name weight
    (fun _ => Ok (Some {| signal_type := ty; strength := st;
                            confidence := c; reason := Plain name |}))
    [].

(** Object 0 emits buy/strong/0.9, every other object sell/weak/0.9. *)
Definition scenario_D_store : store := fun r =>
  match r with
  | O => constant_strategy "buyer" 1.0 BUY STRONG 0.9
  | S _ => constant_strategy "seller" 1.0 SELL WEAK 0.9
  end.

Definition scenario_D_tree : StrategyTree.t :=
  StrategyTree.add_strategy
    (StrategyTree.add_strategy StrategyTree.init 0%nat) 1%nat.

(** Object 0 has a recorded win rate of 0.65 and weight 1.0; the other
    objects only ever had [update_performance] called. *)
Definition scenario_E_store : store := fun r =>
  match r with
  | O =>
      BaseStrategy.set_performance_metrics
        (constant_strategy "winner" 1.0 BUY STRONG 0.9)
        {[ "win_rate"%string := 0.65 ]}
  | S _ =>
      snd (BaseStrategy.update_performance
             (constant_strategy "trader" 1.0 SELL WEAK 0.9) 12.5)
  end.

(** Ten bars whose highs and lows rise by one from bar to bar. *)
Definition rising_frame : DataFrame :=
(fun i : nat =>
   {| timestamp := Z.of_nat i;
      high := inject_Z (Z.of_nat i) + 1; low := inject_Z (Z.of_nat i);
      close := inject_Z (Z.of_nat i);
      MA_5 := 1; MA_20 := 1; MA_60 := 1;
      MACD := 0; MACD_Hist := 0; RSI := 50 |})
<$> seq 0 10.

(** Seven bars with highs 10, 12, 15, 11, 9 in the middle and flat lows. *)
Definition peak_frame : DataFrame :=
(fun h : Q =>
   {| timestamp := 0; high := h; low := 1; close := 1;
      MA_5 := 1; MA_20 := 1; MA_60 := 1;
      MACD := 0; MACD_Hist := 0; RSI := 50 |})
<$> [9; 10; 12; 15; 11; 9; 9].

(** 130 bars in waves of twelve: a low of 1 at positions 2, 14, 26, ... and
    a high of 9 at positions 8, 20, 32, ...; elsewhere highs are 5 and lows
    3.  The averages are in rising order and the RSI is 95. *)
Definition wave_frame : DataFrame :=
(fun i : nat =>
   {| timestamp := Z.of_nat i;
      high := if (i mod 12 =? 8)%nat then 9 else 5;
      low := if (i mod 12 =? 2)%nat then 1 else 3;
      close := 4;
      MA_5 := 3; MA_20 := 2; MA_60 := 1;
      MACD := 0; MACD_Hist := 0; RSI := 95 |})
<$> seq 0 130.

(** The bars of [data] with every close replaced by [c]. *)
Definition closing_at (c : Q) (data : DataFrame) : DataFrame :=
(fun b : Bar =>
   {| timestamp := timestamp b; high := high b; low := low b;
      close := c; MA_5 := MA_5 b; MA_20 := MA_20 b; MA_60 := MA_60 b;
      MACD := MACD b; MACD_Hist := MACD_Hist b; RSI := RSI b |})
<$> data.

(** A tree that was handed object 0 once. *)
Definition single_tree : StrategyTree.t :=
  StrategyTree.add_strategy StrategyTree.init 0%nat.

(** A tree that was handed object 0 twice. *)
Definition twice_listed_tree : StrategyTree.t :=
  StrategyTree.add_strategy
    (StrategyTree.add_strategy StrategyTree.init 0%nat) 0%nat.

(** A tree that was handed object 1 twice. *)
Definition twice_listed_trader_tree : StrategyTree.t :=
  StrategyTree.add_strategy
    (StrategyTree.add_strategy StrategyTree.init 1%nat) 1%nat.

(** Every object is a strategy of weight 3.0 that recorded one trade. *)
Definition heavy_store : store := fun _ =>
  snd (BaseStrategy.update_performance
         (constant_strategy "heavy" 3.0 SELL WEAK 0.9) 12.5).

End Examples.

(** ** Concrete labelled frames *)

Module LabelledExamples.

Import Labelled.

(** [n] rows without any column. *)
Definition blank_rows (n : nat) : Frame := replicate n (∅ : Series).

(** Sixty rows; the last two carry a golden cross of the MACD, the last one
    a bullish alignment of the three default averages and an ADX of 45. *)
Definition bullish_frame : Frame :=
  blank_rows 58 ++
  [ {[ "MACD" := -1; "MACD_Signal" := 0 ]};
    {[ "MA_5" := 12; "MA_20" := 11; "MA_60" := 10;
       "ADX" := 45; "MACD" := 1; "MACD_Signal" := 0 ]} ].

(** The same rows with an ADX of 30 only. *)
Definition moderate_frame : Frame :=
  blank_rows 58 ++
  [ {[ "MACD" := -1; "MACD_Signal" := 0 ]};
    {[ "MA_5" := 12; "MA_20" := 11; "MA_60" := 10;
       "ADX" := 30; "MACD" := 1; "MACD_Signal" := 0 ]} ].

(** Sixty rows whose last one lacks the 60-period average. *)
Definition frame_without_MA_60 : Frame :=
  blank_rows 59 ++ [ {[ "MA_5" := 12; "MA_20" := 11 ]} ].

(** A strategy over five averages, and five rows ending in a dead cross
    where the two shortest averages are equal and the others ascend. *)
Definition five_periods : TrendStrategy.t :=
  {| TrendStrategy.ma_periods := [1; 2; 3; 4; 5]%Z |}.

Definition sagging_frame : Frame :=
  blank_rows 3 ++
  [ {[ "MACD" := 1; "MACD_Signal" := 0 ]};
    {[ "MA_1" := 1; "MA_2" := 1; "MA_3" := 2; "MA_4" := 3; "MA_5" := 4;
       "MACD" := -1; "MACD_Signal" := 0 ]} ].

(** Ten rows ending in a deeply oversold one on heavy volume. *)
Definition oversold_frame : Frame :=
  blank_rows 9 ++
  [ {[ "RSI" := 15; "CCI" := -250; "Williams_R" := -90; "ROC" := 12;
       "Volume_Ratio" := 2.5 ]} ].

(** Ten rows ending in a deeply overbought one on thin volume. *)
Definition overbought_frame : Frame :=
  blank_rows 9 ++
  [ {[ "RSI" := 85; "CCI" := 250; "Williams_R" := -10; "ROC" := -12;
       "Volume_Ratio" := 0.4 ]} ].

(** Sixty rows with the six columns of the trend strategy: fifty-nine quiet
    ones with the MACD below its signal line, then a bullish alignment of
    the averages with an ADX of 45 and the MACD above its signal line. *)
Definition crossing_frame : Frame :=
  replicate 59
    ({[ "MA_5" := 10; "MA_20" := 10; "MA_60" := 10;
        "ADX" := 10; "MACD" := -1; "MACD_Signal" := 0 ]} : Series)
  ++ [ {[ "MA_5" := 12; "MA_20" := 11; "MA_60" := 10;
          "ADX" := 45; "MACD" := 1; "MACD_Signal" := 0 ]} ].

End LabelledExamples.

(** ** Notions used to state the properties *)

(** The strength rule of step 5 of the decision, read off a confidence. *)
Definition strength_of_confidence (c : Q) : SignalStrength :=
  if c >=? 0.8 then STRONG
  else if c >=? 0.6 then MEDIUM
  else WEAK.

(** Sum of the weights, and of the weighted confidences, of the collected
    [(signal, weight)] pairs of a fusion. *)
Fixpoint total_weight_of (signals : list (TradingSignal * Q)) : Q :=
  match signals with
  | [] => 0
  | (_, weight) :: rest => weight + total_weight_of rest
  end.

Fixpoint weighted_confidence_of (signals : list (TradingSignal * Q)) : Q :=
  match signals with
  | [] => 0
  | (signal, weight) :: rest =>
      confidence signal * weight + weighted_confidence_of rest
  end.

(** A contribution within the documented ranges: confidence in [0,1] and
    weight in [0.1, 2.0]. *)
Definition contribution_in_range (sw : TradingSignal * Q) : Prop :=
  (0 <= confidence (fst sw) <= 1) /\ (0.1 <= snd sw <= 2.0).

(** Performance metrics that were filled by [update_performance] alone,
    starting from the empty dictionary of [__init__]. *)
Inductive only_updated : BaseStrategy.t -> Prop :=
| only_updated_init name weight calculate_signal get_required_indicators :
    only_updated
      (BaseStrategy.init name weight calculate_signal get_required_indicators)
| only_updated_update self profit_loss :
    only_updated self ->
    only_updated (snd (BaseStrategy.update_performance self profit_loss))
| only_updated_adjust self performance_factor :
    only_updated self ->
    only_updated (BaseStrategy.adjust_weight self performance_factor).

(** The weight one adaptation pass gives a source of win rate [win_rate]
    and weight [w], as the specification words it. *)
Definition adapted_weight (win_rate w : Q) : Q :=
  if win_rate >? 0.6 then Qmax 0.1 (Qmin 2.0 (w * 1.1))
  else if win_rate <? 0.4 then Qmax 0.1 (Qmin 2.0 (w * 0.9))
  else w.

(** What the body of the loop of [optimize_weights] makes of one strategy
    object. *)
Definition adapted_strategy (strategy : BaseStrategy.t) : BaseStrategy.t :=
  let win_rate := BaseStrategy.get_win_rate strategy in
  if win_rate >? 0.6 then BaseStrategy.adjust_weight strategy 1.1
  else if win_rate <? 0.4 then BaseStrategy.adjust_weight strategy 0.9
  else strategy.

(** The two reasons that record a divergence confirmation (step 3). *)
Definition divergence_free (notes : list Note) : Prop :=
  (BottomDivergenceConfirmsBuy ∉ notes)
  /\ (TopDivergenceConfirmsSell ∉ notes).

(** A stroke as [_identify_strokes] builds it: up from a bottom to a top,
    down from a top to a bottom. *)
Definition stroke_shape (s : Stroke) : Prop :=
  match direction s with
  | up => fractal_type (start_fractal s) = bottom
          /\ fractal_type (end_fractal s) = top
  | down => fractal_type (start_fractal s) = top
            /\ fractal_type (end_fractal s) = bottom
  end.

(** Strokes, latest first, each starting where the one before it ended. *)
Fixpoint linked (reversed : list Stroke) : Prop :=
  match reversed with
  | later :: (earlier :: _) as rest =>
      end_fractal earlier = start_fractal later /\ linked rest
  | _ => True
  end.

(** What every stroke built from the fractal list [fractals] looks like.
    The source divides by the starting price unguarded, so the strength is
    described for a starting price other than zero only. *)
Definition stroke_built_from (fractals : list Fractal) (s : Stroke) : Prop :=
  start_fractal s ∈ fractals
  /\ end_fractal s ∈ fractals
  /\ fractal_type (start_fractal s) <> fractal_type (end_fractal s)
  /\ (fractal_index (start_fractal s) + 5
      <= fractal_index (end_fractal s))%nat
  /\ start_index s = fractal_index (start_fractal s)
  /\ end_index s = fractal_index (end_fractal s)
  /\ (direction s = up <->
      fractal_type (start_fractal s) = bottom
      /\ fractal_type (end_fractal s) = top)
  /\ (~ price (start_fractal s) == 0 ->
      stroke_strength s
      = match direction s with
        | up => (price (end_fractal s) - price (start_fractal s))
                / price (start_fractal s)
        | down => (price (start_fractal s) - price (end_fractal s))
                  / price (start_fractal s)
        end).

(** [update_performance] called once per profit or loss of [trades], in
    order: what each call returned, and the object afterwards. *)
Fixpoint record_trades (self : BaseStrategy.t) (trades : list Q)
    : list (result unit) * BaseStrategy.t :=
  match trades with
  | [] => ([], self)
  | profit_loss :: rest =>
      let '(outcome, self) := BaseStrategy.update_performance self profit_loss in
      let '(outcomes, self) := record_trades self rest in
      (outcome :: outcomes, self)
  end.

Definition sum_of (l : list Q) : Q := foldr Qplus 0 l.

(** * Properties *)

Import ChangLunStrategy.

(** ** Boolean comparisons against their propositions *)

Lemma Qltb_lt (x y : Q) : (x <? y) = true <-> x < y.
Proof.
  unfold Qltb. rewrite Qlt_alt.
  destruct (x ?= y); split; congruence.
Qed.

Lemma Qleb_le (x y : Q) : (x <=? y) = true <-> x <= y.
Proof.
  unfold Qleb. rewrite Qle_alt.
  destruct (x ?= y); split; congruence.
Qed.

Lemma Qltb_ge (x y : Q) : (x <? y) = false <-> y <= x.
Proof.
  rewrite <- Qleb_le. unfold Qltb, Qleb.
  rewrite <- (Qcompare_antisym x y).
  destruct (x ?= y); simpl; split; congruence.
Qed.

Lemma Qleb_gt (x y : Q) : (x <=? y) = false <-> y < x.
Proof.
  rewrite <- Qltb_lt. unfold Qltb, Qleb.
  rewrite <- (Qcompare_antisym x y).
  destruct (x ?= y); simpl; split; congruence.
Qed.

Lemma Qmin_cases (x y : Q) :
  (x <= y /\ Qmin x y = x) \/ (y < x /\ Qmin x y = y).
Proof.
  unfold Qmin, GenericMinMax.gmin.
  destruct (x ?= y) eqn:E.
  - left. split; [apply Qle_alt; congruence | reflexivity].
  - left. split; [apply Qle_alt; congruence | reflexivity].
  - right. split; [apply Qgt_alt; exact E | reflexivity].
Qed.

Lemma Qmax_cases (x y : Q) :
  (x < y /\ Qmax x y = y) \/ (y <= x /\ Qmax x y = x).
Proof.
  unfold Qmax, GenericMinMax.gmax.
  destruct (x ?= y) eqn:E.
  - right. split; [apply Qle_alt; rewrite <- Qcompare_antisym, E; discriminate
                  | reflexivity].
  - left. split; [apply Qlt_alt; exact E | reflexivity].
  - right. split; [apply Qle_alt; rewrite <- Qcompare_antisym, E; discriminate
                  | reflexivity].
Qed.

(** ** Reading the end of a list of strokes *)

Lemma reverse_snoc2 {A} (pre : list A) (a b : A) :
  reverse (pre ++ [a; b]) = b :: a :: reverse pre.
Proof. rewrite reverse_app. reflexivity. Qed.


Lemma length_snoc2 {A} (pre : list A) (a b : A) :
  length (pre ++ [a; b]) = S (S (length pre)).
Proof. rewrite length_app. simpl. lia. Qed.

(** ** Scenario D: fusion of a strong buy and a weak sell *)

(** C1 (amended). With two enabled sources of weight 1.0, one emitting
    buy/strong/0.9 and the other sell/weak/0.9, and threshold 0.6, the
    normalised buy score is 1.35 and the sell score 0.45, so
    [calculate_composite_signal] emits a buy signal of strength strong
    whose confidence is 0.9. *)
Theorem scenario_D_composite_is_strong_buy (σ : store)
    (self : StrategyTree.t) (data : DataFrame) (buyer seller : ref)
    (sb ss : TradingSignal) :
  StrategyTree.strategies self = [buyer; seller]
  \/ StrategyTree.strategies self = [seller; buyer] ->
  StrategyTree.risk_threshold self = 0.6 ->
  BaseStrategy.enabled (σ buyer) = true ->
  BaseStrategy.weight (σ buyer) = 1.0 ->
  BaseStrategy.calculate_signal (σ buyer) data = Ok (Some sb) ->
  signal_type sb = BUY /\ strength sb = STRONG /\ confidence sb = 0.9 ->
  BaseStrategy.enabled (σ seller) = true ->
  BaseStrategy.weight (σ seller) = 1.0 ->
  BaseStrategy.calculate_signal (σ seller) data = Ok (Some ss) ->
  signal_type ss = SELL /\ strength ss = WEAK /\ confidence ss = 0.9 ->
  exists s self',
    StrategyTree.calculate_composite_signal σ self data = Ok (Some s, self')
    /\ signal_type s = BUY
    /\ strength s = STRONG
    /\ confidence s == 0.9.
Proof.
  intros two_sources threshold buyer_enabled buyer_weight buyer_signal
    (Hb1 & Hb2 & Hb3) seller_enabled seller_weight seller_signal
    (Hs1 & Hs2 & Hs3).
  destruct sb as [ty1 st1 c1 r1], ss as [ty2 st2 c2 r2]; simpl in *; subst.
  unfold StrategyTree.calculate_composite_signal.
  destruct two_sources as [-> | ->];
    cbn [StrategyTree.collect_signals];
    rewrite buyer_enabled, seller_enabled; cbn [negb];
    rewrite buyer_signal, seller_signal;
    rewrite buyer_weight, seller_weight, threshold;
    cbn; eexists _, _;
    (split; [cbv; reflexivity | repeat split; reflexivity]).
Qed.

(** C1, as stated, fails: on the store and tree of scenario D the fusion
    returns a signal, and that signal is a strong buy. *)
Lemma scenario_D_returns_a_signal :
  exists s self',
    StrategyTree.calculate_composite_signal
      Examples.scenario_D_store Examples.scenario_D_tree [] = Ok (Some s, self')
    /\ StrategyTree.strategies Examples.scenario_D_tree = [0%nat; 1%nat]
    /\ signal_type s = BUY
    /\ strength s = STRONG.
Proof.
  eexists _, _. split; [reflexivity |]. repeat split; reflexivity.
Qed.

Lemma scenario_D_composite_is_strong_buy_witness :
  exists s self',
    StrategyTree.calculate_composite_signal
      Examples.scenario_D_store Examples.scenario_D_tree [] = Ok (Some s, self')
    /\ signal_type s = BUY
    /\ strength s = STRONG
    /\ confidence s == 0.9.
Proof.
  eapply (scenario_D_composite_is_strong_buy
            Examples.scenario_D_store Examples.scenario_D_tree []
            0%nat 1%nat).
  - left. reflexivity.
  - reflexivity.
  - reflexivity.
  - reflexivity.
  - reflexivity.
  - repeat split; reflexivity.
  - reflexivity.
  - reflexivity.
  - reflexivity.
  - repeat split; reflexivity.
Defined.

(** ** Scenario C: the second buy point and the composed signal *)






(** ** The divergence detector *)

(** C3 (amended). On a frame of at least 50 bars whose two latest strokes
    have the same direction: an up-directed pair whose later end price is
    higher while the MACD at the later end is lower is reported as
    ['bullish_divergence'] (the label the code gives to a top divergence),
    and a down-directed pair whose later end price is lower while the MACD at
    the later end is higher is reported as ['bearish_divergence'] (its label
    for a bottom divergence). *)
Theorem detect_divergence_labels (data : DataFrame) (pre : list Stroke)
    (prev_stroke latest_stroke : Stroke) (macd1 macd2 : Q) :
  (50 <= length data)%nat ->
  direction prev_stroke = direction latest_stroke ->
  (MACD <$> data) !! end_index prev_stroke = Some macd1 ->
  (MACD <$> data) !! end_index latest_stroke = Some macd2 ->
  let strokes := pre ++ [prev_stroke; latest_stroke] in
  (direction latest_stroke = up ->
   price (end_fractal prev_stroke) < price (end_fractal latest_stroke) ->
   macd2 < macd1 ->
   _detect_divergence data strokes = Ok (Some bullish_divergence))
  /\
  (direction latest_stroke = down ->
   price (end_fractal latest_stroke) < price (end_fractal prev_stroke) ->
   macd1 < macd2 ->
   _detect_divergence data strokes = Ok (Some bearish_divergence)).
Proof.
  intros Hlen Hsame Hm1 Hm2 strokes.
  assert (Hguard :
    ((length strokes <? 2)%nat || (length data <? 50)%nat) = false).
  { unfold strokes. rewrite length_snoc2.
    apply orb_false_iff. split; [reflexivity |].
    apply Nat.ltb_ge. exact Hlen. }
  split; intros Hdir Hprice Hmacd;
    unfold _detect_divergence; rewrite Hguard;
    unfold strokes; rewrite reverse_snoc2;
    rewrite bool_decide_eq_false_2 by (intros Hne; apply Hne; congruence);
    rewrite Hdir; unfold at_index; rewrite Hm1, Hm2; cbn;
    apply Qltb_lt in Hprice, Hmacd; rewrite Hprice, Hmacd; reflexivity.
Qed.

(** C3, as stated, fails: two consecutive up-strokes with a higher end price
    (12 after 10) and a lower MACD (1 after 2) on a 50-bar frame are
    reported as ['bullish_divergence'], not as bearish; and the same pair on
    the first 49 bars of that frame is not reported at all. *)
Lemma up_pair_is_labelled_bullish :
  (direction <$> Examples.up_pair) = [up; up]
  /\ ((fun s => price (end_fractal s)) <$> Examples.up_pair) = [10; 12]
  /\ ((fun s => col MACD Examples.macd_frame (end_index s))
        <$> Examples.up_pair) = [2; 1]
  /\ _detect_divergence Examples.macd_frame Examples.up_pair
     = Ok (Some bullish_divergence)
  /\ _detect_divergence (take 49 Examples.macd_frame) Examples.up_pair
     = Ok None.
Proof. repeat split; reflexivity. Qed.

Lemma detect_divergence_labels_witness :
  _detect_divergence Examples.macd_frame Examples.up_pair
  = Ok (Some bullish_divergence)
  /\ _detect_divergence Examples.macd_frame Examples.down_pair
     = Ok (Some bearish_divergence).
Proof.
  split.
  - refine (proj1 (detect_divergence_labels Examples.macd_frame []
                     (Examples.stroke up (Examples.fractal 5 bottom 8)
                                         (Examples.fractal 10 top 10))
                     (Examples.stroke up (Examples.fractal 15 bottom 9)
                                         (Examples.fractal 20 top 12))
                     2 1 _ _ _ _) _ _ _).
    + vm_compute. lia.
    + reflexivity.
    + reflexivity.
    + reflexivity.
    + reflexivity.
    + reflexivity.
    + reflexivity.
  - refine (proj2 (detect_divergence_labels Examples.macd_frame []
                     (Examples.stroke down (Examples.fractal 15 top 14)
                                           (Examples.fractal 20 bottom 12))
                     (Examples.stroke down (Examples.fractal 5 top 13)
                                           (Examples.fractal 10 bottom 10))
                     1 2 _ _ _ _) _ _ _).
    + vm_compute. lia.
    + reflexivity.
    + reflexivity.
    + reflexivity.
    + reflexivity.
    + reflexivity.
    + reflexivity.
Defined.

(** ** Strength of the composed signal *)

(** Every emitted signal carries the strength that step 5 derives from its
    confidence: the [STRONG] assigned by the emotion filter of step 4 is
    always overwritten, because a confidence that received the filter's
    +0.1 is at least 0.7. *)
Lemma decision_strength_follows_confidence (trend : TrendDirection)
    (position : RelativePosition) (buy_sell_points : list BuyingSellPoint)
    (divergence : option Divergence) (emotion : Emotion) (data : DataFrame)
    (s : TradingSignal) :
  _make_comprehensive_decision trend position buy_sell_points divergence
    emotion data = Some s ->
  strength s = strength_of_confidence (confidence s).
Proof.
  unfold _make_comprehensive_decision.
  destruct emotion as [overbought oversold extreme rsi].
  destruct (existsb (fun bp => bool_decide (bp ∈ [BUY_2; BUY_3]))
              buy_sell_points),
           (existsb (fun bp => bool_decide (bp ∈ [SELL_2; SELL_3]))
              buy_sell_points);
    destruct trend, position, divergence as [[|]|],
             overbought, oversold, extreme;
    cbn; intros [= <-]; reflexivity.
Qed.

(** C4 fails on the code. In an up trend with a buy point, a high relative
    position and an extremely oversold RSI the emotion filter fires (its
    reason is recorded and its +0.1 is added), yet the emitted strength is
    medium: step 5 overwrites the forced strong because the confidence is
    0.7. *)
Theorem emotion_override_is_overwritten :
  exists s notes,
    _make_comprehensive_decision UP HIGH [BUY_2] None
      Examples.extreme_oversold [] = Some s
    /\ signal_type s = BUY
    /\ reason s = ChangLunText notes
    /\ RsiExtremeOversold 5 ∈ notes
    /\ confidence s == 0.7
    /\ strength s = MEDIUM.
Proof.
  eexists _, _. split; [reflexivity |].
  split; [reflexivity |].
  split; [reflexivity |].
  split; [| split; reflexivity].
  apply list_elem_of_In. simpl. tauto.
Qed.

(** ** Buy and sell points are reported one at a time *)

(** C5 (amended). The second-point test is tried first and the third-point
    test only when it fails: the classifier never reports more than one
    point, and when both the buy_2 and the buy_3 test pass behind the trend
    and direction gates (up trend, latest stroke down, previous stroke up)
    it reports buy_2 alone; symmetrically sell_2 alone in a down trend. *)
Theorem buy_sell_points_are_exclusive (data : DataFrame) :
  (forall strokes trend,
     (length (_identify_buy_sell_points data strokes trend) <= 1)%nat)
  /\
  (forall pre prev_stroke latest_stroke,
     let strokes := pre ++ [prev_stroke; latest_stroke] in
     direction latest_stroke = down ->
     direction prev_stroke = up ->
     _is_second_buy_point data strokes = true ->
     _is_third_buy_point data strokes = true ->
     _identify_buy_sell_points data strokes UP = [BUY_2])
  /\
  (forall pre prev_stroke latest_stroke,
     let strokes := pre ++ [prev_stroke; latest_stroke] in
     direction latest_stroke = up ->
     direction prev_stroke = down ->
     _is_second_sell_point data strokes = true ->
     _is_third_sell_point data strokes = true ->
     _identify_buy_sell_points data strokes DOWN = [SELL_2]).
Proof.
  split; [| split].
  - intros strokes trend. unfold _identify_buy_sell_points.
    destruct (reverse strokes) as [|latest_stroke [|prev_stroke rest]];
      [simpl; lia | simpl; lia |].
    destruct trend; repeat case_match; simpl; lia.
  - intros pre prev_stroke latest_stroke strokes Hdown Hup Hsecond _.
    assert (Hlen : (3 <=? length strokes)%nat = true).
    { unfold _is_second_buy_point in Hsecond.
      destruct (length strokes <? 3)%nat eqn:E; [discriminate |].
      apply Nat.ltb_ge in E. apply Nat.leb_le. exact E. }
    unfold _identify_buy_sell_points. fold strokes.
    unfold strokes at 1. rewrite reverse_snoc2. fold strokes.
    rewrite Hlen, Hsecond, !bool_decide_eq_true_2 by assumption.
    reflexivity.
  - intros pre prev_stroke latest_stroke strokes Hup Hdown Hsecond _.
    assert (Hlen : (3 <=? length strokes)%nat = true).
    { unfold _is_second_sell_point in Hsecond.
      destruct (length strokes <? 3)%nat eqn:E; [discriminate |].
      apply Nat.ltb_ge in E. apply Nat.leb_le. exact E. }
    unfold _identify_buy_sell_points. fold strokes.
    unfold strokes at 1. rewrite reverse_snoc2. fold strokes.
    rewrite Hlen, Hsecond, !bool_decide_eq_true_2 by assumption.
    reflexivity.
Qed.

(** C5, as stated, fails: on four strokes (up to 10, down, up to 12, down
    by 0.40) in an up trend both the buy_2 and the buy_3 test pass, and the
    classifier reports buy_2 only. *)
Lemma both_buy_tests_pass_one_reported :
  _is_second_buy_point [] Examples.four_strokes = true
  /\ _is_third_buy_point [] Examples.four_strokes = true
  /\ _identify_buy_sell_points [] Examples.four_strokes UP = [BUY_2]
  /\ BUY_3 ∉ _identify_buy_sell_points [] Examples.four_strokes UP.
Proof.
  repeat split; try reflexivity.
  intros Hin. apply list_elem_of_In in Hin. simpl in Hin.
  destruct Hin as [Heq | []]. discriminate.
Qed.

Lemma buy_sell_points_are_exclusive_witness :
  (length (_identify_buy_sell_points [] Examples.four_strokes UP) <= 1)%nat
  /\ _identify_buy_sell_points [] Examples.four_strokes UP = [BUY_2]
  /\ _identify_buy_sell_points [] Examples.four_strokes_down DOWN = [SELL_2].
Proof.
  destruct (buy_sell_points_are_exclusive []) as (Hone & Hbuy & Hsell).
  split; [apply Hone |].
  split.
  - apply (Hbuy (take 2 Examples.four_strokes)
             (Examples.stroke up (Examples.fractal 10 bottom 9)
                                 (Examples.fractal 15 top 12))
             (Examples.stroke down (Examples.fractal 15 top 12)
                                   (Examples.fractal 20 bottom 7.2)));
      reflexivity.
  - apply (Hsell (take 2 Examples.four_strokes_down)
             (Examples.stroke down (Examples.fractal 10 top 12)
                                   (Examples.fractal 15 bottom 9))
             (Examples.stroke up (Examples.fractal 15 bottom 9)
                                 (Examples.fractal 20 top 12.6)));
      reflexivity.
Defined.

(** ** Confidence stays in [0,1] and hold is never materialised *)

Lemma decision_confidence_range (trend : TrendDirection)
    (position : RelativePosition) (buy_sell_points : list BuyingSellPoint)
    (divergence : option Divergence) (emotion : Emotion) (data : DataFrame)
    (s : TradingSignal) :
  _make_comprehensive_decision trend position buy_sell_points divergence
    emotion data = Some s ->
  0.5 <= confidence s <= 1 /\ signal_type s <> HOLD.
Proof.
  unfold _make_comprehensive_decision.
  destruct emotion as [overbought oversold extreme rsi].
  destruct (existsb (fun bp => bool_decide (bp ∈ [BUY_2; BUY_3]))
              buy_sell_points),
           (existsb (fun bp => bool_decide (bp ∈ [SELL_2; SELL_3]))
              buy_sell_points);
    destruct trend, position, divergence as [[|]|],
             overbought, oversold, extreme;
    cbn; intros [= <-]; cbn;
    (split; [split; apply Qle_bool_imp_le; reflexivity | discriminate]).
Qed.

Section Fusion.

Variables (σ : store) (data : DataFrame).

Lemma total_weight_of_app (l1 l2 : list (TradingSignal * Q)) :
  total_weight_of (l1 ++ l2) == total_weight_of l1 + total_weight_of l2.
Proof.
  induction l1 as [|[sig w] l1 IH]; simpl; [lra |]. rewrite IH. lra.
Qed.

(** The first loop appends contributions of enabled strategies and adds
    exactly their weights to [total_weight]. *)
Lemma collect_signals_spec (l : list ref) :
  forall signals total_weight signals' total_weight',
    (forall r sig,
       r ∈ l ->
       BaseStrategy.enabled (σ r) = true ->
       BaseStrategy.calculate_signal (σ r) data = Ok (Some sig) ->
       contribution_in_range (sig, BaseStrategy.weight (σ r))) ->
    StrategyTree.collect_signals σ data l signals total_weight
    = Ok (signals', total_weight') ->
    exists new,
      signals' = signals ++ new
      /\ Forall contribution_in_range new
      /\ total_weight' == total_weight + total_weight_of new.
Proof.
  induction l as [|r l IH]; intros signals tw signals' tw' Hok Hrun.
  - simpl in Hrun. injection Hrun as <- <-.
    exists []. rewrite app_nil_r. repeat split; [constructor | simpl; lra].
  - simpl in Hrun.
    assert (Hok' : forall r' sig,
              r' ∈ l ->
              BaseStrategy.enabled (σ r') = true ->
              BaseStrategy.calculate_signal (σ r') data = Ok (Some sig) ->
              contribution_in_range (sig, BaseStrategy.weight (σ r'))).
    { intros r' sig Hin. apply Hok. right. exact Hin. }
    destruct (BaseStrategy.enabled (σ r)) eqn:Hen; simpl in Hrun.
    + destruct (BaseStrategy.calculate_signal (σ r) data) as [[sig|]|e]
        eqn:Hsig; simpl in Hrun; [| eauto | discriminate].
      destruct (IH _ _ _ _ Hok' Hrun) as (new & -> & Hnew & Htw).
      exists ((sig, BaseStrategy.weight (σ r)) :: new).
      split; [rewrite <- app_assoc; reflexivity |].
      split.
      * constructor; [| exact Hnew].
        apply Hok; [left | exact Hen | exact Hsig].
      * simpl. rewrite Htw. lra.
    + eauto.
Qed.

(** The second loop adds exactly the weighted confidences. *)
Lemma score_fold_confidence (signals : list (TradingSignal * Q)) :
  forall acc,
    snd (fst (fold_left StrategyTree.score_step signals acc))
    == snd (fst acc) + weighted_confidence_of signals.
Proof.
  induction signals as [|[sig w] signals IH]; intros acc; simpl; [lra |].
  rewrite IH. destruct acc as [[[b s] c] rs]. simpl.
  destruct (signal_type sig); simpl; lra.
Qed.

Lemma weighted_confidence_bounds (signals : list (TradingSignal * Q)) :
  Forall contribution_in_range signals ->
  0 <= weighted_confidence_of signals <= total_weight_of signals.
Proof.
  induction 1 as [|[sig w] signals [[Hc0 Hc1] [Hw0 Hw1]] _ IH]; simpl in *.
  - lra.
  - assert (0 <= confidence sig * w) by (apply Qmult_le_0_compat; lra).
    assert (0 <= (1 - confidence sig) * w)
      by (apply Qmult_le_0_compat; lra).
    lra.
Qed.

Lemma total_weight_positive (signals : list (TradingSignal * Q)) :
  Forall contribution_in_range signals ->
  signals <> [] ->
  0 < total_weight_of signals.
Proof.
  intros Hall Hne.
  destruct Hall as [|[sig w] signals [_ [Hw0 _]] Hall]; [congruence |].
  assert (0 <= total_weight_of signals).
  { clear -Hall. induction Hall as [|[sig' w'] l [_ [Hw _]] _ IH];
      simpl in *; lra. }
  simpl in *. lra.
Qed.

End Fusion.

Lemma composite_confidence_range (σ : store) (self : StrategyTree.t)
    (data : DataFrame) (s : TradingSignal) (self' : StrategyTree.t) :
  (forall r sig,
     r ∈ StrategyTree.strategies self ->
     BaseStrategy.enabled (σ r) = true ->
     BaseStrategy.calculate_signal (σ r) data = Ok (Some sig) ->
     contribution_in_range (sig, BaseStrategy.weight (σ r))) ->
  StrategyTree.calculate_composite_signal σ self data = Ok (Some s, self') ->
  0 <= confidence s <= 1 /\ signal_type s <> HOLD.
Proof.
  intros Hok. unfold StrategyTree.calculate_composite_signal.
  destruct (StrategyTree.strategies self) as [|r0 l0] eqn:Hl; [discriminate |].
  destruct (StrategyTree.collect_signals σ data (r0 :: l0) [] 0)
    as [[signals tw]|e] eqn:Hrun; [| discriminate].
  destruct (collect_signals_spec σ data _ _ _ _ _ Hok Hrun)
    as (new & Hsig & Hnew & Htw).
  simpl in Hsig. subst signals. cbn [mbind result_bind].
  destruct new as [|sw new']; [discriminate |].
  assert (Hne : sw :: new' <> []) by discriminate.
  set (signals := sw :: new') in *. clearbody signals.
  pose proof (score_fold_confidence signals (0, 0, 0, [])) as Hsum.
  pose proof (weighted_confidence_bounds signals Hnew) as [Hlo Hhi].
  assert (Hpos : 0 < tw).
  { pose proof (total_weight_positive signals Hnew Hne). lra. }
  destruct (fold_left StrategyTree.score_step signals (0, 0, 0, []))
    as [[[buy_score sell_score] confidence_sum] reasons].
  simpl in Hsum.
  apply Qltb_lt in Hpos as Hnorm. rewrite Hnorm.
  assert (Hrange : 0 <= confidence_sum / tw <= 1).
  { split.
    - apply Qle_shift_div_l; lra.
    - apply Qle_shift_div_r; lra. }
  repeat case_match; intros [= <- _]; simplify_eq; simpl;
    (split; [exact Hrange | discriminate]).
Qed.

(** C6. Every signal emitted by the decision function has a confidence in
    [0,1] and is not a hold; and every composite signal emitted by the
    fusion, when each contributing signal has confidence in [0,1] and each
    contributing weight lies in [0.1, 2.0], has a confidence in [0,1] and is
    not a hold.  A hold outcome is the absence of a signal. *)
Theorem emitted_confidence_in_unit_interval :
  (forall trend position buy_sell_points divergence emotion data s,
     _make_comprehensive_decision trend position buy_sell_points divergence
       emotion data = Some s ->
     0 <= confidence s <= 1 /\ signal_type s <> HOLD)
  /\
  (forall σ self data s self',
     (forall r sig,
        r ∈ StrategyTree.strategies self ->
        BaseStrategy.enabled (σ r) = true ->
        BaseStrategy.calculate_signal (σ r) data = Ok (Some sig) ->
        (0 <= confidence sig <= 1)
        /\ (0.1 <= BaseStrategy.weight (σ r) <= 2.0)) ->
     StrategyTree.calculate_composite_signal σ self data
     = Ok (Some s, self') ->
     0 <= confidence s <= 1 /\ signal_type s <> HOLD).
Proof.
  split.
  - intros trend position buy_sell_points divergence emotion data s Hs.
    destruct (decision_confidence_range _ _ _ _ _ _ _ Hs) as [[Hlo Hhi] Hty].
    split; [split; lra | exact Hty].
  - intros σ self data s self' Hok Hs.
    apply (composite_confidence_range σ self data s self'); [| exact Hs].
    exact Hok.
Qed.

Lemma emitted_confidence_in_unit_interval_witness :
  (exists s,
     _make_comprehensive_decision UP LOW [BUY_2] None Examples.calm []
     = Some s
     /\ 0 <= confidence s <= 1 /\ signal_type s <> HOLD)
  /\
  (exists s self',
     StrategyTree.calculate_composite_signal
       Examples.scenario_D_store Examples.scenario_D_tree []
     = Ok (Some s, self')
     /\ 0 <= confidence s <= 1 /\ signal_type s <> HOLD).
Proof.
  destruct emitted_confidence_in_unit_interval as [Hdecision Hfusion].
  split.
  - eexists. split; [reflexivity |].
    apply (Hdecision UP LOW [BUY_2] None Examples.calm []). reflexivity.
  - eexists _, _. split; [reflexivity |].
    eapply (Hfusion Examples.scenario_D_store Examples.scenario_D_tree []);
      [| reflexivity].
    intros r sig _ _ Hsig.
    destruct r as [|r]; injection Hsig as <-;
      (split; split; apply Qle_bool_imp_le; reflexivity).
Defined.

(** ** Weight adaptation *)

Lemma optimize_step_at (σ : store) (r r' : ref) :
  StrategyTree.optimize_step σ r r'
  = if decide (r' = r) then adapted_strategy (σ r) else σ r'.
Proof.
  unfold StrategyTree.optimize_step, adapted_strategy, store_set.
  destruct (Qltb 0.6 (BaseStrategy.get_win_rate (σ r)));
    [reflexivity |].
  destruct (Qltb (BaseStrategy.get_win_rate (σ r)) 0.4);
    [reflexivity |].
  destruct (decide (r' = r)) as [-> |]; reflexivity.
Qed.

(** A pass leaves alone every object the tree does not list. *)
Lemma optimize_weights_not_listed (l : list ref) (σ : store) (r : ref) :
  r ∉ l -> fold_left StrategyTree.optimize_step l σ r = σ r.
Proof.
  revert σ. induction l as [|a l IH]; intros σ Hnotin; [reflexivity |].
  simpl. rewrite IH by (intros Hin; apply Hnotin; right; exact Hin).
  rewrite optimize_step_at.
  destruct (decide (r = a)) as [-> |]; [| reflexivity].
  exfalso. apply Hnotin. left.
Qed.

(** A pass runs the loop body once on every object listed once. *)
Lemma optimize_weights_listed_once (l : list ref) (σ : store) (r : ref) :
  NoDup l -> r ∈ l ->
  fold_left StrategyTree.optimize_step l σ r = adapted_strategy (σ r).
Proof.
  revert σ. induction l as [|a l IH]; intros σ Hnodup Hin.
  - apply elem_of_nil in Hin. destruct Hin.
  - apply NoDup_cons in Hnodup as [Ha Hnodup]. simpl.
    destruct (decide (r = a)) as [-> | Hne].
    + rewrite optimize_weights_not_listed by exact Ha.
      rewrite optimize_step_at. rewrite decide_True by reflexivity.
      reflexivity.
    + apply elem_of_cons in Hin as [Heq | Hin]; [congruence |].
      rewrite IH by assumption.
      rewrite optimize_step_at. rewrite decide_False by exact Hne.
      reflexivity.
Qed.

(** A pass runs the loop body on an object once per occurrence. *)
Lemma optimize_weights_count (l : list ref) :
  forall (σ : store) (r : ref),
    fold_left StrategyTree.optimize_step l σ r
    = Nat.iter (count_occ Nat.eq_dec l r) adapted_strategy (σ r).
Proof.
  induction l as [|a l IH]; intros σ r; [reflexivity |].
  cbn [fold_left count_occ]. rewrite IH, optimize_step_at.
  destruct (Nat.eq_dec a r) as [-> | Hne].
  - rewrite decide_True by reflexivity.
    rewrite Nat.iter_succ_r. reflexivity.
  - rewrite decide_False by congruence. reflexivity.
Qed.

Lemma adjust_weight_weight (strategy : BaseStrategy.t) (factor : Q) :
  BaseStrategy.weight (BaseStrategy.adjust_weight strategy factor)
  = Qmax 0.1 (Qmin 2.0 (BaseStrategy.weight strategy * factor)).
Proof. reflexivity. Qed.

Lemma adapted_strategy_weight (strategy : BaseStrategy.t) :
  BaseStrategy.weight (adapted_strategy strategy)
  = adapted_weight (BaseStrategy.get_win_rate strategy)
                   (BaseStrategy.weight strategy).
Proof.
  unfold adapted_strategy, adapted_weight.
  destruct (Qltb 0.6 (BaseStrategy.get_win_rate strategy));
    [reflexivity |].
  destruct (Qltb (BaseStrategy.get_win_rate strategy) 0.4); reflexivity.
Qed.

Lemma clamp_above_floor (x : Q) :
  0.1 < x -> Qmax 0.1 (Qmin 2.0 x) = Qmin 2.0 x.
Proof.
  intros Hx.
  destruct (Qmax_cases 0.1 (Qmin 2.0 x)) as [[_ ->] | [Hle _]];
    [reflexivity |].
  exfalso. destruct (Qmin_cases 2.0 x) as [[_ E] | [_ E]];
    rewrite E in Hle; lra.
Qed.

Lemma adapted_strategy_win_rate (strategy : BaseStrategy.t) :
  BaseStrategy.get_win_rate (adapted_strategy strategy)
  = BaseStrategy.get_win_rate strategy.
Proof.
  unfold adapted_strategy.
  destruct (Qltb 0.6 (BaseStrategy.get_win_rate strategy));
    [reflexivity |].
  destruct (Qltb (BaseStrategy.get_win_rate strategy) 0.4); reflexivity.
Qed.

(** Adapting an object [n] times adapts its weight [n] times, at the win
    rate it had at the start. *)
Lemma iter_adapted_strategy (n : nat) (strategy : BaseStrategy.t) :
  BaseStrategy.get_win_rate (Nat.iter n adapted_strategy strategy)
  = BaseStrategy.get_win_rate strategy
  /\ BaseStrategy.weight (Nat.iter n adapted_strategy strategy)
     = Nat.iter n (adapted_weight (BaseStrategy.get_win_rate strategy))
                (BaseStrategy.weight strategy).
Proof.
  induction n as [|n [IHrate IHweight]]; [split; reflexivity |].
  rewrite !Nat.iter_succ. split.
  - rewrite adapted_strategy_win_rate. exact IHrate.
  - rewrite adapted_strategy_weight, IHrate, IHweight. reflexivity.
Qed.

(** C7 (amended). One adaptation pass adapts a source once for each time
    the tree's strategy list holds it, each time mapping the current weight
    [w] to [max(0.1, min(2.0, w * 1.1))] when the source's win rate exceeds
    0.6, to [max(0.1, min(2.0, w * 0.9))] when it is below 0.4, and leaving
    it unchanged otherwise; the win rate is the same at every visit.  So a
    source the list holds once gets the mapping once, and in particular
    such a source with recorded win rate 0.65 and weight at least 0.1 ends
    with [min(2.0, w * 1.1)]. *)
Theorem optimize_weights_adapts_each_source (σ : store)
    (self : StrategyTree.t) (r : ref) :
  let w := BaseStrategy.weight (σ r) in
  let win_rate := BaseStrategy.get_win_rate (σ r) in
  let visits := count_occ Nat.eq_dec (StrategyTree.strategies self) r in
  let w' := BaseStrategy.weight (StrategyTree.optimize_weights σ self r) in
  w' = Nat.iter visits
         (fun w => if win_rate >? 0.6 then Qmax 0.1 (Qmin 2.0 (w * 1.1))
                   else if win_rate <? 0.4 then Qmax 0.1 (Qmin 2.0 (w * 0.9))
                   else w)
         w
  /\ BaseStrategy.get_win_rate (StrategyTree.optimize_weights σ self r)
     = win_rate
  /\ (visits = 1%nat ->
      (0.6 < win_rate -> w' = Qmax 0.1 (Qmin 2.0 (w * 1.1)))
      /\ (win_rate < 0.4 -> w' = Qmax 0.1 (Qmin 2.0 (w * 0.9)))
      /\ (0.4 <= win_rate <= 0.6 -> w' = w)
      /\ (BaseStrategy.performance_metrics (σ r) !! "win_rate"%string
          = Some 0.65 ->
          0.1 <= w ->
          w' = Qmin 2.0 (w * 1.1))).
Proof.
  intros w win_rate visits w'.
  assert (Hpass : StrategyTree.optimize_weights σ self r
                  = Nat.iter visits adapted_strategy (σ r))
    by apply optimize_weights_count.
  destruct (iter_adapted_strategy visits (σ r)) as [Hrate Hweight].
  fold win_rate w in Hrate, Hweight.
  split; [unfold w'; rewrite Hpass; exact Hweight |].
  split; [rewrite Hpass; exact Hrate |].
  intros Honce.
  assert (Hw' : w' = adapted_weight win_rate w).
  { unfold w'. rewrite Hpass, Hweight, Honce. reflexivity. }
  rewrite Hw'. unfold adapted_weight.
  repeat split.
  - intros Hhigh. apply Qltb_lt in Hhigh. rewrite Hhigh. reflexivity.
  - intros Hlow.
    assert (Hnot : Qltb 0.6 win_rate = false) by (apply Qltb_ge; lra).
    apply Qltb_lt in Hlow. rewrite Hnot, Hlow. reflexivity.
  - intros [Hlo Hhi].
    assert (H1 : Qltb 0.6 win_rate = false) by (apply Qltb_ge; lra).
    assert (H2 : Qltb win_rate 0.4 = false) by (apply Qltb_ge; lra).
    rewrite H1, H2. reflexivity.
  - intros Hrecorded Hw.
    assert (Hrate' : win_rate = 0.65).
    { unfold win_rate, BaseStrategy.get_win_rate. rewrite Hrecorded.
      reflexivity. }
    rewrite Hrate'. change (Qltb 0.6 0.65) with true. cbv iota.
    apply clamp_above_floor. unfold w in *. lra.
Qed.

(** C7, as stated, fails: a source of win rate 0.65 and weight 1.0 that the
    list holds twice ends one pass with weight 1.21, not with
    [max(0.1, min(2.0, 1.0 * 1.1))]. *)
Lemma source_listed_twice_is_adapted_twice :
  0%nat ∈ StrategyTree.strategies Examples.twice_listed_tree
  /\ BaseStrategy.get_win_rate (Examples.scenario_E_store 0%nat) = 0.65
  /\ BaseStrategy.weight (Examples.scenario_E_store 0%nat) = 1.0
  /\ BaseStrategy.weight
       (StrategyTree.optimize_weights
          Examples.scenario_E_store Examples.twice_listed_tree 0%nat)
     == 1.21
  /\ ~ BaseStrategy.weight
         (StrategyTree.optimize_weights
            Examples.scenario_E_store Examples.twice_listed_tree 0%nat)
       == Qmax 0.1 (Qmin 2.0 (1.0 * 1.1)).
Proof.
  split; [compute_done |].
  split; [reflexivity |]. split; [reflexivity |].
  split; [vm_compute; reflexivity | vm_compute; discriminate].
Qed.

Lemma optimize_weights_adapts_each_source_witness :
  BaseStrategy.weight
    (StrategyTree.optimize_weights
       Examples.scenario_E_store Examples.scenario_D_tree 0%nat)
  = Qmin 2.0 (1.0 * 1.1).
Proof.
  destruct (optimize_weights_adapts_each_source
              Examples.scenario_E_store Examples.scenario_D_tree 0%nat)
    as (_ & _ & Honce).
  destruct (Honce eq_refl) as (_ & _ & _ & Hrecorded).
  apply Hrecorded; [reflexivity | vm_compute; discriminate].
Defined.

(** ** Short series *)

Lemma Qleb_compat (x x' y y' : Q) :
  x == x' -> y == y' -> Qleb x y = Qleb x' y'.
Proof. intros Ex Ey. unfold Qleb. rewrite Ex, Ey. reflexivity. Qed.

Lemma Qeq_bool_compat (x x' y y' : Q) :
  x == x' -> y == y' -> Qeq_bool x y = Qeq_bool x' y'.
Proof.
  intros Ex Ey.
  destruct (Qeq_bool x y) eqn:E, (Qeq_bool x' y') eqn:E'; try reflexivity.
  - apply Qeq_bool_iff in E.
    assert (H : x' == y') by (rewrite <- Ex, <- Ey; exact E).
    apply Qeq_bool_iff in H. congruence.
  - apply Qeq_bool_iff in E'.
    assert (H : x == y) by (rewrite Ex, Ey; exact E').
    apply Qeq_bool_iff in H. congruence.
Qed.

Lemma lastn_short {A} (n : nat) (l : list A) :
  (length l <= n)%nat -> lastn n l = l.
Proof.
  intros Hlen. unfold lastn.
  replace (length l - n)%nat with 0%nat by lia. reflexivity.
Qed.

(** The class is a function of the highest high and the lowest low of the
    window and of the last close. *)
Lemma relative_position_depends (data data' : DataFrame) (latest latest' : Bar) :
  last data = Some latest -> last data' = Some latest' ->
  series_max (high <$> lastn 120 data')
  == series_max (high <$> lastn 120 data) ->
  series_min (low <$> lastn 120 data')
  == series_min (low <$> lastn 120 data) ->
  close latest' == close latest ->
  _calculate_relative_position data' = _calculate_relative_position data.
Proof.
  intros Hlast Hlast' Hhi Hlo Hc.
  unfold _calculate_relative_position, position_lookback, iloc_last.
  rewrite Hlast, Hlast'. cbn [mbind result_bind].
  set (hi := series_max (high <$> lastn 120 data)) in *.
  set (lo := series_min (low <$> lastn 120 data)) in *.
  set (hi' := series_max (high <$> lastn 120 data')) in *.
  set (lo' := series_min (low <$> lastn 120 data')) in *.
  clearbody hi lo hi' lo'.
  rewrite (Qeq_bool_compat hi' hi lo' lo Hhi Hlo).
  assert (Hpct : (if Qeq_bool hi lo then 0.5
                  else (close latest' - lo') / (hi' - lo'))
                 == (if Qeq_bool hi lo then 0.5
                     else (close latest - lo) / (hi - lo))).
  { destruct (Qeq_bool hi lo) eqn:E; [reflexivity |].
    rewrite Hhi, Hlo, Hc. reflexivity. }
  rewrite !(Qleb_compat _ _ _ _ (Qeq_refl _) Hpct). reflexivity.
Qed.

Lemma relative_position_anchors (data : DataFrame) (latest : Bar) :
  last data = Some latest ->
  let hi := series_max (high <$> lastn 120 data) in
  let lo := series_min (low <$> lastn 120 data) in
  let c := close latest in
  (hi == lo -> _calculate_relative_position data = Ok MEDIUM_POS)
  /\ (lo < hi -> hi <= c -> _calculate_relative_position data = Ok HIGH)
  /\ (lo < hi -> c <= lo -> _calculate_relative_position data = Ok LOW).
Proof.
  intros Hlast hi lo c.
  unfold _calculate_relative_position, position_lookback, iloc_last.
  rewrite Hlast. cbn [mbind result_bind]. fold hi lo c. clearbody hi lo c.
  split; [| split].
  - intros Hflat. apply Qeq_bool_iff in Hflat. rewrite Hflat. reflexivity.
  - intros Hrange Htop.
    assert (Hneq : Qeq_bool hi lo = false).
    { destruct (Qeq_bool hi lo) eqn:E; [| reflexivity].
      apply Qeq_bool_iff in E. lra. }
    rewrite Hneq.
    assert (H8 : Qleb 0.8 ((c - lo) / (hi - lo)) = true).
    { apply Qleb_le. apply Qle_shift_div_l; lra. }
    rewrite H8. reflexivity.
  - intros Hrange Hbottom.
    assert (Hneq : Qeq_bool hi lo = false).
    { destruct (Qeq_bool hi lo) eqn:E; [| reflexivity].
      apply Qeq_bool_iff in E. lra. }
    rewrite Hneq.
    assert (Hpct : (c - lo) / (hi - lo) <= 0).
    { apply Qle_shift_div_r; lra. }
    assert (H8 : Qleb 0.8 ((c - lo) / (hi - lo)) = false)
      by (apply Qleb_gt; lra).
    assert (H6 : Qleb 0.6 ((c - lo) / (hi - lo)) = false)
      by (apply Qleb_gt; lra).
    assert (H4 : Qleb 0.4 ((c - lo) / (hi - lo)) = false)
      by (apply Qleb_gt; lra).
    assert (H2 : Qleb 0.2 ((c - lo) / (hi - lo)) = false)
      by (apply Qleb_gt; lra).
    rewrite H8, H6, H4, H2. reflexivity.
Qed.

(** Within one window the class never falls as the close rises. *)
Lemma relative_position_monotone (data data' : DataFrame)
    (latest latest' : Bar) (p p' : RelativePosition) :
  last data = Some latest -> last data' = Some latest' ->
  series_max (high <$> lastn 120 data')
  == series_max (high <$> lastn 120 data) ->
  series_min (low <$> lastn 120 data')
  == series_min (low <$> lastn 120 data) ->
  series_min (low <$> lastn 120 data)
  <= series_max (high <$> lastn 120 data) ->
  close latest <= close latest' ->
  _calculate_relative_position data = Ok p ->
  _calculate_relative_position data' = Ok p' ->
  (position_value p <= position_value p')%Z.
Proof.
  intros Hlast Hlast' Hhi Hlo Hrange Hc.
  unfold _calculate_relative_position, position_lookback, iloc_last.
  rewrite Hlast, Hlast'. cbn [mbind result_bind].
  set (hi := series_max (high <$> lastn 120 data)) in *.
  set (lo := series_min (low <$> lastn 120 data)) in *.
  set (hi' := series_max (high <$> lastn 120 data')) in *.
  set (lo' := series_min (low <$> lastn 120 data')) in *.
  clearbody hi lo hi' lo'.
  rewrite (Qeq_bool_compat hi' hi lo' lo Hhi Hlo).
  destruct (Qeq_bool hi lo) eqn:E.
  { intros [= <-] [= <-]. simpl. lia. }
  assert (Hd : 0 < hi - lo).
  { destruct (Qlt_le_dec lo hi) as [H | H]; [lra |].
    assert (Heq : hi == lo) by lra.
    apply Qeq_bool_iff in Heq. congruence. }
  assert (Hpct : (close latest - lo) / (hi - lo)
                 <= (close latest' - lo') / (hi' - lo')).
  { rewrite Hhi, Hlo. apply Qmult_le_compat_r; [lra |].
    apply Qlt_le_weak, Qinv_lt_0_compat. exact Hd. }
  set (x := (close latest - lo) / (hi - lo)) in *.
  set (x' := (close latest' - lo') / (hi' - lo')) in *.
  clearbody x x'.
  destruct (Qleb 0.8 x) eqn:A8, (Qleb 0.6 x) eqn:A6, (Qleb 0.4 x) eqn:A4,
           (Qleb 0.2 x) eqn:A2,
           (Qleb 0.8 x') eqn:B8, (Qleb 0.6 x') eqn:B6, (Qleb 0.4 x') eqn:B4,
           (Qleb 0.2 x') eqn:B2;
    intros [= <-] [= <-]; simpl; try lia; exfalso;
    repeat match goal with
           | H : Qleb _ _ = true |- _ => apply Qleb_le in H
           | H : Qleb _ _ = false |- _ => apply Qleb_gt in H
           end; lra.
Qed.

Lemma iloc_last_nonempty {A} (l : list A) :
  l <> [] -> exists a, iloc_last l = Ok a.
Proof.
  intros Hne. unfold iloc_last.
  destruct (last l) as [a|] eqn:E; [eauto |].
  apply last_None in E. congruence.
Qed.

Lemma analyze_trend_total (data : DataFrame) (strokes : list Stroke) :
  data <> [] -> exists trend, _analyze_trend data strokes = Ok trend.
Proof.
  intros Hne. unfold _analyze_trend.
  destruct (length strokes <? 3)%nat; [eauto |].
  destruct (iloc_last_nonempty data Hne) as [latest ->].
  cbn [mbind result_bind]. repeat case_match; eauto.
Qed.

Lemma relative_position_total (data : DataFrame) :
  data <> [] -> exists p, _calculate_relative_position data = Ok p.
Proof.
  intros Hne. unfold _calculate_relative_position.
  destruct (iloc_last_nonempty data Hne) as [latest ->].
  cbn [mbind result_bind]. repeat case_match; eauto.
Qed.

(** C8 (amended). On fewer than 120 bars [calculate_signal] returns no
    signal, and its length test comes before the position locator is
    consulted: whatever the locator would do on the series, even raise,
    the result is [None], whereas from 120 bars on, once a stroke is found,
    the locator is consulted and what it raises is raised.  The position
    locator itself has no minimum length: for every non-empty series it
    returns a relative-position class, and on fewer than 120 bars the class
    is computed over all the bars there are: medium when their highest high
    equals their lowest low, otherwise high when the last close is at or
    above the highest high and low when it is at or below the lowest low,
    and in any case a function of that high, that low and the last
    close. *)
Theorem short_series_guard_is_in_calculate_signal :
  (forall locator (data : DataFrame),
     (length data < 120)%nat -> calculate_signal_with locator data = Ok None)
  /\
  (forall data : DataFrame,
     calculate_signal_with _calculate_relative_position data
     = calculate_signal data)
  /\
  (forall data : DataFrame,
     (length data < 120)%nat -> calculate_signal data = Ok None)
  /\
  (forall (data : DataFrame) (e : exn),
     (120 <= length data)%nat ->
     _identify_strokes data (_identify_fractals data) <> [] ->
     calculate_signal_with (fun _ => Raise e) data = Raise e)
  /\
  (forall (data : DataFrame) (latest : Bar),
     (length data < 120)%nat ->
     last data = Some latest ->
     let hi := series_max (high <$> data) in
     let lo := series_min (low <$> data) in
     let c := close latest in
     (exists p, _calculate_relative_position data = Ok p)
     /\ (hi == lo -> _calculate_relative_position data = Ok MEDIUM_POS)
     /\ (lo < hi -> hi <= c -> _calculate_relative_position data = Ok HIGH)
     /\ (lo < hi -> c <= lo -> _calculate_relative_position data = Ok LOW)
     /\ (forall (data' : DataFrame) (latest' : Bar),
           (length data' < 120)%nat ->
           last data' = Some latest' ->
           series_max (high <$> data') == hi ->
           series_min (low <$> data') == lo ->
           close latest' == c ->
           _calculate_relative_position data'
           = _calculate_relative_position data)).
Proof.
  split; [| split; [| split; [| split]]].
  - intros locator data Hlen. unfold calculate_signal_with, position_lookback.
    apply Nat.ltb_lt in Hlen. rewrite Hlen. reflexivity.
  - reflexivity.
  - intros data Hlen. unfold calculate_signal, position_lookback.
    apply Nat.ltb_lt in Hlen. rewrite Hlen. reflexivity.
  - intros data e Hlen Hstrokes.
    unfold calculate_signal_with, position_lookback.
    apply Nat.ltb_ge in Hlen. rewrite Hlen.
    destruct (_identify_strokes data (_identify_fractals data))
      as [|s strokes] eqn:E; [congruence |].
    assert (Hne : data <> []).
    { intros ->. apply Nat.ltb_ge in Hlen. simpl in Hlen. lia. }
    destruct (analyze_trend_total data (s :: strokes) Hne) as [trend ->].
    reflexivity.
  - intros data latest Hlen Hlast hi lo c.
    assert (Hwindow : lastn 120 data = data)
      by (apply lastn_short; lia).
    assert (Hne : data <> []) by (intros ->; discriminate).
    split; [apply relative_position_total; exact Hne |].
    pose proof (relative_position_anchors data latest Hlast) as Hanchors.
    cbv zeta in Hanchors. rewrite Hwindow in Hanchors.
    destruct Hanchors as (Hflat & Htop & Hbottom).
    split; [exact Hflat |]. split; [exact Htop |]. split; [exact Hbottom |].
    intros data' latest' Hlen' Hlast' Hhi Hlo Hc.
    apply (relative_position_depends data data' latest latest' Hlast Hlast').
    + rewrite Hwindow, lastn_short by lia. exact Hhi.
    + rewrite Hwindow, lastn_short by lia. exact Hlo.
    + exact Hc.
Qed.

(** C8, as stated, fails: on a series of one bar the position locator
    returns the class medium. *)
Lemma position_of_one_bar :
  (length [Examples.flat_bar 0 0 50] < 120)%nat
  /\ _calculate_relative_position [Examples.flat_bar 0 0 50] = Ok MEDIUM_POS.
Proof. split; [simpl; lia | reflexivity]. Qed.

Lemma short_series_guard_is_in_calculate_signal_witness :
  calculate_signal_with (fun _ => Raise KeyError) Examples.rising_frame
  = Ok None
  /\ calculate_signal_with (fun _ => Raise KeyError) Examples.wave_frame
     = Raise KeyError
  /\ _calculate_relative_position Examples.peak_frame = Ok LOW.
Proof.
  destruct short_series_guard_is_in_calculate_signal
    as (Hguard & _ & _ & Hconsulted & Hlocator).
  split; [apply Hguard; vm_compute; lia |].
  split.
  - apply Hconsulted; [vm_compute; lia | vm_compute; discriminate].
  - destruct (Hlocator Examples.peak_frame _ ltac:(vm_compute; lia) eq_refl)
      as (_ & _ & _ & Hbottom & _).
    apply Hbottom; [reflexivity | apply Qle_bool_imp_le; reflexivity].
Defined.

(** ** The divergence confirmation never applies *)

(** A reported point needs the two latest strokes to differ in direction. *)
Lemma buy_sell_points_need_a_turn (data : DataFrame) (strokes : list Stroke)
    (trend : TrendDirection) :
  _identify_buy_sell_points data strokes trend <> [] ->
  exists latest_stroke prev_stroke rest,
    reverse strokes = latest_stroke :: prev_stroke :: rest
    /\ direction latest_stroke <> direction prev_stroke.
Proof.
  unfold _identify_buy_sell_points.
  destruct (reverse strokes) as [|latest_stroke [|prev_stroke rest]];
    [congruence | congruence |].
  intros Hpts. exists latest_stroke, prev_stroke, rest.
  split; [reflexivity |].
  destruct trend, (direction latest_stroke), (direction prev_stroke);
    simpl in Hpts; rewrite ?andb_false_r in Hpts;
    congruence.
Qed.

(** The detector reports only when they have the same direction. *)
Lemma divergence_needs_same_direction (data : DataFrame)
    (strokes : list Stroke) (d : Divergence) :
  _detect_divergence data strokes = Ok (Some d) ->
  exists latest_stroke prev_stroke rest,
    reverse strokes = latest_stroke :: prev_stroke :: rest
    /\ direction latest_stroke = direction prev_stroke.
Proof.
  unfold _detect_divergence.
  destruct ((length strokes <? 2)%nat || (length data <? 50)%nat);
    [discriminate |].
  destruct (reverse strokes) as [|latest_stroke [|prev_stroke rest]];
    [discriminate | discriminate |].
  intros Hd. exists latest_stroke, prev_stroke, rest.
  split; [reflexivity |].
  destruct (decide (direction latest_stroke = direction prev_stroke))
    as [Heq | Hne]; [exact Heq |].
  rewrite bool_decide_eq_true_2 in Hd by exact Hne. discriminate.
Qed.

Lemma decision_without_points (trend : TrendDirection)
    (position : RelativePosition) (divergence : option Divergence)
    (emotion : Emotion) (data : DataFrame) :
  _make_comprehensive_decision trend position [] divergence emotion data
  = None.
Proof.
  destruct emotion as [overbought oversold extreme rsi].
  destruct trend, position, divergence as [[|]|],
           overbought, oversold, extreme; reflexivity.
Qed.

Lemma decision_without_divergence (trend : TrendDirection)
    (position : RelativePosition) (buy_sell_points : list BuyingSellPoint)
    (emotion : Emotion) (data : DataFrame) (s : TradingSignal) :
  _make_comprehensive_decision trend position buy_sell_points None emotion
    data = Some s ->
  exists notes, reason s = ChangLunText notes /\ divergence_free notes.
Proof.
  unfold _make_comprehensive_decision.
  destruct emotion as [overbought oversold extreme rsi].
  destruct (existsb (fun bp => bool_decide (bp ∈ [BUY_2; BUY_3]))
              buy_sell_points),
           (existsb (fun bp => bool_decide (bp ∈ [SELL_2; SELL_3]))
              buy_sell_points);
    destruct trend, position, overbought, oversold, extreme;
    cbn; intros [= <-]; cbn;
    (eexists; split; [reflexivity |]);
    (split; intros Hin; apply list_elem_of_In in Hin; simpl in Hin;
     intuition discriminate).
Qed.

(** The decision on the points and the divergence of one stroke list is the
    decision taken without any divergence. *)
Lemma divergence_is_ignored (data : DataFrame) (strokes : list Stroke)
    (trend : TrendDirection) (position : RelativePosition)
    (emotion : Emotion) (divergence : option Divergence) :
  _detect_divergence data strokes = Ok divergence ->
  _make_comprehensive_decision trend position
    (_identify_buy_sell_points data strokes trend) divergence emotion data
  = _make_comprehensive_decision trend position
      (_identify_buy_sell_points data strokes trend) None emotion data.
Proof.
  intros Hdiv. destruct divergence as [d|]; [| reflexivity].
  destruct (_identify_buy_sell_points data strokes trend) as [|bp pts] eqn:E.
  - rewrite !decision_without_points. reflexivity.
  - exfalso.
    destruct (buy_sell_points_need_a_turn data strokes trend)
      as (l1 & p1 & r1 & Hrev1 & Hturn); [rewrite E; discriminate |].
    destruct (divergence_needs_same_direction data strokes d Hdiv)
      as (l2 & p2 & r2 & Hrev2 & Hsame).
    rewrite Hrev1 in Hrev2. injection Hrev2 as <- <- <-.
    contradiction.
Qed.

(** C9. The divergence confirmation of step 3 is unreachable.  Whenever the
    buy/sell points and the divergence are computed from the same strokes,
    the decision is the one taken without a divergence and no emitted signal
    records a divergence confirmation: a point needs the latest stroke to
    turn against the previous one, a divergence needs both to run the same
    way.  In particular no signal of [calculate_signal] carries the
    divergence boost. *)
Theorem divergence_boost_is_unreachable :
  (forall data strokes trend position emotion divergence,
     _detect_divergence data strokes = Ok divergence ->
     let points := _identify_buy_sell_points data strokes trend in
     _make_comprehensive_decision trend position points divergence emotion
       data
     = _make_comprehensive_decision trend position points None emotion data
     /\ forall s,
          _make_comprehensive_decision trend position points divergence
            emotion data = Some s ->
          exists notes, reason s = ChangLunText notes /\ divergence_free notes)
  /\
  (forall data s,
     calculate_signal data = Ok (Some s) ->
     exists notes, reason s = ChangLunText notes /\ divergence_free notes).
Proof.
  split.
  - intros data strokes trend position emotion divergence Hdiv points.
    pose proof (divergence_is_ignored data strokes trend position emotion
                  divergence Hdiv) as Hsame.
    split; [exact Hsame |].
    intros s Hs. unfold points in Hs. rewrite Hsame in Hs.
    exact (decision_without_divergence _ _ _ _ _ _ Hs).
  - intros data s. unfold calculate_signal.
    destruct (length data <? position_lookback)%nat; [discriminate |].
    set (strokes := _identify_strokes data (_identify_fractals data)).
    destruct strokes as [|s0 strokes'] eqn:Hstrokes; [discriminate |].
    rewrite <- Hstrokes. clear Hstrokes.
    destruct (_analyze_trend data strokes) as [trend|e];
      [| discriminate]. cbn [mbind result_bind].
    destruct (_calculate_relative_position data) as [position|e];
      [| discriminate]. cbn [mbind result_bind].
    destruct (_detect_divergence data strokes) as [divergence|e] eqn:Hdiv;
      [| discriminate]. cbn [mbind result_bind].
    destruct (_monitor_emotion_indicators data) as [emotion|e];
      [| discriminate]. cbn [mbind result_bind].
    intros [= Hs].
    rewrite (divergence_is_ignored data strokes trend position emotion
               divergence Hdiv) in Hs.
    exact (decision_without_divergence _ _ _ _ _ _ Hs).
Qed.

Lemma divergence_boost_is_unreachable_witness :
  exists s notes,
    _detect_divergence Examples.macd_frame Examples.three_strokes = Ok None
    /\ _make_comprehensive_decision UP LOW
         (_identify_buy_sell_points
            Examples.macd_frame Examples.three_strokes UP)
         None Examples.calm Examples.macd_frame
       = Some s
    /\ reason s = ChangLunText notes
    /\ divergence_free notes.
Proof.
  destruct (proj1 divergence_boost_is_unreachable
              Examples.macd_frame Examples.three_strokes UP LOW
              Examples.calm None eq_refl)
    as [_ Hnotes].
  destruct (Hnotes _ eq_refl) as (notes & Hreason & Hfree).
  eexists _, notes.
  split; [reflexivity |].
  split; [reflexivity |].
  split; [exact Hreason | exact Hfree].
Defined.

(** ** The win rate is never recorded *)

Lemma update_performance_win_rate (self : BaseStrategy.t) (profit_loss : Q) :
  BaseStrategy.performance_metrics
    (snd (BaseStrategy.update_performance self profit_loss))
    !! "win_rate"%string
  = BaseStrategy.performance_metrics self !! "win_rate"%string.
Proof.
  unfold BaseStrategy.update_performance.
  repeat case_match; simpl;
    rewrite ?lookup_insert_ne by discriminate; reflexivity.
Qed.

Lemma only_updated_has_no_win_rate (self : BaseStrategy.t) :
  only_updated self ->
  BaseStrategy.performance_metrics self !! "win_rate"%string = None.
Proof.
  induction 1 as [| self profit_loss _ IH | self factor _ IH].
  - reflexivity.
  - rewrite update_performance_win_rate. exact IH.
  - exact IH.
Qed.

(** Adapting [n] times an object whose metrics hold no win rate. *)
Lemma iter_adapted_without_win_rate (n : nat) (strategy : BaseStrategy.t) :
  only_updated strategy ->
  Nat.iter n adapted_strategy strategy
  = Nat.iter n (fun s => BaseStrategy.adjust_weight s 0.9) strategy
  /\ only_updated (Nat.iter n adapted_strategy strategy).
Proof.
  intros Hself. induction n as [|n [IHeq IHupdated]];
    [split; [reflexivity | exact Hself] |].
  rewrite !Nat.iter_succ.
  assert (Hstep : adapted_strategy (Nat.iter n adapted_strategy strategy)
                  = BaseStrategy.adjust_weight
                      (Nat.iter n adapted_strategy strategy) 0.9).
  { unfold adapted_strategy, BaseStrategy.get_win_rate.
    rewrite only_updated_has_no_win_rate by exact IHupdated.
    reflexivity. }
  rewrite Hstep. split.
  - rewrite IHeq. reflexivity.
  - constructor. exact IHupdated.
Qed.

(** C10 (amended). [get_win_rate] returns the recorded 'win_rate' metric,
    0.0 when none is recorded, and [update_performance] never changes what
    it returns.  A strategy whose metrics were filled by
    [update_performance] alone has no such metric and win rate 0.0, so an
    adaptation pass takes the branch for win rates below 0.4 at each of its
    visits, one for each time the tree lists the strategy, each replacing
    the weight [w] by [max(0.1, min(2.0, w * 0.9))]; its metrics stay
    filled by [update_performance] alone, so the next pass does the same.
    For a strategy listed once with a weight of at most 2.0 the new weight
    is [max(0.1, w * 0.9)]. *)
Theorem win_rate_is_never_recorded :
  (forall self profit_loss,
     BaseStrategy.get_win_rate
       (snd (BaseStrategy.update_performance self profit_loss))
     = BaseStrategy.get_win_rate self)
  /\
  (forall self,
     (forall x,
        BaseStrategy.performance_metrics self !! "win_rate"%string = Some x ->
        BaseStrategy.get_win_rate self = x)
     /\ (BaseStrategy.performance_metrics self !! "win_rate"%string = None ->
         BaseStrategy.get_win_rate self = 0.0))
  /\
  (forall self,
     only_updated self ->
     BaseStrategy.performance_metrics self !! "win_rate"%string = None
     /\ BaseStrategy.get_win_rate self = 0.0)
  /\
  (forall (σ : store) (self : StrategyTree.t) (r : ref),
     only_updated (σ r) ->
     let w := BaseStrategy.weight (σ r) in
     let visits := count_occ Nat.eq_dec (StrategyTree.strategies self) r in
     let strategy' := StrategyTree.optimize_weights σ self r in
     strategy'
     = Nat.iter visits (fun s => BaseStrategy.adjust_weight s 0.9) (σ r)
     /\ BaseStrategy.weight strategy'
        = Nat.iter visits (fun w => Qmax 0.1 (Qmin 2.0 (w * 0.9))) w
     /\ only_updated strategy'
     /\ (visits = 1%nat ->
         strategy' = BaseStrategy.adjust_weight (σ r) 0.9
         /\ BaseStrategy.weight strategy' = Qmax 0.1 (Qmin 2.0 (w * 0.9))
         /\ (w <= 2.0 ->
             BaseStrategy.weight strategy' == Qmax 0.1 (w * 0.9)))).
Proof.
  split; [| split; [| split]].
  - intros self profit_loss. unfold BaseStrategy.get_win_rate.
    rewrite update_performance_win_rate. reflexivity.
  - intros self. unfold BaseStrategy.get_win_rate.
    split; [intros x -> | intros ->]; reflexivity.
  - intros self Hself.
    pose proof (only_updated_has_no_win_rate self Hself) as Hnone.
    split; [exact Hnone |].
    unfold BaseStrategy.get_win_rate. rewrite Hnone. reflexivity.
  - intros σ self r Hself w visits strategy'.
    assert (Hpass : strategy' = Nat.iter visits adapted_strategy (σ r))
      by apply optimize_weights_count.
    destruct (iter_adapted_without_win_rate visits (σ r) Hself)
      as [Hiter Hupdated].
    assert (Hweights : forall n s,
              BaseStrategy.weight
                (Nat.iter n (fun s => BaseStrategy.adjust_weight s 0.9) s)
              = Nat.iter n (fun w => Qmax 0.1 (Qmin 2.0 (w * 0.9)))
                         (BaseStrategy.weight s)).
    { induction n as [|n IH]; intros s; [reflexivity |].
      rewrite !Nat.iter_succ, adjust_weight_weight, IH. reflexivity. }
    split; [rewrite Hpass; exact Hiter |].
    split; [rewrite Hpass, Hiter; apply Hweights |].
    split; [rewrite Hpass; exact Hupdated |].
    intros Honce.
    assert (Hstep : strategy' = BaseStrategy.adjust_weight (σ r) 0.9).
    { rewrite Hpass, Hiter, Honce. reflexivity. }
    split; [exact Hstep |]. rewrite Hstep.
    split; [reflexivity |].
    intros Hw. rewrite adjust_weight_weight. fold w.
    destruct (Qmin_cases 2.0 (w * 0.9)) as [[Hle _] | [_ ->]];
      [| reflexivity].
    exfalso. clearbody w. lra.
Qed.

(** C10, as stated, fails: a strategy that only recorded trades is not
    always left with 0.9 times its weight (clamped below at 0.1).  Listed
    twice, it ends one pass with 0.81 times its weight; listed once with
    weight 3.0, it ends the pass at the upper clamp 2.0. *)
Lemma recorded_trades_do_not_always_scale_by_0_9 :
  (only_updated (Examples.scenario_E_store 1%nat)
   /\ BaseStrategy.weight (Examples.scenario_E_store 1%nat) = 1.0
   /\ BaseStrategy.weight
        (StrategyTree.optimize_weights
           Examples.scenario_E_store Examples.twice_listed_trader_tree 1%nat)
      == 0.81
   /\ ~ BaseStrategy.weight
          (StrategyTree.optimize_weights
             Examples.scenario_E_store Examples.twice_listed_trader_tree
             1%nat)
        == Qmax 0.1 (1.0 * 0.9))
  /\
  (only_updated (Examples.heavy_store 0%nat)
   /\ BaseStrategy.weight (Examples.heavy_store 0%nat) = 3.0
   /\ StrategyTree.strategies Examples.single_tree = [0%nat]
   /\ BaseStrategy.weight
        (StrategyTree.optimize_weights
           Examples.heavy_store Examples.single_tree 0%nat)
      == 2.0
   /\ ~ BaseStrategy.weight
          (StrategyTree.optimize_weights
             Examples.heavy_store Examples.single_tree 0%nat)
        == Qmax 0.1 (3.0 * 0.9)).
Proof.
  split.
  - split; [apply only_updated_update, only_updated_init |].
    split; [reflexivity |].
    split; [vm_compute; reflexivity | vm_compute; discriminate].
  - split; [apply only_updated_update, only_updated_init |].
    split; [reflexivity |]. split; [reflexivity |].
    split; [vm_compute; reflexivity | vm_compute; discriminate].
Qed.

Lemma win_rate_is_never_recorded_witness :
  BaseStrategy.get_win_rate (Examples.scenario_E_store 0%nat) = 0.65
  /\ BaseStrategy.get_win_rate (Examples.scenario_E_store 1%nat) = 0.0
  /\ BaseStrategy.weight
       (StrategyTree.optimize_weights
          Examples.scenario_E_store Examples.scenario_D_tree 1%nat)
     == 0.9.
Proof.
  destruct win_rate_is_never_recorded as (_ & Hreads & Hzero & Hpass).
  assert (Hupdated : only_updated (Examples.scenario_E_store 1%nat)).
  { apply only_updated_update. apply only_updated_init. }
  split; [apply (proj1 (Hreads (Examples.scenario_E_store 0%nat)));
          reflexivity |].
  split.
  - apply Hzero. exact Hupdated.
  - destruct (Hpass Examples.scenario_E_store Examples.scenario_D_tree 1%nat
                Hupdated)
      as (_ & _ & _ & Honce).
    destruct (Honce eq_refl) as (_ & _ & Hweight).
    rewrite Hweight; [reflexivity | vm_compute; discriminate].
Defined.

(** ** Strokes alternate, so the pipeline never reaches a buy or sell point *)

Lemma stroke_step_invariant (acc : list Stroke * Fractal) (next : Fractal) :
  Forall stroke_shape (fst acc) ->
  linked (reverse (fst acc)) ->
  (forall s, last (fst acc) = Some s -> end_fractal s = snd acc) ->
  let acc' := stroke_step acc next in
  Forall stroke_shape (fst acc')
  /\ linked (reverse (fst acc'))
  /\ (forall s, last (fst acc') = Some s -> end_fractal s = snd acc').
Proof.
  destruct acc as [strokes current]. simpl. intros Hshape Hlinked Hlast.
  unfold stroke_step.
  destruct (bool_decide (fractal_type current ≠ fractal_type next)
            && (min_k_for_stroke <=?
                  Z.of_nat (fractal_index next)
                  - Z.of_nat (fractal_index current))%Z) eqn:Hgate;
    [| simpl; auto].
  apply andb_true_iff in Hgate as [Hdiff _].
  apply bool_decide_eq_true in Hdiff.
  destruct (bool_decide (fractal_type current = bottom)
            && bool_decide (fractal_type next = top)) eqn:Hup; simpl.
  - apply andb_true_iff in Hup as [Hb Ht].
    apply bool_decide_eq_true in Hb, Ht.
    split; [| split].
    + apply Forall_app. split; [exact Hshape |].
      constructor; [| constructor]. split; assumption.
    + rewrite reverse_snoc.
      destruct (reverse strokes) as [|earlier rest] eqn:Hrev; [exact I |].
      split; [| exact Hlinked]. simpl. apply Hlast.
      rewrite <- head_reverse, Hrev. reflexivity.
    + intros s. rewrite last_snoc. intros [= <-]. reflexivity.
  - split; [| split].
    + apply Forall_app. split; [exact Hshape |].
      constructor; [| constructor]. red. simpl.
      apply andb_false_iff in Hup.
      destruct (fractal_type current), (fractal_type next);
        try congruence; try (split; reflexivity);
        destruct Hup as [Hup | Hup];
        apply bool_decide_eq_false in Hup; congruence.
    + rewrite reverse_snoc.
      destruct (reverse strokes) as [|earlier rest] eqn:Hrev; [exact I |].
      split; [| exact Hlinked]. simpl. apply Hlast.
      rewrite <- head_reverse, Hrev. reflexivity.
    + intros s. rewrite last_snoc. intros [= <-]. reflexivity.
Qed.

Lemma stroke_fold_invariant (fractals : list Fractal) :
  forall acc,
    Forall stroke_shape (fst acc) ->
    linked (reverse (fst acc)) ->
    (forall s, last (fst acc) = Some s -> end_fractal s = snd acc) ->
    let acc' := fold_left stroke_step fractals acc in
    Forall stroke_shape (fst acc') /\ linked (reverse (fst acc')).
Proof.
  induction fractals as [|next fractals IH]; intros acc Hshape Hlinked Hlast.
  - simpl. auto.
  - simpl.
    destruct (stroke_step_invariant acc next Hshape Hlinked Hlast)
      as (H1 & H2 & H3).
    apply IH; assumption.
Qed.

Lemma identify_strokes_linked (data : DataFrame) (fractals : list Fractal) :
  let strokes := _identify_strokes data fractals in
  Forall stroke_shape strokes /\ linked (reverse strokes).
Proof.
  unfold _identify_strokes.
  destruct fractals as [|current [|next rest]];
    [simpl; auto | simpl; auto |].
  apply (stroke_fold_invariant (next :: rest) ([], current)).
  - constructor.
  - exact I.
  - intros s Hs. discriminate.
Qed.

(** Two strokes that meet at a fractal run in opposite directions. *)
Lemma linked_strokes_turn (earlier later : Stroke) :
  stroke_shape earlier -> stroke_shape later ->
  end_fractal earlier = start_fractal later ->
  direction later <> direction earlier.
Proof.
  unfold stroke_shape. intros He Hl Hmeet.
  destruct (direction earlier), (direction later);
    destruct He as [_ He], Hl as [Hl _]; rewrite Hmeet in He; congruence.
Qed.

(** With the three latest strokes alternating, the trend never points
    against the latest stroke. *)
Lemma trend_follows_latest_stroke (data : DataFrame) (pre : list Stroke)
    (third prev_stroke latest_stroke : Stroke) (trend : TrendDirection) :
  direction latest_stroke <> direction prev_stroke ->
  direction prev_stroke <> direction third ->
  _analyze_trend data (pre ++ [third; prev_stroke; latest_stroke])
  = Ok trend ->
  (trend = UP -> direction latest_stroke = up)
  /\ (trend = DOWN -> direction latest_stroke = down).
Proof.
  intros H1 H2. unfold _analyze_trend.
  assert (Hlen : (length (pre ++ [third; prev_stroke; latest_stroke]) <? 3)%nat
                 = false).
  { apply Nat.ltb_ge. rewrite length_app. simpl. lia. }
  rewrite Hlen.
  assert (Hrecent : lastn 3 (pre ++ [third; prev_stroke; latest_stroke])
                    = [third; prev_stroke; latest_stroke]).
  { unfold lastn. rewrite length_app. simpl.
    replace (length pre + 3 - 3)%nat with (length pre) by lia.
    apply drop_app_length. }
  rewrite Hrecent.
  destruct (iloc_last data) as [latest|e]; [| discriminate].
  cbn [mbind result_bind]. unfold count_direction.
  rewrite !filter_cons, !filter_nil.
  destruct (direction latest_stroke) eqn:E1, (direction prev_stroke) eqn:E2,
           (direction third) eqn:E3; try congruence;
    repeat case_decide; try congruence; cbn [length Nat.ltb Nat.leb];
    destruct ((MA_5 latest >? MA_20 latest) && (MA_20 latest >? MA_60 latest)),
             ((MA_5 latest <? MA_20 latest) && (MA_20 latest <? MA_60 latest));
    cbn; intros [= <-]; split; congruence.
Qed.

(** On strokes produced by [_identify_strokes] with the trend produced by
    [_analyze_trend], the classifier finds no point: a buy point needs an up
    trend with the latest stroke down, and the up trend needs the latest
    stroke up. *)
Lemma pipeline_has_no_points (data : DataFrame) (trend : TrendDirection) :
  let strokes := _identify_strokes data (_identify_fractals data) in
  _analyze_trend data strokes = Ok trend ->
  _identify_buy_sell_points data strokes trend = [].
Proof.
  intros strokes Htrend.
  destruct (identify_strokes_linked data (_identify_fractals data))
    as [Hshape Hlinked].
  fold strokes in Hshape, Hlinked. clearbody strokes.
  unfold _identify_buy_sell_points.
  destruct (reverse strokes) as [|latest_stroke [|prev_stroke rest]] eqn:Hrev;
    [reflexivity | reflexivity |].
  destruct rest as [|third rest].
  - (* two strokes: the length gate fails *)
    assert (Hlen : length strokes = 2%nat).
    { rewrite <- length_reverse, Hrev. reflexivity. }
    rewrite Hlen. cbn [Nat.leb]. rewrite !andb_false_r.
    destruct trend; reflexivity.
  - assert (Hstrokes :
      strokes = reverse rest ++ [third; prev_stroke; latest_stroke]).
    { rewrite <- (reverse_involutive strokes), Hrev.
      rewrite !reverse_cons, <- !app_assoc. reflexivity. }
    assert (Hin : forall s,
              s ∈ [third; prev_stroke; latest_stroke] -> stroke_shape s).
    { intros s Hs. eapply Forall_forall; [exact Hshape |].
      rewrite Hstrokes. apply elem_of_app. right. exact Hs. }
    destruct Hlinked as (Hl1 & Hl2 & _).
    assert (Hturn1 : direction latest_stroke <> direction prev_stroke).
    { apply linked_strokes_turn; [apply Hin | apply Hin | exact Hl1];
        set_solver. }
    assert (Hturn2 : direction prev_stroke <> direction third).
    { apply linked_strokes_turn; [apply Hin | apply Hin | exact Hl2];
        set_solver. }
    rewrite Hstrokes in Htrend.
    destruct (trend_follows_latest_stroke data (reverse rest) third
                prev_stroke latest_stroke trend Hturn1 Hturn2 Htrend)
      as [Hup Hdown].
    destruct trend; [| | reflexivity].
    + rewrite (Hup eq_refl). reflexivity.
    + rewrite (Hdown eq_refl). reflexivity.
Qed.

(** Hence [calculate_signal] of the Chan strategy never emits a signal. *)
Lemma calculate_signal_never_emits (data : DataFrame) (s : TradingSignal) :
  calculate_signal data <> Ok (Some s).
Proof.
  unfold calculate_signal.
  destruct (length data <? position_lookback)%nat; [discriminate |].
  pose proof (pipeline_has_no_points data) as Hpoints. simpl in Hpoints.
  destruct (_identify_strokes data (_identify_fractals data))
    as [|s0 strokes'] eqn:Hstrokes; [discriminate |].
  destruct (_analyze_trend data (s0 :: strokes')) as [trend|e];
    [| discriminate]. cbn [mbind result_bind].
  rewrite (Hpoints trend eq_refl).
  destruct (_calculate_relative_position data) as [position|e];
    [| discriminate]. cbn [mbind result_bind].
  destruct (_detect_divergence data (s0 :: strokes')) as [divergence|e];
    [| discriminate]. cbn [mbind result_bind].
  destruct (_monitor_emotion_indicators data) as [emotion|e];
    [| discriminate]. cbn [mbind result_bind].
  rewrite decision_without_points. discriminate.
Qed.

(** * Further properties of the modelled code *)

(** ** Fractals *)

Lemma fractals_at_spec (data : DataFrame) (i : nat) (f : Fractal) :
  f ∈ fractals_at data i ->
  fractal_index f = i
  /\ match fractal_type f with
     | top =>
         price f = col high data i
         /\ col high data (i - 2) < price f
         /\ col high data (i - 1) < price f
         /\ col high data (i + 1) < price f
         /\ col high data (i + 2) < price f
     | bottom =>
         price f = col low data i
         /\ price f < col low data (i - 2)
         /\ price f < col low data (i - 1)
         /\ price f < col low data (i + 1)
         /\ price f < col low data (i + 2)
     end.
Proof.
  unfold fractals_at. intros Hin.
  apply elem_of_app in Hin as [Hin | Hin].
  - destruct (_ && _) eqn:Htop in Hin; [| apply elem_of_nil in Hin; tauto].
    apply list_elem_of_singleton in Hin as ->. simpl.
    rewrite !andb_true_iff, !Qltb_lt in Htop. tauto.
  - destruct (_ && _) eqn:Hbot in Hin; [| apply elem_of_nil in Hin; tauto].
    apply list_elem_of_singleton in Hin as ->. simpl.
    rewrite !andb_true_iff, !Qltb_lt in Hbot. tauto.
Qed.

Lemma identify_fractals_elem (data : DataFrame) (f : Fractal) :
  f ∈ _identify_fractals data <->
  exists i, (2 <= i)%nat /\ (i + 2 < length data)%nat
            /\ f ∈ fractals_at data i.
Proof.
  unfold _identify_fractals.
  rewrite list_elem_of_In, in_flat_map. split.
  - intros (i & Hi & Hf). exists i.
    apply list_elem_of_In, elem_of_seq in Hi.
    apply list_elem_of_In in Hf. repeat split; [lia | lia | exact Hf].
  - intros (i & H2 & Hlen & Hf). exists i. split.
    + apply list_elem_of_In, elem_of_seq. lia.
    + apply list_elem_of_In. exact Hf.
Qed.

Lemma identify_fractals_interior (data : DataFrame) (f : Fractal) :
  f ∈ _identify_fractals data ->
  (2 <= fractal_index f)%nat /\ (fractal_index f + 2 < length data)%nat
  /\ f ∈ fractals_at data (fractal_index f).
Proof.
  intros Hf.
  apply identify_fractals_elem in Hf as (k & H2 & Hlen & Hf).
  rewrite (proj1 (fractals_at_spec data k f Hf)). auto.
Qed.

(** X1. A series of fewer than five bars has no fractal; every fractal sits
    at an interior position [2 <= i < len - 2], carries the high (top) or the
    low (bottom) of that bar as its price, and that price is strictly above
    (top) or strictly below (bottom) the four neighbouring bars. *)
Theorem fractals_are_interior_extrema (data : DataFrame) :
  ((length data < 5)%nat -> _identify_fractals data = [])
  /\
  (forall f,
     f ∈ _identify_fractals data ->
     let i := fractal_index f in
     (2 <= i)%nat /\ (i + 2 < length data)%nat
     /\ match fractal_type f with
        | top =>
            price f = col high data i
            /\ col high data (i - 2) < price f
            /\ col high data (i - 1) < price f
            /\ col high data (i + 1) < price f
            /\ col high data (i + 2) < price f
        | bottom =>
            price f = col low data i
            /\ price f < col low data (i - 2)
            /\ price f < col low data (i - 1)
            /\ price f < col low data (i + 1)
            /\ price f < col low data (i + 2)
        end).
Proof.
  split.
  - intros Hlen. unfold _identify_fractals.
    replace (length data - 2 - 2)%nat with 0%nat by lia. reflexivity.
  - intros f Hf i.
    destruct (identify_fractals_interior data f Hf) as (H2 & Hlen & Hat).
    repeat split; [exact H2 | exact Hlen |].
    exact (proj2 (fractals_at_spec data _ f Hat)).
Qed.

Lemma fractals_are_interior_extrema_witness :
  _identify_fractals (take 4 Examples.peak_frame) = []
  /\ exists f,
       _identify_fractals Examples.peak_frame = [f]
       /\ fractal_index f = 3%nat
       /\ fractal_type f = top
       /\ price f = col high Examples.peak_frame 3
       /\ col high Examples.peak_frame 4 < price f.
Proof.
  destruct (fractals_are_interior_extrema (take 4 Examples.peak_frame))
    as [Hshort _].
  destruct (fractals_are_interior_extrema Examples.peak_frame)
    as [_ Hinterior].
  split; [apply Hshort; simpl; lia |].
  eexists. split; [reflexivity |].
  split; [reflexivity |]. split; [reflexivity |].
  specialize (Hinterior
    {| fractal_index := 3; fractal_type := top; price := 15;
       fractal_timestamp := 0 |}).
  destruct Hinterior as (_ & _ & Hprice & _ & _ & Hnext & _).
  - vm_compute. left.
  - split; [exact Hprice | exact Hnext].
Defined.

Lemma flat_map_seq_sorted (g : nat -> list Fractal) :
  (forall k f, f ∈ g k -> fractal_index f = k) ->
  forall n a,
    StronglySorted (fun f1 f2 => (fractal_index f1 <= fractal_index f2)%nat)
      (flat_map g (seq a n))
    /\ forall f, f ∈ flat_map g (seq a n) -> (a <= fractal_index f)%nat.
Proof.
  intros Hidx. induction n as [|n IH]; intros a; simpl.
  - split; [constructor |]. intros f Hf. apply elem_of_nil in Hf. tauto.
  - destruct (IH (S a)) as [Hsorted Hlower]. split.
    + apply StronglySorted_app_2; [| | exact Hsorted].
      * intros f1 f2 H1 H2. rewrite (Hidx _ _ H1).
        specialize (Hlower _ H2). lia.
      * assert (Hall : Forall (fun f => fractal_index f = a) (g a)).
        { apply Forall_forall. intros f Hf. exact (Hidx _ _ Hf). }
        clear -Hall. induction Hall as [|f l Hf Hall IH]; constructor.
        -- exact IH.
        -- eapply Forall_impl; [exact Hall |]. simpl. intros g' Hg. lia.
    + intros f Hf. apply elem_of_app in Hf as [Hf | Hf].
      * rewrite (Hidx _ _ Hf). lia.
      * specialize (Hlower _ Hf). lia.
Qed.

(** X2. Fractals are produced in chronological order: their positions never
    decrease along the returned list. *)
Theorem fractals_are_chronological (data : DataFrame) :
  StronglySorted (fun f1 f2 => (fractal_index f1 <= fractal_index f2)%nat)
    (_identify_fractals data).
Proof.
  unfold _identify_fractals.
  apply (flat_map_seq_sorted (fractals_at data)).
  intros k f Hf. exact (proj1 (fractals_at_spec data k f Hf)).
Qed.

(** X3. A series whose highs never fall and whose lows never fall from one
    bar to the next has no fractal at all. *)
Theorem monotone_series_has_no_fractal (data : DataFrame) :
  (forall i, (i + 1 < length data)%nat ->
             col high data i <= col high data (i + 1)) ->
  (forall i, (i + 1 < length data)%nat ->
             col low data i <= col low data (i + 1)) ->
  _identify_fractals data = [].
Proof.
  intros Hhigh Hlow.
  destruct (_identify_fractals data) as [|f l] eqn:E; [reflexivity |].
  exfalso.
  assert (Hf : f ∈ _identify_fractals data) by (rewrite E; left).
  destruct (identify_fractals_interior data f Hf) as (H2 & Hlen & Hat).
  pose proof (proj2 (fractals_at_spec data _ f Hat)) as Hshape.
  destruct (fractal_type f).
  - destruct Hshape as (Hp & _ & _ & Hnext & _).
    specialize (Hhigh (fractal_index f) ltac:(lia)).
    rewrite Hp in Hnext. lra.
  - destruct Hshape as (Hp & _ & Hprev & _).
    specialize (Hlow (fractal_index f - 1)%nat ltac:(lia)).
    replace (fractal_index f - 1 + 1)%nat with (fractal_index f) in Hlow
      by lia.
    rewrite Hp in Hprev. lra.
Qed.

Lemma monotone_series_has_no_fractal_witness :
  _identify_fractals Examples.rising_frame = [].
Proof.
  apply monotone_series_has_no_fractal.
  - intros i Hi.
    do 9 (destruct i as [|i]; [apply Qle_bool_imp_le; reflexivity |]).
    simpl in Hi. lia.
  - intros i Hi.
    do 9 (destruct i as [|i]; [apply Qle_bool_imp_le; reflexivity |]).
    simpl in Hi. lia.
Defined.

(** ** Strokes *)

Lemma stroke_step_built_from (fractals : list Fractal)
    (acc : list Stroke * Fractal) (next : Fractal) :
  snd acc ∈ fractals -> next ∈ fractals ->
  Forall (stroke_built_from fractals) (fst acc) ->
  snd (stroke_step acc next) ∈ fractals
  /\ Forall (stroke_built_from fractals) (fst (stroke_step acc next)).
Proof.
  destruct acc as [strokes current]. simpl. intros Hcur Hnext Hall.
  unfold stroke_step.
  destruct (bool_decide (fractal_type current ≠ fractal_type next)
            && (min_k_for_stroke <=?
                  Z.of_nat (fractal_index next)
                  - Z.of_nat (fractal_index current))%Z) eqn:Hgate;
    [| simpl; auto].
  apply andb_true_iff in Hgate as [Hdiff Hgap].
  apply bool_decide_eq_true in Hdiff.
  apply Z.leb_le in Hgap. unfold min_k_for_stroke in Hgap.
  destruct (bool_decide (fractal_type current = bottom)
            && bool_decide (fractal_type next = top)) eqn:Hup; simpl;
    (split; [exact Hnext |]);
    (apply Forall_app; split; [exact Hall |]);
    (constructor; [| constructor]);
    unfold stroke_built_from; simpl;
    (repeat split; try assumption; try reflexivity; try lia).
  - apply andb_true_iff in Hup as [Hb _].
    apply bool_decide_eq_true in Hb. exact Hb.
  - apply andb_true_iff in Hup as [_ Ht].
    apply bool_decide_eq_true in Ht. exact Ht.
  - discriminate.
  - discriminate.
  - intros [Hb Ht]. rewrite !bool_decide_eq_true_2 in Hup by assumption.
    discriminate.
Qed.

Lemma stroke_fold_built_from (fractals rest : list Fractal) :
  forall acc,
    (forall f, f ∈ rest -> f ∈ fractals) ->
    snd acc ∈ fractals ->
    Forall (stroke_built_from fractals) (fst acc) ->
    Forall (stroke_built_from fractals) (fst (fold_left stroke_step rest acc)).
Proof.
  induction rest as [|next rest IH]; intros acc Hsub Hcur Hall.
  - exact Hall.
  - simpl.
    destruct (stroke_step_built_from fractals acc next Hcur) as [H1 H2];
      [apply Hsub; left | exact Hall |].
    apply IH; [| exact H1 | exact H2].
    intros f Hf. apply Hsub. right. exact Hf.
Qed.

Lemma identify_strokes_built_from (data : DataFrame)
    (fractals : list Fractal) :
  Forall (stroke_built_from fractals) (_identify_strokes data fractals).
Proof.
  unfold _identify_strokes.
  destruct fractals as [|current [|next rest]];
    [constructor | constructor |].
  apply (stroke_fold_built_from (current :: next :: rest) (next :: rest)
           ([], current)).
  - intros f Hf. right. exact Hf.
  - left.
  - constructor.
Qed.

(** X4. Every stroke of [_identify_strokes] joins two fractals of the input
    list whose types differ and whose positions are at least five bars
    apart; its index fields are those positions, it is an up-stroke exactly
    when it runs from a bottom to a top, and its strength is the price move
    relative to the starting price whenever that price is not zero.  There
    is one stroke fewer than fractals at most. *)
Theorem strokes_join_distant_opposite_fractals (data : DataFrame)
    (fractals : list Fractal) :
  (forall s, s ∈ _identify_strokes data fractals ->
             stroke_built_from fractals s)
  /\ (length (_identify_strokes data fractals) <= length fractals - 1)%nat.
Proof.
  split.
  - intros s Hs.
    eapply Forall_forall; [apply identify_strokes_built_from | exact Hs].
  - unfold _identify_strokes.
    destruct fractals as [|current [|next rest]]; [simpl; lia | simpl; lia |].
    assert (Hcount : forall l acc,
              (length (fst (fold_left stroke_step l acc))
               <= length (fst acc) + length l)%nat).
    { induction l as [|f l IH]; intros acc; [simpl; lia |].
      simpl. specialize (IH (stroke_step acc f)).
      assert ((length (fst (stroke_step acc f)) <= S (length (fst acc)))%nat).
      { destruct acc as [strokes cur]. unfold stroke_step.
        repeat case_match; simpl; rewrite ?length_app; simpl; lia. }
      lia. }
    specialize (Hcount (next :: rest) ([], current)). simpl in *. lia.
Qed.

Lemma strokes_join_distant_opposite_fractals_witness :
  exists s,
    last Examples.four_strokes = Some s
    /\ direction s = down
    /\ (start_index s + 5 <= end_index s)%nat
    /\ fractal_type (start_fractal s) <> fractal_type (end_fractal s).
Proof.
  eexists. split; [reflexivity |].
  destruct (proj1 (strokes_join_distant_opposite_fractals []
              [Examples.fractal 0 bottom 8; Examples.fractal 5 top 10;
               Examples.fractal 10 bottom 9; Examples.fractal 15 top 12;
               Examples.fractal 20 bottom 7.2])
              (Examples.stroke down (Examples.fractal 15 top 12)
                                    (Examples.fractal 20 bottom 7.2)))
    as (_ & _ & Htypes & Hgap & _).
  - vm_compute. do 3 right. left.
  - split; [reflexivity |]. split; [exact Hgap | exact Htypes].
Defined.

Lemma linked_adjacent (l : list Stroke) :
  linked (reverse l) ->
  forall i s1 s2,
    l !! i = Some s1 -> l !! S i = Some s2 ->
    end_fractal s1 = start_fractal s2.
Proof.
  induction l as [|x l IH] using rev_ind; intros Hlinked i s1 s2 H1 H2.
  - discriminate.
  - rewrite reverse_snoc in Hlinked.
    apply lookup_snoc_Some in H2 as [[Hlt H2] | [Hi <-]].
    + apply lookup_snoc_Some in H1 as [[_ H1] | [Hi _]]; [| lia].
      apply (IH ltac:(destruct (reverse l) as [|? ?];
                      [exact I | exact (proj2 Hlinked)]) i); assumption.
    + apply lookup_snoc_Some in H1 as [[_ H1] | [Hi' _]]; [| lia].
      assert (Hlast : last l = Some s1).
      { rewrite last_lookup. rewrite <- Hi. simpl. exact H1. }
      rewrite <- head_reverse in Hlast.
      destruct (reverse l) as [|earlier rest]; [discriminate |].
      injection Hlast as ->. exact (proj1 Hlinked).
Qed.

(** X5. Consecutive strokes of [_identify_strokes] are chained, the later
    one starting at the fractal where the earlier one ended, and they
    alternate in direction. *)
Theorem strokes_are_chained_and_alternate (data : DataFrame)
    (fractals : list Fractal) (i : nat) (s1 s2 : Stroke) :
  _identify_strokes data fractals !! i = Some s1 ->
  _identify_strokes data fractals !! S i = Some s2 ->
  end_fractal s1 = start_fractal s2 /\ direction s1 <> direction s2.
Proof.
  intros H1 H2.
  destruct (identify_strokes_linked data fractals) as [Hshape Hlinked].
  assert (Hmeet : end_fractal s1 = start_fractal s2)
    by exact (linked_adjacent _ Hlinked i s1 s2 H1 H2).
  split; [exact Hmeet |].
  intros Heq. symmetry in Heq. revert Heq.
  apply linked_strokes_turn; [| | exact Hmeet].
  - eapply Forall_forall; [exact Hshape |].
    eapply list_elem_of_lookup_2. exact H1.
  - eapply Forall_forall; [exact Hshape |].
    eapply list_elem_of_lookup_2. exact H2.
Qed.

Lemma strokes_are_chained_and_alternate_witness :
  (direction <$> Examples.four_strokes) = [up; down; up; down]
  /\ exists s1 s2,
       Examples.four_strokes !! 2%nat = Some s1
       /\ Examples.four_strokes !! 3%nat = Some s2
       /\ end_fractal s1 = start_fractal s2
       /\ direction s1 <> direction s2.
Proof.
  split; [reflexivity |].
  eexists _, _. split; [reflexivity |]. split; [reflexivity |].
  apply (strokes_are_chained_and_alternate []
           [Examples.fractal 0 bottom 8; Examples.fractal 5 top 10;
            Examples.fractal 10 bottom 9; Examples.fractal 15 top 12;
            Examples.fractal 20 bottom 7.2] 2); reflexivity.
Defined.

(** X6. In the pipeline every stroke starts and ends at an interior bar of
    the frame: [2 <= start_index], [start_index + 5 <= end_index] and
    [end_index < len(data) - 2]; reading a column at a stroke end never
    leaves the frame. *)
Theorem pipeline_strokes_lie_inside_frame (data : DataFrame) (s : Stroke) :
  s ∈ _identify_strokes data (_identify_fractals data) ->
  (2 <= start_index s)%nat
  /\ (start_index s + 5 <= end_index s)%nat
  /\ (end_index s + 2 < length data)%nat
  /\ is_Some ((MACD <$> data) !! end_index s).
Proof.
  intros Hs.
  pose proof (identify_strokes_built_from data (_identify_fractals data))
    as Hall.
  rewrite Forall_forall in Hall.
  destruct (Hall s Hs) as (Hstart & Hend & _ & Hgap & Hsi & Hei & _).
  destruct (identify_fractals_interior data _ Hstart) as (Hlo & _ & _).
  destruct (identify_fractals_interior data _ Hend) as (_ & Hhi & _).
  rewrite Hsi, Hei. repeat split; [exact Hlo | exact Hgap | exact Hhi |].
  apply lookup_lt_is_Some. rewrite length_fmap. lia.
Qed.

Lemma pipeline_strokes_lie_inside_frame_witness :
  exists s,
    head (_identify_strokes Examples.wave_frame
            (_identify_fractals Examples.wave_frame)) = Some s
    /\ (2 <= start_index s)%nat
    /\ (start_index s + 5 <= end_index s)%nat
    /\ (end_index s + 2 < length Examples.wave_frame)%nat
    /\ is_Some ((MACD <$> Examples.wave_frame) !! end_index s).
Proof.
  exists (Examples.stroke up (Examples.fractal 2 bottom 1)
                             (Examples.fractal 8 top 9)).
  split; [vm_compute; reflexivity |].
  apply pipeline_strokes_lie_inside_frame.
  vm_compute. left.
Defined.

(** ** Trend, position and emotion *)

(** X7. With at least three strokes and a last bar, the trend is up exactly
    when up-strokes are the majority of the last three strokes and the
    averages are in rising order [MA_5 > MA_20 > MA_60], down exactly in the
    mirrored case, and sideways otherwise: one vote alone never decides.
    With fewer than three strokes it is sideways without reading the data;
    with three strokes and an empty frame it raises [IndexError]. *)
Theorem trend_needs_both_votes (data : DataFrame) (strokes : list Stroke) :
  ((length strokes < 3)%nat -> _analyze_trend data strokes = Ok SIDEWAYS)
  /\
  ((3 <= length strokes)%nat -> data = [] ->
   _analyze_trend data strokes = Raise IndexError)
  /\
  (forall latest,
     (3 <= length strokes)%nat ->
     last data = Some latest ->
     let ups := count_direction up (lastn 3 strokes) in
     let downs := count_direction down (lastn 3 strokes) in
     (_analyze_trend data strokes = Ok UP <->
      (downs < ups)%nat
      /\ MA_20 latest < MA_5 latest /\ MA_60 latest < MA_20 latest)
     /\
     (_analyze_trend data strokes = Ok DOWN <->
      (ups < downs)%nat
      /\ MA_5 latest < MA_20 latest /\ MA_20 latest < MA_60 latest)
     /\
     exists trend, _analyze_trend data strokes = Ok trend).
Proof.
  split; [| split].
  - intros Hlen. unfold _analyze_trend.
    apply Nat.ltb_lt in Hlen. rewrite Hlen. reflexivity.
  - intros Hlen ->. unfold _analyze_trend.
    apply Nat.ltb_ge in Hlen. rewrite Hlen. reflexivity.
  - intros latest Hlen Hlast ups downs. unfold _analyze_trend.
    apply Nat.ltb_ge in Hlen. rewrite Hlen.
    unfold iloc_last. rewrite Hlast. cbn [mbind result_bind].
    fold ups downs. clearbody ups downs.
    destruct (Qltb (MA_20 latest) (MA_5 latest)) eqn:B1;
      destruct (Qltb (MA_60 latest) (MA_20 latest)) eqn:B2;
      destruct (Qltb (MA_5 latest) (MA_20 latest)) eqn:B3;
      destruct (Qltb (MA_20 latest) (MA_60 latest)) eqn:B4;
      destruct (Nat.ltb_spec downs ups) as [S1 | S1];
      destruct (Nat.ltb_spec ups downs) as [S2 | S2];
      cbn [andb];
      lazymatch goal with
      | |- (?r = Ok UP <-> _) /\ _ =>
          let r' := eval vm_compute in r in change r with r'
      end;
      repeat match goal with
             | H : Qltb _ _ = true |- _ => apply Qltb_lt in H
             | H : Qltb _ _ = false |- _ => apply Qltb_ge in H
             end;
      (split;
       [ split; [intros Hr; first [discriminate Hr | repeat split; assumption]
                | intros (H1 & H2 & H3);
                  first [reflexivity | exfalso; lia | exfalso; lra] ]
       | split;
         [ split; [intros Hr; first [discriminate Hr | repeat split; assumption]
                  | intros (H1 & H2 & H3);
                    first [reflexivity | exfalso; lia | exfalso; lra] ]
         | eexists; reflexivity ] ]).
Qed.

Lemma trend_needs_both_votes_witness :
  _analyze_trend [] (take 2 Examples.four_strokes) = Ok SIDEWAYS
  /\ _analyze_trend [] Examples.four_strokes = Raise IndexError
  /\ exists trend,
       _analyze_trend Examples.wave_frame Examples.four_strokes = Ok trend.
Proof.
  destruct (trend_needs_both_votes [] (take 2 Examples.four_strokes))
    as (Hshort & _ & _).
  destruct (trend_needs_both_votes [] Examples.four_strokes)
    as (_ & Hempty & _).
  destruct (trend_needs_both_votes Examples.wave_frame Examples.four_strokes)
    as (_ & _ & Hvotes).
  split; [apply Hshort; vm_compute; lia |].
  split; [apply Hempty; [vm_compute; lia | reflexivity] |].
  refine (proj2 (proj2 (Hvotes _ _ eq_refl))).
  vm_compute. lia.
Defined.

(** X8. The relative position of an empty frame raises [IndexError].
    Otherwise a class is returned, decided by where the last close lies
    between the lowest low and the highest high of the trailing 120 bars
    (of all bars when there are fewer): medium on a flat window, where the
    two are equal; on a proper window high when the close is at or above
    the highest high and low when it is at or below the lowest low; and
    for one and the same window never a lower class for a higher close. *)
Theorem relative_position_buckets (data : DataFrame) :
  (data = [] -> _calculate_relative_position data = Raise IndexError)
  /\
  (forall latest,
     last data = Some latest ->
     let window := lastn 120 data in
     let hi := series_max (high <$> window) in
     let lo := series_min (low <$> window) in
     let c := close latest in
     (exists p, _calculate_relative_position data = Ok p)
     /\ (hi == lo -> _calculate_relative_position data = Ok MEDIUM_POS)
     /\ (lo < hi -> hi <= c -> _calculate_relative_position data = Ok HIGH)
     /\ (lo < hi -> c <= lo -> _calculate_relative_position data = Ok LOW)
     /\ (forall (data' : DataFrame) (latest' : Bar) (p p' : RelativePosition),
           last data' = Some latest' ->
           series_max (high <$> lastn 120 data') == hi ->
           series_min (low <$> lastn 120 data') == lo ->
           lo <= hi ->
           c <= close latest' ->
           _calculate_relative_position data = Ok p ->
           _calculate_relative_position data' = Ok p' ->
           (position_value p <= position_value p')%Z)).
Proof.
  split.
  - intros ->. reflexivity.
  - intros latest Hlast window hi lo c.
    assert (Hne : data <> []) by (intros ->; discriminate).
    split; [apply relative_position_total; exact Hne |].
    destruct (relative_position_anchors data latest Hlast)
      as (Hflat & Htop & Hbottom).
    split; [exact Hflat |]. split; [exact Htop |]. split; [exact Hbottom |].
    intros data' latest' p p' Hlast' Hhi Hlo Hrange Hc Hp Hp'.
    exact (relative_position_monotone data data' latest latest' p p'
             Hlast Hlast' Hhi Hlo Hrange Hc Hp Hp').
Qed.

Lemma relative_position_buckets_witness :
  _calculate_relative_position [] = Raise IndexError
  /\ _calculate_relative_position [Examples.flat_bar 0 0 50] = Ok MEDIUM_POS
  /\ _calculate_relative_position Examples.peak_frame = Ok LOW
  /\ (position_value LOW <= position_value MEDIUM_HIGH)%Z.
Proof.
  split; [apply (proj1 (relative_position_buckets [])); reflexivity |].
  split.
  - destruct (proj2 (relative_position_buckets [Examples.flat_bar 0 0 50])
                _ eq_refl) as (_ & Hflat & _).
    apply Hflat. reflexivity.
  - destruct (proj2 (relative_position_buckets Examples.peak_frame)
                _ eq_refl) as (_ & _ & _ & Hbottom & Hmono).
    split.
    + apply Hbottom; [reflexivity | apply Qle_bool_imp_le; reflexivity].
    + apply (Hmono (Examples.closing_at 12 Examples.peak_frame) _
               LOW MEDIUM_HIGH eq_refl).
      * reflexivity.
      * reflexivity.
      * apply Qle_bool_imp_le; reflexivity.
      * apply Qle_bool_imp_le; reflexivity.
      * reflexivity.
      * reflexivity.
Defined.

(** X9. On a non-empty frame the emotion monitor reports the RSI of the
    last bar; overbought (above 80) and oversold (below 20) never hold
    together, and an extreme reading (above 90 or below 10) is always either
    overbought or oversold.  On an empty frame it raises [IndexError]. *)
Theorem emotion_flags_are_consistent (data : DataFrame) :
  (data = [] -> _monitor_emotion_indicators data = Raise IndexError)
  /\
  (forall latest,
     last data = Some latest ->
     exists emotion,
       _monitor_emotion_indicators data = Ok emotion
       /\ rsi_value emotion = RSI latest
       /\ (rsi_overbought emotion = true <-> 80 < RSI latest)
       /\ (rsi_oversold emotion = true <-> RSI latest < 20)
       /\ (extreme_emotion emotion = true <->
           90 < RSI latest \/ RSI latest < 10)
       /\ ~ (rsi_overbought emotion = true /\ rsi_oversold emotion = true)
       /\ (extreme_emotion emotion = true ->
           rsi_overbought emotion = true \/ rsi_oversold emotion = true)).
Proof.
  split.
  - intros ->. reflexivity.
  - intros latest Hlast. unfold _monitor_emotion_indicators, iloc_last.
    rewrite Hlast. cbn [mbind result_bind].
    eexists. split; [reflexivity |]. simpl.
    unfold rsi_overbought_level, rsi_oversold_level.
    rewrite orb_true_iff, !Qltb_lt.
    repeat split; try tauto.
    + intros [H1 H2]. lra.
    + intros [H | H]; [left | right]; lra.
Qed.

Lemma emotion_flags_are_consistent_witness :
  exists emotion,
    _monitor_emotion_indicators Examples.wave_frame = Ok emotion
    /\ rsi_value emotion = 95
    /\ extreme_emotion emotion = true
    /\ rsi_overbought emotion = true
    /\ rsi_oversold emotion = false.
Proof.
  destruct (proj2 (emotion_flags_are_consistent Examples.wave_frame)
              _ eq_refl)
    as (emotion & Hrun & Hrsi & _).
  exists emotion. split; [exact Hrun |].
  injection Hrun as <-. repeat split.
Defined.

(** ** The decision and the whole pipeline *)

Lemma existsb_points (targets pts : list BuyingSellPoint) :
  existsb (fun bp => bool_decide (bp ∈ targets)) pts = true
  <-> exists bp, bp ∈ pts /\ bp ∈ targets.
Proof.
  rewrite existsb_exists. split.
  - intros (bp & Hin & Hdec). exists bp.
    apply list_elem_of_In in Hin. apply bool_decide_eq_true in Hdec. auto.
  - intros (bp & Hin & Htarget). exists bp. split.
    + apply list_elem_of_In. exact Hin.
    + apply bool_decide_eq_true. exact Htarget.
Qed.

(** X10. The decision emits a signal exactly when the trend and a reported
    point agree: a buy when the trend is up and a second or third buy point
    is among the points, a sell when the trend is down and a second or third
    sell point is among them, nothing otherwise.  An emitted signal has
    confidence at least 0.6 and is never weak, so the final test
    [confidence < 0.5] never rejects anything. *)
Theorem decision_emits_exactly_on_agreement (trend : TrendDirection)
    (position : RelativePosition) (buy_sell_points : list BuyingSellPoint)
    (divergence : option Divergence) (emotion : Emotion) (data : DataFrame) :
  let decision :=
    _make_comprehensive_decision trend position buy_sell_points divergence
      emotion data in
  let buy_agrees :=
    trend = UP
    /\ exists bp, bp ∈ buy_sell_points /\ bp ∈ [BUY_2; BUY_3] in
  let sell_agrees :=
    trend = DOWN
    /\ exists bp, bp ∈ buy_sell_points /\ bp ∈ [SELL_2; SELL_3] in
  (buy_agrees ->
   exists s, decision = Some s /\ signal_type s = BUY
             /\ 0.6 <= confidence s <= 1 /\ strength s <> WEAK)
  /\ (sell_agrees ->
      exists s, decision = Some s /\ signal_type s = SELL
                /\ 0.6 <= confidence s <= 1 /\ strength s <> WEAK)
  /\ (~ buy_agrees -> ~ sell_agrees -> decision = None).
Proof.
  intros decision buy_agrees sell_agrees.
  unfold decision, buy_agrees, sell_agrees, _make_comprehensive_decision.
  rewrite <- !existsb_points.
  destruct emotion as [overbought oversold extreme rsi].
  destruct (existsb (fun bp => bool_decide (bp ∈ [BUY_2; BUY_3]))
              buy_sell_points),
           (existsb (fun bp => bool_decide (bp ∈ [SELL_2; SELL_3]))
              buy_sell_points);
    destruct trend, position, divergence as [[|]|],
             overbought, oversold, extreme;
    cbn;
    (split; [| split]);
    try (intros [? ?]; discriminate);
    try (intros _; eexists; split; [reflexivity |];
         split; [reflexivity |];
         split; [split; apply Qle_bool_imp_le; reflexivity | discriminate]);
    try (intros Hb Hs; first [reflexivity
                             | exfalso; apply Hb; split; reflexivity
                             | exfalso; apply Hs; split; reflexivity]).
Qed.

Lemma decision_emits_exactly_on_agreement_witness :
  (exists s,
     _make_comprehensive_decision UP HIGH [BUY_3] None Examples.calm []
     = Some s
     /\ signal_type s = BUY /\ 0.6 <= confidence s <= 1
     /\ strength s <> WEAK)
  /\ _make_comprehensive_decision UP HIGH [SELL_2] None Examples.calm []
     = None.
Proof.
  destruct (decision_emits_exactly_on_agreement UP HIGH [BUY_3] None
              Examples.calm []) as (Hbuy & _ & _).
  destruct (decision_emits_exactly_on_agreement UP HIGH [SELL_2] None
              Examples.calm []) as (_ & _ & Hnone).
  split.
  - apply Hbuy. split; [reflexivity |].
    exists BUY_3. split; [left | right; left].
  - apply Hnone.
    + intros [_ (bp & Hin & Htarget)].
      apply list_elem_of_singleton in Hin as ->.
      apply list_elem_of_In in Htarget. simpl in Htarget.
      intuition discriminate.
    + intros [Htrend _]. discriminate.
Defined.

(** The detector returns nothing on strokes that alternate. *)
Lemma detect_divergence_on_linked (data : DataFrame) (strokes : list Stroke) :
  Forall stroke_shape strokes ->
  linked (reverse strokes) ->
  _detect_divergence data strokes = Ok None.
Proof.
  intros Hshape Hlinked. unfold _detect_divergence.
  destruct ((length strokes <? 2)%nat || (length data <? 50)%nat);
    [reflexivity |].
  destruct (reverse strokes) as [|latest_stroke [|prev_stroke rest]] eqn:Hrev;
    [reflexivity | reflexivity |].
  rewrite bool_decide_eq_true_2; [reflexivity |].
  assert (Hin : forall s, s ∈ [latest_stroke; prev_stroke] ->
                          stroke_shape s).
  { intros s Hs. eapply Forall_forall; [exact Hshape |].
    apply elem_of_reverse. rewrite Hrev.
    apply elem_of_cons in Hs as [-> | Hs]; [left |].
    apply list_elem_of_singleton in Hs as ->. right. left. }
  apply linked_strokes_turn;
    [apply Hin; right; left | apply Hin; left | exact (proj1 Hlinked)].
Qed.

Lemma monitor_emotion_total (data : DataFrame) :
  data <> [] -> exists e, _monitor_emotion_indicators data = Ok e.
Proof.
  intros Hne. unfold _monitor_emotion_indicators.
  destruct (iloc_last_nonempty data Hne) as [latest ->].
  cbn [mbind result_bind]. eauto.
Qed.

(** X11. [calculate_signal] of the Chan strategy returns [None] on every
    frame and never raises: below 120 bars by its guard, and from 120 bars
    on because the strokes it builds alternate, so that the trend (which
    follows the latest stroke) and the buy/sell points (which need the
    latest stroke to run against the trend) never agree. *)
Theorem calculate_signal_is_always_none (data : DataFrame) :
  calculate_signal data = Ok None
  /\ BaseStrategy.calculate_signal ChangLunStrategy.init data = Ok None.
Proof.
  cut (calculate_signal data = Ok None); [intros H; split; exact H |].
  unfold calculate_signal.
  destruct (length data <? position_lookback)%nat eqn:Hlen;
    [reflexivity |].
  assert (Hne : data <> []).
  { intros ->. discriminate. }
  pose proof (pipeline_has_no_points data) as Hpoints. simpl in Hpoints.
  destruct (identify_strokes_linked data (_identify_fractals data))
    as [Hshape Hlinked].
  destruct (_identify_strokes data (_identify_fractals data))
    as [|s0 strokes'] eqn:Hstrokes; [reflexivity |].
  destruct (analyze_trend_total data (s0 :: strokes') Hne) as [trend Htrend].
  rewrite Htrend. cbn [mbind result_bind].
  rewrite (Hpoints trend Htrend).
  destruct (relative_position_total data Hne) as [position ->].
  cbn [mbind result_bind].
  rewrite (detect_divergence_on_linked data (s0 :: strokes') Hshape Hlinked).
  cbn [mbind result_bind].
  destruct (monitor_emotion_total data Hne) as [emotion ->].
  cbn [mbind result_bind].
  rewrite decision_without_points. reflexivity.
Qed.

(** X12. The suggested position size is never above the cap of 0.5, and for
    a signal whose confidence lies in [0,1] the cap is never reached: the
    size is the plain product of base size, strength multiplier, confidence
    and position multiplier, which is not negative and stays below 0.4.  On
    empty market data the call raises [IndexError]. *)
Theorem position_size_bounds (signal : TradingSignal)
    (market_data : DataFrame) :
  (market_data = [] ->
   calculate_position_size signal market_data = Raise IndexError)
  /\
  (market_data <> [] ->
   exists size position,
     calculate_position_size signal market_data = Ok size
     /\ _calculate_relative_position market_data = Ok position
     /\ size <= 0.5
     /\ (0 <= confidence signal <= 1 ->
         0 <= size < 0.4
         /\ size
            == 0.2
               * match strength signal with
                 | STRONG => 1.5 | MEDIUM => 1.2 | WEAK => 1.0
                 end
               * confidence signal
               * match signal_type signal, position with
                 | BUY, LOW => 1.3
                 | BUY, HIGH => 0.7
                 | _, _ => 1.0
                 end)).
Proof.
  split.
  - intros ->. reflexivity.
  - intros Hne. unfold calculate_position_size.
    destruct (relative_position_total market_data Hne) as [position Hpos].
    rewrite Hpos. cbn [mbind result_bind].
    eexists _, position. split; [reflexivity |]. split; [reflexivity |].
    unfold base_position, max_position.
    set (c := confidence signal). clearbody c.
    destruct (strength signal), (signal_type signal), position;
      repeat case_bool_decide; try congruence; cbv beta iota;
      match goal with
      | |- context [Qmin ?x 0.5] =>
          destruct (Qmin_cases x 0.5) as [[Hle ->] | [Hlt ->]]
      end;
      (split; [lra |]); intros [Hc0 Hc1];
      (split; [split; lra | lra]).
Qed.

Lemma position_size_bounds_witness :
  exists size,
    calculate_position_size
      {| signal_type := BUY; strength := STRONG; confidence := 1;
         reason := Plain "strongest buy" |}
      Examples.peak_frame = Ok size
    /\ size <= 0.5 /\ 0 <= size < 0.4.
Proof.
  destruct (proj2 (position_size_bounds
                     {| signal_type := BUY; strength := STRONG;
                        confidence := 1; reason := Plain "strongest buy" |}
                     Examples.peak_frame) ltac:(discriminate))
    as (size & position & Hrun & _ & Hcap & Hrange).
  exists size. split; [exact Hrun |]. split; [exact Hcap |].
  apply Hrange. split; [apply Qle_bool_imp_le; reflexivity
                       | apply Qle_bool_imp_le; reflexivity].
Defined.

(** X13. [get_strategy_status] never raises.  Below 50 bars it returns the
    insufficient-data marker; from 50 bars on it returns a full report whose
    divergence entry is always [None] (the strokes it inspects alternate),
    whose stroke count and last stroke are those of the rebuilt strokes and
    whose last fractal is the last detected one. *)
Theorem strategy_status_never_reports_divergence (data : DataFrame) :
  ((length data < 50)%nat -> get_strategy_status data = Ok insufficient_data)
  /\
  ((50 <= length data)%nat ->
   exists r,
     get_strategy_status data = Ok (report r)
     /\ status_divergence_signal r = None
     /\ _analyze_trend data (_identify_strokes data (_identify_fractals data))
        = Ok (status_trend_direction r)
     /\ _calculate_relative_position data = Ok (status_relative_position r)
     /\ status_recent_strokes_count r
        = length (_identify_strokes data (_identify_fractals data))
     /\ status_last_stroke r
        = last (_identify_strokes data (_identify_fractals data))
     /\ status_last_fractal r = last (_identify_fractals data)).
Proof.
  split.
  - intros Hlen. unfold get_strategy_status.
    apply Nat.ltb_lt in Hlen. rewrite Hlen. reflexivity.
  - intros Hlen. unfold get_strategy_status.
    assert (Hne : data <> []).
    { intros ->. simpl in Hlen. lia. }
    apply Nat.ltb_ge in Hlen. rewrite Hlen.
    destruct (identify_strokes_linked data (_identify_fractals data))
      as [Hshape Hlinked].
    set (strokes := _identify_strokes data (_identify_fractals data)) in *.
    destruct (analyze_trend_total data strokes Hne) as [trend Htrend].
    destruct (relative_position_total data Hne) as [position Hpos].
    destruct (monitor_emotion_total data Hne) as [emotion Hemo].
    rewrite Htrend, Hpos,
      (detect_divergence_on_linked data strokes Hshape Hlinked), Hemo.
    cbn [mbind result_bind].
    eexists. split; [reflexivity |]. simpl. repeat split.
Qed.

Lemma strategy_status_never_reports_divergence_witness :
  get_strategy_status (take 49 Examples.wave_frame) = Ok insufficient_data
  /\ exists r,
       get_strategy_status Examples.wave_frame = Ok (report r)
       /\ status_divergence_signal r = None
       /\ status_recent_strokes_count r = 20%nat.
Proof.
  split.
  - apply (proj1 (strategy_status_never_reports_divergence
                    (take 49 Examples.wave_frame))).
    vm_compute. lia.
  - destruct (proj2 (strategy_status_never_reports_divergence
                       Examples.wave_frame) ltac:(vm_compute; lia))
      as (r & Hrun & Hdiv & _ & _ & Hcount & _).
    exists r. split; [exact Hrun |]. split; [exact Hdiv |].
    rewrite Hcount. vm_compute. reflexivity.
Defined.

(** X14. [_detect_divergence] raises exactly when it reads the MACD outside
    the frame: there are at least two strokes and 50 bars, the two latest
    strokes run in the same direction, and the end index of one of them is
    not a position of the frame.  The exception is [IndexError]; in every
    other case a result is returned. *)
Theorem detect_divergence_raises_only_outside_frame (data : DataFrame)
    (strokes : list Stroke) (e : exn) :
  _detect_divergence data strokes = Raise e <->
  e = IndexError
  /\ (50 <= length data)%nat
  /\ exists latest_stroke prev_stroke rest,
       reverse strokes = latest_stroke :: prev_stroke :: rest
       /\ direction latest_stroke = direction prev_stroke
       /\ ((length data <= end_index prev_stroke)%nat
           \/ (length data <= end_index latest_stroke)%nat).
Proof.
  unfold _detect_divergence.
  destruct (length strokes <? 2)%nat eqn:Hfew.
  { simpl. split; [discriminate |].
    intros (_ & _ & l & p & r & Hrev & _).
    apply Nat.ltb_lt in Hfew. rewrite <- length_reverse, Hrev in Hfew.
    simpl in Hfew. lia. }
  destruct (length data <? 50)%nat eqn:Hshort.
  { simpl. split; [discriminate |].
    intros (_ & Hlen & _). apply Nat.ltb_lt in Hshort. lia. }
  apply Nat.ltb_ge in Hshort. cbn [orb].
  destruct (reverse strokes) as [|latest_stroke [|prev_stroke rest]] eqn:Hrev.
  { split; [discriminate |]. intros (_ & _ & l & p & r & [=] & _). }
  { split; [discriminate |]. intros (_ & _ & l & p & r & [=] & _). }
  destruct (decide (direction latest_stroke = direction prev_stroke))
    as [Hsame | Hdiff].
  - rewrite bool_decide_eq_false_2 by (intros Hne; apply Hne; exact Hsame).
    unfold at_index.
    assert (Hlook : forall i,
              (MACD <$> data) !! i = None <-> (length data <= i)%nat).
    { intros i. rewrite lookup_ge_None, length_fmap. reflexivity. }
    destruct ((MACD <$> data) !! end_index prev_stroke) as [m1|] eqn:E1;
      destruct ((MACD <$> data) !! end_index latest_stroke) as [m2|] eqn:E2;
      destruct (direction latest_stroke) eqn:Hdir; cbn [mbind result_bind];
      try (split;
           [ intros [= <-]; split; [reflexivity |]; split; [exact Hshort |];
             eexists _, _, _; split; [reflexivity |];
             split; [congruence |];
             first [left; apply Hlook; assumption
                   | right; apply Hlook; assumption]
           | intros (-> & _); reflexivity ]);
      (split; [repeat case_match; discriminate |]);
      intros (_ & _ & l & p & r & [= <- <- <-] & _ & [Hout | Hout]);
      apply Hlook in Hout; congruence.
  - rewrite bool_decide_eq_true_2 by exact Hdiff.
    split; [discriminate |].
    intros (_ & _ & l & p & r & [= <- <- <-] & Heq & _). contradiction.
Qed.

Lemma detect_divergence_raises_only_outside_frame_witness :
  _detect_divergence Examples.macd_frame
    (Examples.stroke up (Examples.fractal 62 bottom 1)
                        (Examples.fractal 68 top 9)
     :: Examples.up_pair)
  = Ok (Some bullish_divergence)
  /\ _detect_divergence Examples.macd_frame
       (Examples.up_pair
        ++ [Examples.stroke up (Examples.fractal 62 bottom 1)
                               (Examples.fractal 68 top 9)])
     = Raise IndexError.
Proof.
  split; [reflexivity |].
  apply detect_divergence_raises_only_outside_frame.
  split; [reflexivity |]. split; [vm_compute; lia |].
  eexists _, _, _. split; [reflexivity |]. split; [reflexivity |].
  right. vm_compute. lia.
Defined.

(** ** Performance bookkeeping of a strategy *)

Lemma record_trades_from_counters (trades : list Q) :
  forall self total count,
    BaseStrategy.performance_metrics self !! "total_pnl"%string = Some total ->
    BaseStrategy.performance_metrics self !! "trade_count"%string
    = Some count ->
    let '(outcomes, self') := record_trades self trades in
    outcomes = replicate (length trades) (Ok ())
    /\ (exists total',
          BaseStrategy.performance_metrics self' !! "total_pnl"%string
          = Some total'
          /\ total' == total + sum_of trades)
    /\ (exists count',
          BaseStrategy.performance_metrics self' !! "trade_count"%string
          = Some count'
          /\ count' == count + inject_Z (Z.of_nat (length trades)))
    /\ (forall key, key <> "total_pnl"%string -> key <> "trade_count"%string ->
          BaseStrategy.performance_metrics self' !! key
          = BaseStrategy.performance_metrics self !! key)
    /\ BaseStrategy.weight self' = BaseStrategy.weight self
    /\ BaseStrategy.enabled self' = BaseStrategy.enabled self.
Proof.
  induction trades as [|pl trades IH]; intros self total count Ht Hc.
  - simpl. repeat split; eauto.
    + exists total. split; [exact Ht | simpl; lra].
    + exists count. split; [exact Hc |].
      change (inject_Z (Z.of_nat 0)) with 0. lra.
  - cbn [record_trades].
    destruct (BaseStrategy.update_performance self pl) as [outcome self1]
      eqn:Hstep.
    unfold BaseStrategy.update_performance in Hstep.
    rewrite Ht in Hstep. rewrite Ht in Hstep.
    rewrite lookup_insert_ne in Hstep by discriminate.
    rewrite Hc in Hstep. injection Hstep as <- <-.
    specialize (IH
      (BaseStrategy.set_performance_metrics self
         (<["trade_count"%string := count + 1]>
            (<["total_pnl"%string := total + pl]>
               (BaseStrategy.performance_metrics self))))
      (total + pl) (count + 1)).
    destruct (record_trades _ trades) as [outcomes self'].
    destruct IH as (Hout & (total' & Ht' & Etotal) & (count' & Hc' & Ecount)
                    & Hother & Hw & Hen).
    { simpl. rewrite lookup_insert_ne by discriminate.
      apply lookup_insert_eq. }
    { simpl. apply lookup_insert_eq. }
    repeat split.
    + simpl. rewrite Hout. reflexivity.
    + exists total'. split; [exact Ht' |]. rewrite Etotal. simpl. lra.
    + exists count'. split; [exact Hc' |]. rewrite Ecount.
      simpl length.
      rewrite Nat2Z.inj_succ, <- Z.add_1_r, inject_Z_plus.
      change (inject_Z 1) with 1. lra.
    + intros key Hk1 Hk2. rewrite (Hother key Hk1 Hk2). simpl.
      rewrite !lookup_insert_ne by congruence. reflexivity.
    + rewrite Hw. reflexivity.
    + rewrite Hen. reflexivity.
Qed.

(** X15. Starting from the empty metrics of a new strategy, recording a
    non-empty list of trades never raises and leaves exactly two counters:
    ['total_pnl'] is the sum of the profits and losses and ['trade_count']
    their number; weight and enabled flag are untouched. *)
Theorem update_performance_accumulates (self : BaseStrategy.t)
    (first : Q) (rest : list Q) :
  BaseStrategy.performance_metrics self = ∅ ->
  let trades := first :: rest in
  let '(outcomes, self') := record_trades self trades in
  outcomes = replicate (length trades) (Ok ())
  /\ (exists total,
        BaseStrategy.performance_metrics self' !! "total_pnl"%string
        = Some total
        /\ total == sum_of trades)
  /\ (exists count,
        BaseStrategy.performance_metrics self' !! "trade_count"%string
        = Some count
        /\ count == inject_Z (Z.of_nat (length trades)))
  /\ (forall key, key <> "total_pnl"%string -> key <> "trade_count"%string ->
        BaseStrategy.performance_metrics self' !! key = None)
  /\ BaseStrategy.weight self' = BaseStrategy.weight self
  /\ BaseStrategy.enabled self' = BaseStrategy.enabled self.
Proof.
  intros Hfresh trades. unfold trades. cbn [record_trades].
  destruct (BaseStrategy.update_performance self first) as [outcome self1]
    eqn:Hstep.
  unfold BaseStrategy.update_performance in Hstep.
  rewrite Hfresh in Hstep. rewrite lookup_empty in Hstep.
  rewrite lookup_insert_ne in Hstep by discriminate.
  rewrite lookup_insert_eq in Hstep.
  rewrite lookup_insert_ne in Hstep by discriminate.
  rewrite lookup_insert_eq in Hstep.
  injection Hstep as <- <-.
  pose proof (record_trades_from_counters rest
    (BaseStrategy.set_performance_metrics self
       (<["trade_count"%string := 0 + 1]>
          (<["total_pnl"%string := 0 + first]>
             (<["trade_count"%string := 0]>
                (<["total_pnl"%string := 0]> ∅)))))
    (0 + first) (0 + 1)) as IH.
  destruct (record_trades _ rest) as [outcomes self'].
  destruct IH as (Hout & (total' & Ht' & Etotal) & (count' & Hc' & Ecount)
                  & Hother & Hw & Hen).
  { simpl. rewrite lookup_insert_ne by discriminate.
    apply lookup_insert_eq. }
  { simpl. apply lookup_insert_eq. }
  repeat split.
  - simpl. rewrite Hout. reflexivity.
  - exists total'. split; [exact Ht' |]. rewrite Etotal. simpl. lra.
  - exists count'. split; [exact Hc' |]. rewrite Ecount.
    simpl length.
    rewrite Nat2Z.inj_succ, <- Z.add_1_r, inject_Z_plus.
    change (inject_Z 1) with 1. lra.
  - intros key Hk1 Hk2. rewrite (Hother key Hk1 Hk2). simpl.
    rewrite !lookup_insert_ne by congruence. apply lookup_empty.
  - rewrite Hw. reflexivity.
  - rewrite Hen. reflexivity.
Qed.

Lemma update_performance_accumulates_witness :
  exists outcomes self',
    record_trades (Examples.constant_strategy "trader" 1.0 BUY STRONG 0.9)
      [12.5; -2.5; 5] = (outcomes, self')
    /\ outcomes = [Ok (); Ok (); Ok ()]
    /\ (exists total,
          BaseStrategy.performance_metrics self' !! "total_pnl"%string
          = Some total /\ total == 15)
    /\ (exists count,
          BaseStrategy.performance_metrics self' !! "trade_count"%string
          = Some count /\ count == 3).
Proof.
  pose proof (update_performance_accumulates
                (Examples.constant_strategy "trader" 1.0 BUY STRONG 0.9)
                12.5 [-2.5; 5] eq_refl) as H.
  cbv zeta in H.
  destruct (record_trades _ _) as [outcomes self'].
  destruct H as (Hout & (total & Ht & Et) & (count & Hc & Ec) & _).
  exists outcomes, self'. split; [reflexivity |].
  split; [exact Hout |]. split.
  - exists total. split; [exact Ht |]. rewrite Et. reflexivity.
  - exists count. split; [exact Hc |]. rewrite Ec. reflexivity.
Defined.

(** X16. When the metrics hold ['total_pnl'] but no ['trade_count'],
    [update_performance] raises [KeyError] after it has already added the
    profit or loss to ['total_pnl']: the update is left half done. *)
Theorem update_performance_half_update (self : BaseStrategy.t)
    (total profit_loss : Q) :
  BaseStrategy.performance_metrics self !! "total_pnl"%string = Some total ->
  BaseStrategy.performance_metrics self !! "trade_count"%string = None ->
  let '(outcome, self') :=
    BaseStrategy.update_performance self profit_loss in
  outcome = Raise KeyError
  /\ BaseStrategy.performance_metrics self' !! "total_pnl"%string
     = Some (total + profit_loss)
  /\ BaseStrategy.performance_metrics self' !! "trade_count"%string = None.
Proof.
  intros Ht Hc. unfold BaseStrategy.update_performance.
  rewrite Ht. rewrite Ht.
  rewrite lookup_insert_ne by discriminate. rewrite Hc.
  repeat split; simpl.
  - apply lookup_insert_eq.
  - rewrite lookup_insert_ne by discriminate. exact Hc.
Qed.

Lemma update_performance_half_update_witness :
  exists self',
    BaseStrategy.update_performance
      (BaseStrategy.set_performance_metrics
         (Examples.constant_strategy "trader" 1.0 BUY STRONG 0.9)
         {[ "total_pnl"%string := 5 ]})
      2.5
    = (Raise KeyError, self')
    /\ BaseStrategy.performance_metrics self' !! "total_pnl"%string
       = Some (5 + 2.5).
Proof.
  pose proof (update_performance_half_update
                (BaseStrategy.set_performance_metrics
                   (Examples.constant_strategy "trader" 1.0 BUY STRONG 0.9)
                   {[ "total_pnl"%string := 5 ]})
                5 2.5 eq_refl eq_refl) as H.
  destruct (BaseStrategy.update_performance _ _) as [outcome self'].
  destruct H as (-> & Ht & _).
  exists self'. split; [reflexivity | exact Ht].
Defined.

(** ** Weights *)

Lemma clamp_in_range (x : Q) : 0.1 <= Qmax 0.1 (Qmin 2.0 x) <= 2.0.
Proof.
  destruct (Qmax_cases 0.1 (Qmin 2.0 x)) as [[Hlt ->] | [Hle ->]];
    [| lra].
  destruct (Qmin_cases 2.0 x) as [[H1 E] | [H1 E]]; rewrite E in *; lra.
Qed.

(** X17. Whatever the factor, [adjust_weight] leaves a weight in
    [0.1, 2.0]: the product when it lies in the range, 0.1 when it falls
    below (a zero or negative factor included), 2.0 when it exceeds it;
    name, enabled flag and metrics are not touched. *)
Theorem adjust_weight_clamps (self : BaseStrategy.t) (factor : Q) :
  let w := BaseStrategy.weight self * factor in
  let self' := BaseStrategy.adjust_weight self factor in
  0.1 <= BaseStrategy.weight self' <= 2.0
  /\ (0.1 <= w <= 2.0 -> BaseStrategy.weight self' == w)
  /\ (w < 0.1 -> BaseStrategy.weight self' = 0.1)
  /\ (2.0 < w -> BaseStrategy.weight self' = 2.0)
  /\ BaseStrategy.name self' = BaseStrategy.name self
  /\ BaseStrategy.enabled self' = BaseStrategy.enabled self
  /\ BaseStrategy.performance_metrics self'
     = BaseStrategy.performance_metrics self.
Proof.
  intros w self'. unfold self'. rewrite adjust_weight_weight. fold w.
  clearbody w. split; [apply clamp_in_range |].
  repeat split.
  - intros [Hlo Hhi].
    destruct (Qmax_cases 0.1 (Qmin 2.0 w)) as [[H1 ->] | [H1 ->]];
      destruct (Qmin_cases 2.0 w) as [[H2 E] | [H2 E]];
      rewrite ?E in *; lra.
  - intros Hlow.
    destruct (Qmax_cases 0.1 (Qmin 2.0 w)) as [[H1 E1] | [H1 E1]];
      [| exact E1].
    exfalso.
    destruct (Qmin_cases 2.0 w) as [[H2 E] | [H2 E]]; rewrite E in H1; lra.
  - intros Hhigh.
    destruct (Qmin_cases 2.0 w) as [[H2 E] | [H2 E]]; [| lra].
    rewrite E.
    destruct (Qmax_cases 0.1 2.0) as [[_ E1] | [H1 _]]; [exact E1 | lra].
Qed.

Lemma adjust_weight_clamps_witness :
  BaseStrategy.weight
    (BaseStrategy.adjust_weight
       (Examples.constant_strategy "trader" 1.0 BUY STRONG 0.9) (-3))
  = 0.1
  /\ BaseStrategy.weight
       (BaseStrategy.adjust_weight
          (Examples.constant_strategy "trader" 1.0 BUY STRONG 0.9) 5)
     = 2.0.
Proof.
  split.
  - refine (proj1 (proj2 (proj2 (adjust_weight_clamps
              (Examples.constant_strategy "trader" 1.0 BUY STRONG 0.9)
              (-3)))) _).
    reflexivity.
  - refine (proj1 (proj2 (proj2 (proj2 (adjust_weight_clamps
              (Examples.constant_strategy "trader" 1.0 BUY STRONG 0.9)
              5)))) _).
    reflexivity.
Defined.

Lemma adapted_strategy_keeps (strategy : BaseStrategy.t) :
  let strategy' := adapted_strategy strategy in
  BaseStrategy.name strategy' = BaseStrategy.name strategy
  /\ BaseStrategy.enabled strategy' = BaseStrategy.enabled strategy
  /\ BaseStrategy.performance_metrics strategy'
     = BaseStrategy.performance_metrics strategy
  /\ BaseStrategy.calculate_signal strategy'
     = BaseStrategy.calculate_signal strategy
  /\ (BaseStrategy.weight strategy' = BaseStrategy.weight strategy
      \/ 0.1 <= BaseStrategy.weight strategy' <= 2.0).
Proof.
  unfold adapted_strategy.
  destruct (Qltb 0.6 (BaseStrategy.get_win_rate strategy));
    [| destruct (Qltb (BaseStrategy.get_win_rate strategy) 0.4)];
    simpl; repeat split; auto; right; apply clamp_in_range.
Qed.

(** X18. One adaptation pass runs the loop body on an object once for each
    time the object occurs in the strategy list: an object listed twice is
    adapted twice in the same pass, an object not listed is left alone. *)
Theorem optimize_weights_counts_occurrences (σ : store)
    (self : StrategyTree.t) (r : ref) :
  StrategyTree.optimize_weights σ self r
  = Nat.iter (count_occ Nat.eq_dec (StrategyTree.strategies self) r)
             adapted_strategy (σ r).
Proof. apply optimize_weights_count. Qed.

(** X19. An adaptation pass changes nothing but weights: name, enabled
    flag, metrics (hence the win rate) and signal method of every object
    are kept; and every weight either stays as it was or lies in
    [0.1, 2.0], so weights inside the range stay inside it.  Disabled
    strategies are adapted like enabled ones. *)
Theorem optimize_weights_only_moves_weights (σ : store)
    (self : StrategyTree.t) (r : ref) :
  let strategy := σ r in
  let strategy' := StrategyTree.optimize_weights σ self r in
  BaseStrategy.name strategy' = BaseStrategy.name strategy
  /\ BaseStrategy.enabled strategy' = BaseStrategy.enabled strategy
  /\ BaseStrategy.performance_metrics strategy'
     = BaseStrategy.performance_metrics strategy
  /\ BaseStrategy.get_win_rate strategy' = BaseStrategy.get_win_rate strategy
  /\ BaseStrategy.calculate_signal strategy'
     = BaseStrategy.calculate_signal strategy
  /\ (BaseStrategy.weight strategy' = BaseStrategy.weight strategy
      \/ 0.1 <= BaseStrategy.weight strategy' <= 2.0)
  /\ (0.1 <= BaseStrategy.weight strategy <= 2.0 ->
      0.1 <= BaseStrategy.weight strategy' <= 2.0).
Proof.
  intros strategy strategy'. unfold strategy', strategy.
  unfold StrategyTree.optimize_weights. rewrite optimize_weights_count.
  generalize (count_occ Nat.eq_dec (StrategyTree.strategies self) r).
  intros n.
  assert (H : let s' := Nat.iter n adapted_strategy (σ r) in
              BaseStrategy.name s' = BaseStrategy.name (σ r)
              /\ BaseStrategy.enabled s' = BaseStrategy.enabled (σ r)
              /\ BaseStrategy.performance_metrics s'
                 = BaseStrategy.performance_metrics (σ r)
              /\ BaseStrategy.calculate_signal s'
                 = BaseStrategy.calculate_signal (σ r)
              /\ (BaseStrategy.weight s' = BaseStrategy.weight (σ r)
                  \/ 0.1 <= BaseStrategy.weight s' <= 2.0)).
  { induction n as [|n IH]; [simpl; auto 10 |].
    cbn [Nat.iter nat_rect].
    destruct IH as (H1 & H2 & H3 & H4 & H5).
    destruct (adapted_strategy_keeps (Nat.iter n adapted_strategy (σ r)))
      as (K1 & K2 & K3 & K4 & K5).
    change (nat_rect (fun _ => BaseStrategy.t) (σ r)
              (fun _ => adapted_strategy) n)
      with (Nat.iter n adapted_strategy (σ r)).
    repeat split; try congruence.
    destruct K5 as [K5 | K5]; [| right; exact K5].
    destruct H5 as [H5 | H5]; [left; congruence | right].
    rewrite K5. exact H5. }
  destruct H as (H1 & H2 & H3 & H4 & H5).
  repeat split; try assumption.
  - unfold BaseStrategy.get_win_rate. rewrite H3. reflexivity.
  - destruct H5 as [-> | [H5 _]]; [tauto | exact H5].
  - destruct H5 as [-> | [_ H5]]; [tauto | exact H5].
Qed.

Lemma optimize_weights_only_moves_weights_witness :
  0.1 <= BaseStrategy.weight
           (StrategyTree.optimize_weights Examples.scenario_E_store
              (StrategyTree.add_strategy Examples.scenario_D_tree 1%nat)
              1%nat) <= 2.0.
Proof.
  refine (proj2 (proj2 (proj2 (proj2 (proj2 (proj2
            (optimize_weights_only_moves_weights Examples.scenario_E_store
               (StrategyTree.add_strategy Examples.scenario_D_tree 1%nat)
               1%nat)))))) _).
  split; apply Qle_bool_imp_le; reflexivity.
Defined.

(** ** Registering and removing strategies *)

Lemma filter_all {A} (P : A -> Prop) `{forall x, Decision (P x)}
    (l : list A) :
  (forall x, x ∈ l -> P x) -> filter P l = l.
Proof.
  induction l as [|a l IH]; intros Hall; [reflexivity |].
  rewrite filter_cons_True by (apply Hall; left).
  rewrite IH; [reflexivity |]. intros x Hx. apply Hall. right. exact Hx.
Qed.

(** X20. [remove_strategy] keeps, in order, exactly the listed strategies
    whose name differs from the given one, so it removes every strategy of
    that name at once, and it touches neither the history nor the
    threshold.  Removing by its name a strategy that was just added gives
    the tree back when no other listed strategy has that name. *)
Theorem remove_strategy_by_name (σ : store) (self : StrategyTree.t) :
  (forall strategy_name r,
     r ∈ StrategyTree.strategies
           (StrategyTree.remove_strategy σ self strategy_name)
     <-> r ∈ StrategyTree.strategies self
         /\ BaseStrategy.name (σ r) <> strategy_name)
  /\
  (forall strategy_name,
     StrategyTree.strategies
       (StrategyTree.remove_strategy σ self strategy_name)
     `sublist_of` StrategyTree.strategies self
     /\ StrategyTree.signal_history
          (StrategyTree.remove_strategy σ self strategy_name)
        = StrategyTree.signal_history self
     /\ StrategyTree.risk_threshold
          (StrategyTree.remove_strategy σ self strategy_name)
        = StrategyTree.risk_threshold self)
  /\
  (forall r,
     (forall r', r' ∈ StrategyTree.strategies self ->
                 BaseStrategy.name (σ r') <> BaseStrategy.name (σ r)) ->
     StrategyTree.remove_strategy σ (StrategyTree.add_strategy self r)
       (BaseStrategy.name (σ r))
     = self).
Proof.
  split; [| split].
  - intros strategy_name r. unfold StrategyTree.remove_strategy. simpl.
    rewrite list_elem_of_filter. tauto.
  - intros strategy_name. unfold StrategyTree.remove_strategy. simpl.
    repeat split. apply sublist_filter.
  - intros r Hfresh. destruct self as [l hist thr].
    unfold StrategyTree.remove_strategy, StrategyTree.add_strategy. simpl.
    f_equal. rewrite filter_app.
    rewrite (filter_all _ l) by exact Hfresh.
    rewrite filter_cons_False by (intros Hne; apply Hne; reflexivity).
    rewrite filter_nil. apply app_nil_r.
Qed.

Lemma remove_strategy_by_name_witness :
  StrategyTree.remove_strategy Examples.scenario_D_store
    Examples.scenario_D_tree "seller"
  = StrategyTree.add_strategy StrategyTree.init 0%nat.
Proof.
  refine (proj2 (proj2 (remove_strategy_by_name Examples.scenario_D_store
            (StrategyTree.add_strategy StrategyTree.init 0%nat)))
            1%nat _).
  intros r' Hin. apply list_elem_of_singleton in Hin as ->.
  vm_compute. discriminate.
Defined.

(** ** Fusion: who contributes, and what is recorded *)

(** Every collected pair comes from an enabled listed strategy that
    returned this signal, with that strategy's weight. *)
Lemma collect_signals_origin (σ : store) (data : DataFrame) (l : list ref) :
  forall signals total_weight signals' total_weight',
    StrategyTree.collect_signals σ data l signals total_weight
    = Ok (signals', total_weight') ->
    exists new,
      signals' = signals ++ new
      /\ forall signal weight,
           (signal, weight) ∈ new ->
           exists r,
             r ∈ l
             /\ BaseStrategy.enabled (σ r) = true
             /\ BaseStrategy.calculate_signal (σ r) data = Ok (Some signal)
             /\ weight = BaseStrategy.weight (σ r).
Proof.
  induction l as [|r l IH]; intros signals tw signals' tw' Hrun.
  - simpl in Hrun. injection Hrun as <- <-. exists [].
    rewrite app_nil_r. split; [reflexivity |].
    intros s w Hin. apply elem_of_nil in Hin. tauto.
  - simpl in Hrun.
    destruct (BaseStrategy.enabled (σ r)) eqn:Hen; simpl in Hrun.
    + destruct (BaseStrategy.calculate_signal (σ r) data) as [[sig|]|e]
        eqn:Hsig; simpl in Hrun; [| | discriminate].
      * destruct (IH _ _ _ _ Hrun) as (new & -> & Hnew).
        exists ((sig, BaseStrategy.weight (σ r)) :: new).
        split; [rewrite <- app_assoc; reflexivity |].
        intros s w Hin. apply elem_of_cons in Hin as [[= -> ->] | Hin].
        -- exists r. repeat split; [left | exact Hen | exact Hsig].
        -- destruct (Hnew s w Hin) as (r' & Hr' & Hrest).
           exists r'. split; [right; exact Hr' | exact Hrest].
      * destruct (IH _ _ _ _ Hrun) as (new & -> & Hnew).
        exists new. split; [reflexivity |].
        intros s w Hin. destruct (Hnew s w Hin) as (r' & Hr' & Hrest).
        exists r'. split; [right; exact Hr' | exact Hrest].
    + destruct (IH _ _ _ _ Hrun) as (new & -> & Hnew).
      exists new. split; [reflexivity |].
      intros s w Hin. destruct (Hnew s w Hin) as (r' & Hr' & Hrest).
      exists r'. split; [right; exact Hr' | exact Hrest].
Qed.

Lemma collect_signals_silent (σ : store) (data : DataFrame) (l : list ref) :
  (forall r, r ∈ l ->
             BaseStrategy.enabled (σ r) = false
             \/ BaseStrategy.calculate_signal (σ r) data = Ok None) ->
  forall signals total_weight,
    StrategyTree.collect_signals σ data l signals total_weight
    = Ok (signals, total_weight).
Proof.
  induction l as [|r l IH]; intros Hsilent signals tw; [reflexivity |].
  simpl.
  assert (Hrest : forall r', r' ∈ l ->
            BaseStrategy.enabled (σ r') = false
            \/ BaseStrategy.calculate_signal (σ r') data = Ok None).
  { intros r' Hin. apply Hsilent. right. exact Hin. }
  destruct (BaseStrategy.enabled (σ r)) eqn:Hen; simpl.
  - destruct (Hsilent r ltac:(left)) as [H | H]; [congruence |].
    rewrite H. simpl. apply IH. exact Hrest.
  - apply IH. exact Hrest.
Qed.

Lemma fusion_silent (σ : store) (self : StrategyTree.t) (data : DataFrame) :
  (forall r, r ∈ StrategyTree.strategies self ->
             BaseStrategy.enabled (σ r) = false
             \/ BaseStrategy.calculate_signal (σ r) data = Ok None) ->
  StrategyTree.calculate_composite_signal σ self data = Ok (None, self).
Proof.
  intros Hsilent. unfold StrategyTree.calculate_composite_signal.
  destruct (StrategyTree.strategies self) as [|r0 l0] eqn:Hl;
    [reflexivity |].
  rewrite (collect_signals_silent σ data (r0 :: l0) Hsilent).
  reflexivity.
Qed.

(** X21. When every listed strategy is disabled or returns no signal, the
    fusion returns no composite signal and leaves the tree as it was; a
    disabled strategy is not even asked, so it does not matter what its
    [calculate_signal] would return or raise. *)
Theorem fusion_without_contributors (σ : store) (self : StrategyTree.t)
    (data : DataFrame) :
  (forall r, r ∈ StrategyTree.strategies self ->
             BaseStrategy.enabled (σ r) = false
             \/ BaseStrategy.calculate_signal (σ r) data = Ok None) ->
  StrategyTree.calculate_composite_signal σ self data = Ok (None, self).
Proof. apply fusion_silent. Qed.

Lemma fusion_without_contributors_witness :
  StrategyTree.calculate_composite_signal
    (fun _ =>
       {| BaseStrategy.name := "off"; BaseStrategy.weight := 1.0;
          BaseStrategy.enabled := false;
          BaseStrategy.performance_metrics := ∅;
          BaseStrategy.calculate_signal := fun _ => Raise KeyError;
          BaseStrategy.get_required_indicators := [] |})
    Examples.scenario_D_tree []
  = Ok (None, Examples.scenario_D_tree).
Proof.
  apply fusion_without_contributors.
  intros r _. left. reflexivity.
Defined.

(** X22. A tree whose strategies all run the Chan strategy's
    [calculate_signal] never produces a composite signal, whatever the
    frame, the weights and the enabled flags. *)
Theorem chan_only_tree_is_silent (σ : store) (self : StrategyTree.t)
    (data : DataFrame) :
  (forall r, r ∈ StrategyTree.strategies self ->
             BaseStrategy.calculate_signal (σ r)
             = ChangLunStrategy.calculate_signal) ->
  StrategyTree.calculate_composite_signal σ self data = Ok (None, self).
Proof.
  intros Hchan. apply fusion_silent. intros r Hin. right.
  rewrite (Hchan r Hin).
  destruct (calculate_signal data) as [[s|]|e] eqn:E.
  - exfalso. exact (calculate_signal_never_emits data s E).
  - reflexivity.
  - exfalso. revert E. unfold calculate_signal.
    destruct (length data <? position_lookback)%nat eqn:Hlen;
      [discriminate |].
    assert (Hne : data <> []) by (intros ->; discriminate).
    destruct (identify_strokes_linked data (_identify_fractals data))
      as [Hshape Hlinked].
    destruct (_identify_strokes data (_identify_fractals data))
      as [|s0 strokes']; [discriminate |].
    destruct (analyze_trend_total data (s0 :: strokes') Hne) as [t ->].
    destruct (relative_position_total data Hne) as [p ->].
    rewrite (detect_divergence_on_linked data (s0 :: strokes')
               Hshape Hlinked).
    destruct (monitor_emotion_total data Hne) as [em ->].
    discriminate.
Qed.

Lemma chan_only_tree_is_silent_witness :
  StrategyTree.calculate_composite_signal
    (fun _ => ChangLunStrategy.init) Examples.scenario_D_tree
    Examples.wave_frame
  = Ok (None, Examples.scenario_D_tree).
Proof.
  apply chan_only_tree_is_silent.
  intros r _. reflexivity.
Defined.

(** What an emitted composite signal tells about the scores: the collected
    signals, the folded sums and the normalised scores it was decided on. *)
Lemma fusion_inversion (σ : store) (self : StrategyTree.t)
    (data : DataFrame) (o : option TradingSignal) (self' : StrategyTree.t) :
  StrategyTree.calculate_composite_signal σ self data = Ok (o, self') ->
  match o with
  | None => self' = self
  | Some s =>
      exists signals tw b sl c rs,
        StrategyTree.collect_signals σ data (StrategyTree.strategies self)
          [] 0 = Ok (signals, tw)
        /\ fold_left StrategyTree.score_step signals (0, 0, 0, [])
           = (b, sl, c, rs)
        /\ let nb := if tw >? 0 then b / tw else b in
           let ns := if tw >? 0 then sl / tw else sl in
           let nc := if tw >? 0 then c / tw else c in
           confidence s = nc
           /\ self'
              = {| StrategyTree.strategies := StrategyTree.strategies self;
                   StrategyTree.signal_history :=
                     StrategyTree.signal_history self ++
                     [ {| history_signal_type := signal_type s;
                          history_strength := strength s;
                          history_confidence := nc;
                          history_buy_score := nb;
                          history_sell_score := ns |} ];
                   StrategyTree.risk_threshold :=
                     StrategyTree.risk_threshold self |}
           /\ match signal_type s with
              | BUY =>
                  ns < nb /\ StrategyTree.risk_threshold self < nb
                  /\ strength s
                     = (if nb >? 0.8 then STRONG
                        else if nb >? 0.7 then MEDIUM else WEAK)
              | SELL =>
                  nb < ns /\ StrategyTree.risk_threshold self < ns
                  /\ strength s
                     = (if ns >? 0.8 then STRONG
                        else if ns >? 0.7 then MEDIUM else WEAK)
              | HOLD => False
              end
  end.
Proof.
  unfold StrategyTree.calculate_composite_signal.
  destruct (StrategyTree.strategies self) as [|r0 l0] eqn:Hl.
  { intros [= <- <-]. reflexivity. }
  destruct (StrategyTree.collect_signals σ data (r0 :: l0) [] 0)
    as [[signals tw]|e] eqn:Hrun; [| discriminate].
  cbn [mbind result_bind].
  destruct signals as [|sw signals'].
  { intros [= <- <-]. reflexivity. }
  cbv beta iota.
  remember (sw :: signals') as signals eqn:Hsignals in *.
  clear Hsignals sw signals'.
  destruct (fold_left StrategyTree.score_step signals (0, 0, 0, []))
    as [[[b sl] c] rs] eqn:Hfold.
  set (thr := StrategyTree.risk_threshold self).
  assert (Hgoal :
    forall nb ns nc,
      (let '(signal_type, strength) :=
         if (nb >? ns) && (nb >? thr)
         then (BUY, if nb >? 0.8 then STRONG
                    else if nb >? 0.7 then MEDIUM else WEAK)
         else if (ns >? nb) && (ns >? thr)
         then (SELL, if ns >? 0.8 then STRONG
                     else if ns >? 0.7 then MEDIUM else WEAK)
         else (HOLD, WEAK) in
       if bool_decide (signal_type = HOLD) then Ok (None, self)
       else
         Ok (Some {| signal_type := signal_type; strength := strength;
                     confidence := nc; reason := CompositeText rs |},
             {| StrategyTree.strategies := r0 :: l0;
                StrategyTree.signal_history :=
                  StrategyTree.signal_history self ++
                  [ {| history_signal_type := signal_type;
                       history_strength := strength;
                       history_confidence := nc;
                       history_buy_score := nb;
                       history_sell_score := ns |} ];
                StrategyTree.risk_threshold := thr |}))
      = Ok (o, self') ->
      match o with
      | None => self' = self
      | Some s =>
          confidence s = nc
          /\ self'
             = {| StrategyTree.strategies := r0 :: l0;
                  StrategyTree.signal_history :=
                    StrategyTree.signal_history self ++
                    [ {| history_signal_type := signal_type s;
                         history_strength := strength s;
                         history_confidence := nc;
                         history_buy_score := nb;
                         history_sell_score := ns |} ];
                  StrategyTree.risk_threshold := thr |}
          /\ match signal_type s with
             | BUY =>
                 ns < nb /\ thr < nb
                 /\ strength s
                    = (if nb >? 0.8 then STRONG
                       else if nb >? 0.7 then MEDIUM else WEAK)
             | SELL =>
                 nb < ns /\ thr < ns
                 /\ strength s
                    = (if ns >? 0.8 then STRONG
                       else if ns >? 0.7 then MEDIUM else WEAK)
             | HOLD => False
             end
      end).
  { intros nb ns nc.
    destruct ((nb >? ns) && (nb >? thr)) eqn:C1.
    - apply andb_true_iff in C1 as [C1a C1b].
      apply Qltb_lt in C1a, C1b.
      rewrite bool_decide_eq_false_2 by discriminate.
      intros [= <- <-]. simpl. auto.
    - destruct ((ns >? nb) && (ns >? thr)) eqn:C2.
      + apply andb_true_iff in C2 as [C2a C2b].
        apply Qltb_lt in C2a, C2b.
        rewrite bool_decide_eq_false_2 by discriminate.
        intros [= <- <-]. simpl. auto.
      + rewrite bool_decide_eq_true_2 by reflexivity.
        intros [= <- <-]. reflexivity. }
  destruct (tw >? 0) eqn:Hnorm; intros Hrun';
    apply Hgoal in Hrun'; (destruct o as [s|]; [| exact Hrun']);
    exists signals, tw, b, sl, c, rs; rewrite Hnorm; cbv zeta;
    (split; [first [reflexivity | exact Hrun] |]);
    (split; [first [reflexivity | exact Hfold] |]); exact Hrun'.
Qed.

(** X23. The fusion keeps its own books: it never changes the strategy
    list or the threshold; it leaves the tree untouched when it returns no
    signal; and when it returns one it appends exactly one history entry
    carrying the signal's type, strength and confidence together with the
    two normalised scores, where the winning score exceeds both the other
    score and the risk threshold and the strength is strong above 0.8,
    medium above 0.7 and weak otherwise. *)
Theorem fusion_bookkeeping (σ : store) (self : StrategyTree.t)
    (data : DataFrame) (o : option TradingSignal) (self' : StrategyTree.t) :
  StrategyTree.calculate_composite_signal σ self data = Ok (o, self') ->
  StrategyTree.strategies self' = StrategyTree.strategies self
  /\ StrategyTree.risk_threshold self' = StrategyTree.risk_threshold self
  /\ match o with
     | None => self' = self
     | Some s =>
         exists buy_score sell_score,
           StrategyTree.signal_history self'
           = StrategyTree.signal_history self ++
             [ {| history_signal_type := signal_type s;
                  history_strength := strength s;
                  history_confidence := confidence s;
                  history_buy_score := buy_score;
                  history_sell_score := sell_score |} ]
           /\ match signal_type s with
              | BUY =>
                  sell_score < buy_score
                  /\ StrategyTree.risk_threshold self < buy_score
                  /\ strength s
                     = (if buy_score >? 0.8 then STRONG
                        else if buy_score >? 0.7 then MEDIUM else WEAK)
              | SELL =>
                  buy_score < sell_score
                  /\ StrategyTree.risk_threshold self < sell_score
                  /\ strength s
                     = (if sell_score >? 0.8 then STRONG
                        else if sell_score >? 0.7 then MEDIUM else WEAK)
              | HOLD => False
              end
     end.
Proof.
  intros Hrun. pose proof (fusion_inversion σ self data o self' Hrun) as H.
  destruct o as [s|]; [| subst self'; auto].
  destruct H as (signals & tw & b & sl & c & rs & _ & _ & Hc & -> & Hdir).
  simpl. split; [reflexivity |]. split; [reflexivity |].
  eexists _, _. split; [rewrite Hc; reflexivity | exact Hdir].
Qed.

Lemma fusion_bookkeeping_witness :
  exists s self',
    StrategyTree.calculate_composite_signal
      Examples.scenario_D_store Examples.scenario_D_tree []
    = Ok (Some s, self')
    /\ StrategyTree.strategies self' = [0%nat; 1%nat]
    /\ length (StrategyTree.signal_history self') = 1%nat.
Proof.
  eexists _, _. split; [reflexivity |].
  destruct (fusion_bookkeeping Examples.scenario_D_store
              Examples.scenario_D_tree [] _ _ eq_refl)
    as (Hl & _ & (b & sl & Hh & _)).
  split; [exact Hl |]. rewrite Hh. reflexivity.
Defined.

Lemma score_fold_buy_unchanged (signals : list (TradingSignal * Q)) :
  forall acc,
    (forall sw, sw ∈ signals -> signal_type (fst sw) <> BUY) ->
    fst (fst (fst (fold_left StrategyTree.score_step signals acc)))
    = fst (fst (fst acc)).
Proof.
  induction signals as [|[sig w] signals IH]; intros acc Hno; [reflexivity |].
  simpl. rewrite IH by (intros sw Hin; apply Hno; right; exact Hin).
  destruct acc as [[[b s] c] rs]. simpl.
  specialize (Hno (sig, w) ltac:(left)). simpl in Hno.
  destruct (signal_type sig); [congruence | reflexivity | reflexivity].
Qed.

Lemma score_fold_sell_unchanged (signals : list (TradingSignal * Q)) :
  forall acc,
    (forall sw, sw ∈ signals -> signal_type (fst sw) <> SELL) ->
    snd (fst (fst (fold_left StrategyTree.score_step signals acc)))
    = snd (fst (fst acc)).
Proof.
  induction signals as [|[sig w] signals IH]; intros acc Hno; [reflexivity |].
  simpl. rewrite IH by (intros sw Hin; apply Hno; right; exact Hin).
  destruct acc as [[[b s] c] rs]. simpl.
  specialize (Hno (sig, w) ltac:(left)). simpl in Hno.
  destruct (signal_type sig); [reflexivity | congruence | reflexivity].
Qed.

Lemma normalised_zero (tw : Q) : (if tw >? 0 then 0 / tw else 0) == 0.
Proof.
  destruct (tw >? 0); [| reflexivity].
  unfold Qdiv. apply Qmult_0_l.
Qed.

(** X24. With a non-negative risk threshold the fusion never emits a
    direction that no contributor voted for: a composite buy needs an
    enabled listed strategy that returned a buy signal, a composite sell
    one that returned a sell signal. *)
Theorem fusion_direction_has_a_voter (σ : store) (self : StrategyTree.t)
    (data : DataFrame) (s : TradingSignal) (self' : StrategyTree.t) :
  0 <= StrategyTree.risk_threshold self ->
  StrategyTree.calculate_composite_signal σ self data = Ok (Some s, self') ->
  signal_type s <> HOLD
  /\ exists r signal,
       r ∈ StrategyTree.strategies self
       /\ BaseStrategy.enabled (σ r) = true
       /\ BaseStrategy.calculate_signal (σ r) data = Ok (Some signal)
       /\ signal_type signal = signal_type s.
Proof.
  intros Hthr Hrun.
  destruct (fusion_inversion σ self data _ _ Hrun)
    as (signals & tw & b & sl & c & rs & Hcollect & Hfold & _ & _ & Hdir).
  destruct (collect_signals_origin σ data _ _ _ _ _ Hcollect)
    as (new & Hnew & Horigin).
  simpl in Hnew. subst new.
  assert (Hvoter : forall ty,
            (exists sw, sw ∈ signals /\ signal_type (fst sw) = ty) ->
            exists r signal,
              r ∈ StrategyTree.strategies self
              /\ BaseStrategy.enabled (σ r) = true
              /\ BaseStrategy.calculate_signal (σ r) data = Ok (Some signal)
              /\ signal_type signal = ty).
  { intros ty ([sig w] & Hin & Hty).
    destruct (Horigin sig w Hin) as (r & Hr & Hen & Hsig & _).
    exists r, sig. auto. }
  assert (Hdec : forall ty,
            (exists sw, sw ∈ signals /\ signal_type (fst sw) = ty)
            \/ (forall sw, sw ∈ signals -> signal_type (fst sw) <> ty)).
  { intros ty.
    destruct (decide (Exists (fun sw => signal_type (fst sw) = ty) signals))
      as [Hex | Hno].
    - left. apply Exists_exists in Hex. exact Hex.
    - right. intros sw Hin Hty. apply Hno. apply Exists_exists. eauto. }
  destruct (signal_type s) eqn:Hty; [| | contradiction].
  - split; [discriminate |]. destruct Hdir as (_ & Hwin & _).
    destruct (Hdec BUY) as [Hex | Hno]; [exact (Hvoter BUY Hex) |].
    exfalso.
    pose proof (score_fold_buy_unchanged signals (0, 0, 0, []) Hno) as Hb.
    rewrite Hfold in Hb. simpl in Hb. subst b.
    pose proof (normalised_zero tw). lra.
  - split; [discriminate |]. destruct Hdir as (_ & Hwin & _).
    destruct (Hdec SELL) as [Hex | Hno]; [exact (Hvoter SELL Hex) |].
    exfalso.
    pose proof (score_fold_sell_unchanged signals (0, 0, 0, []) Hno) as Hs.
    rewrite Hfold in Hs. simpl in Hs. subst sl.
    pose proof (normalised_zero tw). lra.
Qed.

Lemma fusion_direction_has_a_voter_witness :
  exists s self' r signal,
    StrategyTree.calculate_composite_signal
      Examples.scenario_D_store Examples.scenario_D_tree []
    = Ok (Some s, self')
    /\ r ∈ StrategyTree.strategies Examples.scenario_D_tree
    /\ BaseStrategy.calculate_signal (Examples.scenario_D_store r) []
       = Ok (Some signal)
    /\ signal_type signal = signal_type s.
Proof.
  destruct (fusion_direction_has_a_voter Examples.scenario_D_store
              Examples.scenario_D_tree [] _ _
              ltac:(apply Qle_bool_imp_le; reflexivity) eq_refl)
    as (_ & r & signal & Hin & _ & Hsig & Hty).
  eexists _, _, r, signal.
  split; [reflexivity |]. split; [exact Hin |].
  split; [exact Hsig | exact Hty].
Defined.

(** ** The trend strategy *)

Lemma iloc_neg_last (data : Labelled.Frame) :
  Labelled.iloc_neg data 1
  = match last data with
    | Some row => Labelled.Ok row
    | None => Labelled.Raise Labelled.IndexError
    end.
Proof.
  unfold Labelled.iloc_neg. simpl pred.
  rewrite <- head_reverse, head_lookup. reflexivity.
Qed.

Lemma iloc_neg_second (data : Labelled.Frame) :
  (2 <= length data)%nat ->
  exists previous, reverse data !! 1%nat = Some previous
                   /\ Labelled.iloc_neg data 2 = Labelled.Ok previous.
Proof.
  intros Hlen. unfold Labelled.iloc_neg. simpl pred.
  destruct (lookup_lt_is_Some_2 (reverse data) 1%nat) as [previous Hp].
  - rewrite length_reverse. lia.
  - exists previous. rewrite Hp. split; reflexivity.
Qed.

Lemma ma_values_ok (latest : Labelled.Series) (periods : list Z) :
  (forall p, p ∈ periods -> is_Some (latest !! TrendStrategy.ma_column p)) ->
  exists vs, TrendStrategy.ma_values latest periods = Labelled.Ok vs
             /\ length vs = length periods.
Proof.
  induction periods as [|p ps IH]; intros Hall.
  - exists []. split; reflexivity.
  - destruct (Hall p ltac:(left)) as [v Hv].
    destruct IH as (vs & Hvs & Hlen).
    { intros q Hq. apply Hall. right. exact Hq. }
    exists (v :: vs). cbn [TrendStrategy.ma_values].
    unfold Labelled.getitem. rewrite Hv. cbn. rewrite Hvs. cbn.
    split; [reflexivity | simpl; congruence].
Qed.

Lemma ma_values_raise (latest : Labelled.Series) (periods : list Z) (p : Z) :
  p ∈ periods -> latest !! TrendStrategy.ma_column p = None ->
  TrendStrategy.ma_values latest periods = Labelled.Raise Labelled.KeyError.
Proof.
  intros Hin Hnone. induction periods as [|q qs IH].
  - inversion Hin.
  - cbn [TrendStrategy.ma_values]. unfold Labelled.getitem.
    destruct (latest !! TrendStrategy.ma_column q) as [v|] eqn:Hq;
      [| reflexivity].
    cbn. rewrite IH; [reflexivity |].
    apply elem_of_cons in Hin as [-> | Hin]; [congruence | exact Hin].
Qed.

Lemma ma_values_length (latest : Labelled.Series) (periods : list Z)
    (vs : list Q) :
  TrendStrategy.ma_values latest periods = Labelled.Ok vs ->
  length vs = length periods.
Proof.
  revert vs. induction periods as [|p ps IH]; intros vs.
  - cbn. intros [= <-]. reflexivity.
  - cbn [TrendStrategy.ma_values]. unfold Labelled.getitem.
    destruct (latest !! TrendStrategy.ma_column p) as [v|]; [| discriminate].
    cbn. destruct (TrendStrategy.ma_values latest ps) as [ws|e];
      [| discriminate].
    cbn. intros [= <-]. simpl. f_equal. apply IH. reflexivity.
Qed.

Lemma fold_max_le (periods : list Z) (period n : Z) :
  (fold_left Z.max periods period <= n)%Z
  <-> (period <= n)%Z /\ Forall (fun p => (p <= n)%Z) periods.
Proof.
  revert period. induction periods as [|q qs IH]; intros period; simpl.
  - split; [intros H; split; [exact H | constructor] | intros [H _]; exact H].
  - rewrite IH, Forall_cons.
    split.
    + intros [H1 H2]. split; [lia | split; [lia | exact H2]].
    + intros [H1 [H2 H3]]. split; [lia | exact H3].
Qed.

Lemma max_period_le (periods : list Z) (longest n : Z) :
  TrendStrategy.max_period periods = Labelled.Ok longest ->
  (longest <= n)%Z <-> Forall (fun p => (p <= n)%Z) periods.
Proof.
  destruct periods as [|p ps]; [discriminate |].
  intros [= <-]. rewrite fold_max_le, Forall_cons. reflexivity.
Qed.

Lemma adx_strength_cases (latest : Labelled.Series) :
  let adx := Labelled.get latest "ADX" 0 in
  let score := TrendStrategy._calculate_adx_strength latest in
  (40 < adx /\ score = 1.0)
  \/ (25 < adx /\ adx <= 40 /\ score = 0.5)
  \/ (adx <= 25 /\ score = 0.0).
Proof.
  intros adx score. unfold score, TrendStrategy._calculate_adx_strength.
  fold adx.
  destruct (Qltb 40 adx) eqn:H40;
    [apply Qltb_lt in H40 | apply Qltb_ge in H40].
  - left. split; [exact H40 | reflexivity].
  - destruct (Qltb 25 adx) eqn:H25;
      [apply Qltb_lt in H25 | apply Qltb_ge in H25].
    + right; left. repeat split; assumption.
    + right; right. split; [exact H25 | reflexivity].
Qed.

Lemma macd_signal_cases (data : Labelled.Frame) :
  exists c,
    TrendStrategy._calculate_macd_signal data = Labelled.Ok c
    /\ (c = 1.0 \/ c = -1.0 \/ c = 0.5 \/ c = -0.5 \/ c = 0)
    /\ (c = 1.0 \/ c = 0.5 ->
        exists current,
          last data = Some current
          /\ Labelled.get current "MACD_Signal" 0
             < Labelled.get current "MACD" 0)
    /\ (c = 1.0 ->
        exists previous,
          reverse data !! 1%nat = Some previous
          /\ Labelled.get previous "MACD" 0
             <= Labelled.get previous "MACD_Signal" 0)
    /\ (c = 0.5 ->
        forall previous,
          reverse data !! 1%nat = Some previous ->
          Labelled.get previous "MACD_Signal" 0
          < Labelled.get previous "MACD" 0).
Proof.
  unfold TrendStrategy._calculate_macd_signal.
  destruct (Nat.ltb_spec (length data) 2) as [Hshort | Hlen].
  - exists 0. split; [reflexivity |].
    split; [tauto |].
    split; [intros [H | H]; discriminate |].
    split; intros H; discriminate.
  - rewrite iloc_neg_last.
    destruct (last data) as [current|] eqn:Hlast.
    2: { apply last_None in Hlast. subst data. simpl in Hlen. lia. }
    destruct (iloc_neg_second data Hlen) as (previous & Hprev & ->).
    cbn [mbind Labelled.result_bind].
    set (macd := Labelled.get current "MACD" 0).
    set (sig := Labelled.get current "MACD_Signal" 0).
    set (pmacd := Labelled.get previous "MACD" 0).
    set (psig := Labelled.get previous "MACD_Signal" 0).
    destruct (Qltb sig macd) eqn:Hup;
      destruct (Qleb pmacd psig) eqn:Hcross;
      destruct (Qltb macd sig) eqn:Hdown;
      destruct (Qleb psig pmacd) eqn:Hdcross;
      destruct (Qltb 0 macd) eqn:Hpos;
      destruct (Qltb macd 0) eqn:Hneg;
      cbn [andb];
      eexists; (split; [reflexivity |]);
      (split; [tauto |]);
      (split;
        [ intros [H | H]; try discriminate H;
          exists current; (split; [reflexivity |]);
          apply Qltb_lt; exact Hup
        | split;
          [ intros H; try discriminate H;
            exists previous; (split; [exact Hprev |]);
            apply Qleb_le; exact Hcross
          | intros H; try discriminate H;
            intros previous' Hprev';
            assert (previous' = previous) by congruence;
            subst previous'; apply Qleb_gt; exact Hcross ] ]).
Qed.

Lemma ma_trend_inv (self : TrendStrategy.t) (data : Labelled.Frame) (m : Q) :
  TrendStrategy._calculate_ma_trend self data = Labelled.Ok m ->
  exists latest vs,
    last data = Some latest
    /\ TrendStrategy.ma_values latest (TrendStrategy.ma_periods self)
       = Labelled.Ok vs
    /\ m = (if forallb (fun p => fst p >? snd p) (TrendStrategy.adjacent vs)
            then 1.0
            else if forallb (fun p => fst p <? snd p)
                      (TrendStrategy.adjacent vs)
            then -1.0
            else fold_left
                   (fun score p =>
                      if fst p >? snd p then score + 0.3 else score - 0.3)
                   (TrendStrategy.adjacent vs) 0).
Proof.
  unfold TrendStrategy._calculate_ma_trend. rewrite iloc_neg_last.
  destruct (last data) as [latest|]; [| discriminate].
  cbn [mbind Labelled.result_bind].
  destruct (TrendStrategy.ma_values latest (TrendStrategy.ma_periods self))
    as [vs|e] eqn:Hvs; [| discriminate].
  cbn [mbind Labelled.result_bind].
  intros Hm. exists latest, vs. split; [reflexivity |].
  split; [exact Hvs |].
  repeat match type of Hm with
         | context [if ?b then _ else _] => destruct b
         end; injection Hm as <-; reflexivity.
Qed.

Lemma ma_score_few (vs : list Q) :
  (length vs <= 4)%nat ->
  let m := if forallb (fun p => fst p >? snd p) (TrendStrategy.adjacent vs)
           then 1.0
           else if forallb (fun p => fst p <? snd p)
                     (TrendStrategy.adjacent vs)
           then -1.0
           else fold_left
                  (fun score p =>
                     if fst p >? snd p then score + 0.3 else score - 0.3)
                  (TrendStrategy.adjacent vs) 0 in
  -1 <= m /\ m <= 1
  /\ ((length vs <= 3)%nat ->
      (m = 1.0
       /\ forallb (fun p => fst p >? snd p) (TrendStrategy.adjacent vs) = true)
      \/ m <= 0).
Proof.
  intros Hlen.
  destruct vs as [|a [|b [|c [|d [|? ?]]]]]; simpl in Hlen; try lia;
    cbn [TrendStrategy.adjacent tail zip zip_with forallb fold_left fst snd
         andb];
    cbv zeta.
  - split; [lra |]. split; [lra |]. intros _. left. split; reflexivity.
  - split; [lra |]. split; [lra |]. intros _. left. split; reflexivity.
  - destruct (Qltb b a), (Qltb a b); cbn [andb];
      (split; [lra |]); (split; [lra |]); intros _;
      first [left; split; reflexivity | right; lra].
  - destruct (Qltb b a), (Qltb a b), (Qltb c b), (Qltb b c); cbn [andb];
      (split; [lra |]); (split; [lra |]); intros _;
      first [left; split; reflexivity | right; lra].
  - destruct (Qltb b a), (Qltb a b), (Qltb c b), (Qltb b c),
             (Qltb d c), (Qltb c d); cbn [andb];
      (split; [lra |]); (split; [lra |]); intros Hthree; simpl in Hthree; lia.
Qed.

Lemma trend_signal_inv (self : TrendStrategy.t) (data : Labelled.Frame)
    (s : Labelled.Signal TrendStrategy.Reason) :
  TrendStrategy.calculate_signal self data = Labelled.Ok (Some s) ->
  exists latest m c,
    last data = Some latest
    /\ TrendStrategy._calculate_ma_trend self data = Labelled.Ok m
    /\ TrendStrategy._calculate_macd_signal data = Labelled.Ok c
    /\ let a := TrendStrategy._calculate_adx_strength latest in
       let total_score := m + a + c in
       (2 < total_score
        /\ s = {| Labelled.signal_type := BUY;
                  Labelled.strength :=
                    if total_score >? 2.5 then STRONG else MEDIUM;
                  Labelled.confidence := Qmin (Qabs total_score / 3.0) 1.0;
                  Labelled.reason :=
                    TrendStrategy.BullishTrendConfirmed m a c |})
       \/
       (total_score < -2
        /\ s = {| Labelled.signal_type := SELL;
                  Labelled.strength :=
                    if total_score <? -2.5 then STRONG else MEDIUM;
                  Labelled.confidence := Qmin (Qabs total_score / 3.0) 1.0;
                  Labelled.reason :=
                    TrendStrategy.BearishTrendConfirmed m a c |}).
Proof.
  unfold TrendStrategy.calculate_signal.
  destruct (TrendStrategy.max_period (TrendStrategy.ma_periods self))
    as [longest|e]; [| discriminate].
  cbn [mbind Labelled.result_bind].
  destruct (Z.of_nat (length data) <? longest)%Z; [discriminate |].
  rewrite iloc_neg_last.
  destruct (last data) as [latest|]; [| discriminate].
  cbn [mbind Labelled.result_bind].
  destruct (TrendStrategy._calculate_ma_trend self data) as [m|e];
    [| discriminate].
  cbn [mbind Labelled.result_bind].
  destruct (TrendStrategy._calculate_macd_signal data) as [c|e];
    [| discriminate].
  cbn [mbind Labelled.result_bind].
  intros Hs. exists latest, m, c.
  split; [reflexivity |]. split; [reflexivity |]. split; [reflexivity |].
  cbv zeta.
  destruct (Qltb 2 (m + TrendStrategy._calculate_adx_strength latest + c))
    eqn:Hbuy.
  - left. apply Qltb_lt in Hbuy. split; [exact Hbuy |].
    injection Hs as <-. reflexivity.
  - destruct (Qltb (m + TrendStrategy._calculate_adx_strength latest + c)
                   (-2)) eqn:Hsell; [| discriminate].
    right. apply Qltb_lt in Hsell. split; [exact Hsell |].
    injection Hs as <-. reflexivity.
Qed.

(** X26. With at most four moving averages, the default three included,
    the trend strategy never emits a sell signal: every signal it returns is
    a buy.  The bound is sharp, with five averages a sell signal can be
    returned. *)
Theorem trend_never_sells_with_few_averages :
  (forall (self : TrendStrategy.t) (data : Labelled.Frame)
          (s : Labelled.Signal TrendStrategy.Reason),
     (length (TrendStrategy.ma_periods self) <= 4)%nat ->
     TrendStrategy.calculate_signal self data = Labelled.Ok (Some s) ->
     Labelled.signal_type s = BUY)
  /\
  (exists (self : TrendStrategy.t) (data : Labelled.Frame)
          (s : Labelled.Signal TrendStrategy.Reason),
     length (TrendStrategy.ma_periods self) = 5%nat
     /\ TrendStrategy.calculate_signal self data = Labelled.Ok (Some s)
     /\ Labelled.signal_type s = SELL).
Proof.
  split.
  - intros self data s Hfew Hrun.
    destruct (trend_signal_inv self data s Hrun)
      as (latest & m & c & Hlast & Hma & Hmacd & Hcases).
    cbv zeta in Hcases.
    destruct Hcases as [[_ ->] | [Hsell _]]; [reflexivity | exfalso].
    destruct (ma_trend_inv self data m Hma) as (latest' & vs & _ & Hvs & Hm).
    apply ma_values_length in Hvs.
    destruct (ma_score_few vs ltac:(lia)) as (Hlow & _).
    cbv zeta in Hlow. rewrite <- Hm in Hlow.
    destruct (macd_signal_cases data) as (c' & Hc' & Hvals & _).
    rewrite Hmacd in Hc'. injection Hc' as <-.
    destruct (adx_strength_cases latest) as [[_ Ha] | [(_ & _ & Ha) | [_ Ha]]];
      rewrite Ha in Hsell;
      destruct Hvals as [-> | [-> | [-> | [-> | ->]]]]; lra.
  - exists LabelledExamples.five_periods, LabelledExamples.sagging_frame.
    eexists. split; [reflexivity |].
    split; [vm_compute; reflexivity | reflexivity].
Qed.

Lemma trend_never_sells_with_few_averages_witness :
  exists s,
    TrendStrategy.calculate_signal TrendStrategy.init
      LabelledExamples.bullish_frame = Labelled.Ok (Some s)
    /\ Labelled.signal_type s = BUY.
Proof.
  eexists. split; [vm_compute; reflexivity |].
  refine (proj1 trend_never_sells_with_few_averages TrendStrategy.init
            LabelledExamples.bullish_frame _ _ _).
  - simpl. lia.
  - vm_compute. reflexivity.
Defined.

(** X27. On a frame whose rows all carry the same columns, with at most
    three moving averages, the default three included, a signal of the
    trend strategy is a buy signal that needs all three
    confirmations on the last row: the averages strictly descending from
    the shortest period to the longest, an ADX above 25, and the MACD above
    its signal line.  It is strong with confidence 1 exactly when the ADX
    exceeds 40 and the MACD has just crossed its signal line; otherwise it
    is medium with confidence 5/6. *)
Theorem trend_signal_needs_three_confirmations (self : TrendStrategy.t)
    (data : Labelled.Frame) (s : Labelled.Signal TrendStrategy.Reason) :
  Labelled.rectangular data ->
  (length (TrendStrategy.ma_periods self) <= 3)%nat ->
  TrendStrategy.calculate_signal self data = Labelled.Ok (Some s) ->
  exists latest vs,
    last data = Some latest
    /\ TrendStrategy.ma_values latest (TrendStrategy.ma_periods self)
       = Labelled.Ok vs
    /\ (forall p, p ∈ TrendStrategy.adjacent vs -> snd p < fst p)
    /\ Labelled.signal_type s = BUY
    /\ 25 < Labelled.get latest "ADX" 0
    /\ Labelled.get latest "MACD_Signal" 0 < Labelled.get latest "MACD" 0
    /\ ((Labelled.strength s = STRONG
         /\ Labelled.confidence s == 1
         /\ 40 < Labelled.get latest "ADX" 0
         /\ exists previous,
              reverse data !! 1%nat = Some previous
              /\ Labelled.get previous "MACD" 0
                 <= Labelled.get previous "MACD_Signal" 0)
        \/ (Labelled.strength s = MEDIUM
            /\ Labelled.confidence s == 5 / 6
            /\ (Labelled.get latest "ADX" 0 <= 40
                \/ forall previous,
                     reverse data !! 1%nat = Some previous ->
                     Labelled.get previous "MACD_Signal" 0
                     < Labelled.get previous "MACD" 0))).
Proof.
  intros _ Hfew Hrun.
  destruct (trend_signal_inv self data s Hrun)
    as (latest & m & c & Hlast & Hma & Hmacd & Hcases).
  cbv zeta in Hcases.
  destruct (ma_trend_inv self data m Hma) as (latest' & vs & Hlast' & Hvs & Hm).
  assert (latest' = latest) by congruence. subst latest'.
  pose proof (ma_values_length _ _ _ Hvs) as Hlen.
  destruct (ma_score_few vs ltac:(lia)) as (Hlow & Hhigh & Hthree).
  cbv zeta in Hlow, Hhigh, Hthree. rewrite <- Hm in Hlow, Hhigh, Hthree.
  specialize (Hthree ltac:(lia)).
  destruct (macd_signal_cases data)
    as (c' & Hc' & Hvals & Habove & Hcross & Hheld).
  rewrite Hmacd in Hc'. injection Hc' as <-.
  exists latest, vs. split; [exact Hlast |]. split; [exact Hvs |].
  pose proof (adx_strength_cases latest) as Hadx. cbv zeta in Hadx.
  set (a := TrendStrategy._calculate_adx_strength latest) in *.
  assert (Hbuy : 2 < m + a + c).
  { destruct Hcases as [[Hbuy _] | [Hsell _]]; [exact Hbuy | exfalso].
    destruct Hadx as [[_ Ha] | [(_ & _ & Ha) | [_ Ha]]]; rewrite Ha in Hsell;
      destruct Hvals as [-> | [-> | [-> | [-> | ->]]]]; lra. }
  destruct Hcases as [[_ Hs] | [Hsell _]]; [| exfalso; lra].
  destruct Hthree as [[Hm1 Hall] | Hm0].
  2: { exfalso.
       destruct Hadx as [[_ Ha] | [(_ & _ & Ha) | [_ Ha]]]; rewrite Ha in Hbuy;
         destruct Hvals as [-> | [-> | [-> | [-> | ->]]]]; lra. }
  split.
  { intros p Hp. apply Qltb_lt.
    rewrite forallb_forall in Hall. apply Hall.
    apply list_elem_of_In. exact Hp. }
  subst s. cbn [Labelled.signal_type Labelled.strength Labelled.confidence].
  split; [reflexivity |].
  clear Hm Hlow Hhigh Hall. subst m.
  assert (Hc : c = 1.0 \/ c = 0.5).
  { destruct Hadx as [[_ Ha] | [(_ & _ & Ha) | [_ Ha]]]; rewrite Ha in Hbuy;
      destruct Hvals as [-> | [-> | [-> | [-> | ->]]]];
      first [left; reflexivity | right; reflexivity | exfalso; lra]. }
  destruct (Habove Hc) as (current & Hcur & Hup).
  assert (current = latest) by congruence. subst current.
  destruct Hadx as [[H40 Ha] | [(H25 & H40 & Ha) | [H25 Ha]]]; rewrite Ha in *.
  - split; [lra |]. split; [exact Hup |].
    destruct Hc as [-> | ->].
    + left. split; [reflexivity |]. split; [reflexivity |].
      split; [exact H40 |]. apply Hcross. reflexivity.
    + right. split; [reflexivity |]. split; [reflexivity |].
      right. apply Hheld. reflexivity.
  - split; [exact H25 |]. split; [exact Hup |].
    destruct Hc as [-> | ->]; [| exfalso; lra].
    right. split; [reflexivity |]. split; [reflexivity |].
    left. exact H40.
  - exfalso. destruct Hc as [-> | ->]; lra.
Qed.

Lemma trend_signal_needs_three_confirmations_witness :
  exists s latest,
    TrendStrategy.calculate_signal TrendStrategy.init
      LabelledExamples.crossing_frame = Labelled.Ok (Some s)
    /\ last LabelledExamples.crossing_frame = Some latest
    /\ Labelled.signal_type s = BUY
    /\ Labelled.strength s = STRONG
    /\ 25 < Labelled.get latest "ADX" 0.
Proof.
  destruct (trend_signal_needs_three_confirmations TrendStrategy.init
              LabelledExamples.crossing_frame _
              ltac:(compute_done) ltac:(simpl; lia) eq_refl)
    as (latest & vs & Hlast & _ & _ & Hbuy & Hadx & _).
  eexists _, latest. split; [reflexivity |].
  split; [exact Hlast |]. split; [exact Hbuy |].
  split; [reflexivity | exact Hadx].
Defined.

(** X28. How [TrendStrategy.calculate_signal] fails.  With an empty list
    of periods it raises [ValueError] on every frame.  When a period
    exceeds the number of rows it returns [None] without reading a row.
    Otherwise it raises [IndexError] on an empty frame, raises [KeyError]
    when the last row lacks one of the moving-average columns, and returns
    normally when the last row has them all: the ADX, MACD and MACD_Signal
    columns may be missing. *)
Theorem trend_signal_failures (self : TrendStrategy.t)
    (data : Labelled.Frame) :
  (TrendStrategy.ma_periods self = [] ->
   TrendStrategy.calculate_signal self data
   = Labelled.Raise Labelled.ValueError)
  /\
  (forall p, p ∈ TrendStrategy.ma_periods self ->
             (Z.of_nat (length data) < p)%Z ->
             TrendStrategy.calculate_signal self data = Labelled.Ok None)
  /\
  (TrendStrategy.ma_periods self <> [] ->
   Forall (fun p => (p <= Z.of_nat (length data))%Z)
          (TrendStrategy.ma_periods self) ->
   match last data with
   | None =>
       TrendStrategy.calculate_signal self data
       = Labelled.Raise Labelled.IndexError
   | Some latest =>
       (forall p, p ∈ TrendStrategy.ma_periods self ->
                  latest !! TrendStrategy.ma_column p = None ->
                  TrendStrategy.calculate_signal self data
                  = Labelled.Raise Labelled.KeyError)
       /\
       ((forall p, p ∈ TrendStrategy.ma_periods self ->
                   is_Some (latest !! TrendStrategy.ma_column p)) ->
        exists o, TrendStrategy.calculate_signal self data = Labelled.Ok o)
   end).
Proof.
  unfold TrendStrategy.calculate_signal.
  split; [intros ->; reflexivity |].
  split.
  - intros p Hin Hshort.
    destruct (TrendStrategy.max_period (TrendStrategy.ma_periods self))
      as [longest|e] eqn:Hmax.
    + cbn [mbind Labelled.result_bind].
      destruct (Z.ltb_spec (Z.of_nat (length data)) longest) as [_ | Hge];
        [reflexivity | exfalso].
      apply (max_period_le _ _ _ Hmax) in Hge.
      rewrite Forall_forall in Hge. specialize (Hge p Hin). lia.
    + destruct (TrendStrategy.ma_periods self); [inversion Hin | discriminate].
  - intros Hne Hall.
    destruct (TrendStrategy.max_period (TrendStrategy.ma_periods self))
      as [longest|e] eqn:Hmax.
    2: { destruct (TrendStrategy.ma_periods self);
           [congruence | discriminate]. }
    cbn [mbind Labelled.result_bind].
    apply (max_period_le _ _ _ Hmax) in Hall.
    destruct (Z.ltb_spec (Z.of_nat (length data)) longest) as [Hlt | _];
      [lia |].
    unfold TrendStrategy._calculate_ma_trend. rewrite iloc_neg_last.
    destruct (last data) as [latest|]; [| reflexivity].
    cbn [mbind Labelled.result_bind]. split.
    + intros p Hin Hnone. rewrite (ma_values_raise latest _ p Hin Hnone).
      reflexivity.
    + intros Hcols.
      destruct (ma_values_ok latest _ Hcols) as (vs & -> & _).
      cbn [mbind Labelled.result_bind].
      destruct (macd_signal_cases data) as (c & -> & _).
      repeat match goal with
             | |- context [if ?b then _ else _] => destruct b
             end; cbn [mbind Labelled.result_bind];
        repeat match goal with
               | |- context [if ?b then _ else _] => destruct b
               end; eexists; reflexivity.
Qed.

Lemma trend_signal_failures_witness :
  TrendStrategy.calculate_signal TrendStrategy.init
    (LabelledExamples.blank_rows 59) = Labelled.Ok None
  /\ TrendStrategy.calculate_signal TrendStrategy.init
       LabelledExamples.frame_without_MA_60
     = Labelled.Raise Labelled.KeyError
  /\ exists o,
       TrendStrategy.calculate_signal TrendStrategy.init
         (LabelledExamples.blank_rows 59
            ++ [ {[ "MA_5" := 1; "MA_20" := 1; "MA_60" := 1 ]} ])
       = Labelled.Ok o.
Proof.
  split; [| split].
  - apply (proj1 (proj2 (trend_signal_failures TrendStrategy.init
                           (LabelledExamples.blank_rows 59))) 60%Z).
    + compute_done.
    + vm_compute. reflexivity.
  - pose proof (proj2 (proj2 (trend_signal_failures TrendStrategy.init
                                LabelledExamples.frame_without_MA_60))
                  ltac:(discriminate) ltac:(compute_done)) as H.
    apply (proj1 H 60%Z); [compute_done | reflexivity].
  - pose proof (proj2 (proj2 (trend_signal_failures TrendStrategy.init
                  (LabelledExamples.blank_rows 59
                     ++ [ {[ "MA_5" := 1; "MA_20" := 1; "MA_60" := 1 ]} ])))
                  ltac:(discriminate) ltac:(compute_done)) as H.
    apply (proj2 H). intros p Hp.
    apply elem_of_cons in Hp as [-> | Hp]; [compute_done |].
    apply elem_of_cons in Hp as [-> | Hp]; [compute_done |].
    apply elem_of_cons in Hp as [-> | Hp]; [compute_done |].
    inversion Hp.
Defined.

(** ** The strength strategy *)

Lemma rsi_score_cases (latest : Labelled.Series) :
  let rsi := Labelled.get latest "RSI" 50 in
  let r := StrengthStrategy._calculate_rsi_score latest in
  (80 < rsi /\ r = -1.0)
  \/ (70 < rsi /\ rsi <= 80 /\ r = -0.5)
  \/ (rsi < 20 /\ r = 1.0)
  \/ (20 <= rsi /\ rsi < 30 /\ r = 0.5)
  \/ (50 < rsi /\ rsi <= 70 /\ r = 0.2)
  \/ (30 <= rsi /\ rsi <= 50 /\ r = -0.2).
Proof.
  intros rsi r. unfold r, StrengthStrategy._calculate_rsi_score. fold rsi.
  destruct (Qltb 80 rsi) eqn:H80;
    [apply Qltb_lt in H80 | apply Qltb_ge in H80];
    [left; split; [exact H80 | reflexivity] |].
  destruct (Qltb 70 rsi) eqn:H70;
    [apply Qltb_lt in H70 | apply Qltb_ge in H70];
    [right; left; repeat split; assumption |].
  destruct (Qltb rsi 20) eqn:H20;
    [apply Qltb_lt in H20 | apply Qltb_ge in H20];
    [right; right; left; split; [exact H20 | reflexivity] |].
  destruct (Qltb rsi 30) eqn:H30;
    [apply Qltb_lt in H30 | apply Qltb_ge in H30];
    [right; right; right; left; repeat split; assumption |].
  destruct (Qltb 50 rsi) eqn:H50;
    [apply Qltb_lt in H50 | apply Qltb_ge in H50].
  - right; right; right; right; left. repeat split; assumption.
  - right; right; right; right; right. repeat split; assumption.
Qed.

Lemma cci_score_bounds (latest : Labelled.Series) :
  -0.8 <= StrengthStrategy._calculate_cci_score latest <= 0.8.
Proof.
  unfold StrengthStrategy._calculate_cci_score.
  set (cci := Labelled.get latest "CCI" 0). clearbody cci.
  destruct (Qltb 200 cci) eqn:H1; [lra |].
  destruct (Qltb 100 cci) eqn:H2; [lra | apply Qltb_ge in H2].
  destruct (Qltb cci (-200)) eqn:H3; [lra |].
  destruct (Qltb cci (-100)) eqn:H4; [lra | apply Qltb_ge in H4].
  unfold Qdiv. change (/ 200) with (1 # 200). lra.
Qed.

Lemma williams_score_bounds (latest : Labelled.Series) :
  -1 <= StrengthStrategy._calculate_williams_score latest <= 1.
Proof.
  unfold StrengthStrategy._calculate_williams_score.
  repeat match goal with
         | |- context [if ?b then _ else _] => destruct b
         end; lra.
Qed.

Lemma volume_score_bounds (latest : Labelled.Series) :
  -0.3 <= StrengthStrategy._calculate_volume_score latest <= 0.8.
Proof.
  unfold StrengthStrategy._calculate_volume_score.
  repeat match goal with
         | |- context [if ?b then _ else _] => destruct b
         end; lra.
Qed.

Lemma roc_score_bounds (self : StrengthStrategy.t) (data : Labelled.Frame)
    (x : Q) :
  StrengthStrategy._calculate_roc_score self data = Labelled.Ok x ->
  -1 <= x <= 1.
Proof.
  unfold StrengthStrategy._calculate_roc_score.
  destruct (Z.of_nat (length data) <? StrengthStrategy.momentum_period self)%Z.
  { intros [= <-]. lra. }
  destruct (Labelled.iloc_neg data 1) as [latest|e]; [| discriminate].
  cbn [mbind Labelled.result_bind].
  set (roc := Labelled.get latest "ROC" 0). clearbody roc.
  destruct (Qltb 10 roc) eqn:H1; [intros [= <-]; lra |].
  destruct (Qltb 5 roc) eqn:H2;
    [intros [= <-]; lra | apply Qltb_ge in H2].
  destruct (Qltb roc (-10)) eqn:H3; [intros [= <-]; lra |].
  destruct (Qltb roc (-5)) eqn:H4;
    [intros [= <-]; lra | apply Qltb_ge in H4].
  intros [= <-]. unfold Qdiv. change (/ 10) with (1 # 10). lra.
Qed.

Lemma roc_score_ok (self : StrengthStrategy.t) (data : Labelled.Frame)
    (latest : Labelled.Series) :
  last data = Some latest ->
  exists x, StrengthStrategy._calculate_roc_score self data = Labelled.Ok x.
Proof.
  intros Hlast. unfold StrengthStrategy._calculate_roc_score.
  rewrite iloc_neg_last, Hlast. cbn [mbind Labelled.result_bind].
  repeat match goal with
         | |- context [if ?b then _ else _] => destruct b
         end; eexists; reflexivity.
Qed.

Lemma strength_signal_inv (self : StrengthStrategy.t)
    (data : Labelled.Frame) (s : Labelled.Signal StrengthStrategy.Reason) :
  StrengthStrategy.calculate_signal self data = Labelled.Ok (Some s) ->
  exists latest roc_score,
    last data = Some latest
    /\ StrengthStrategy._calculate_roc_score self data = Labelled.Ok roc_score
    /\ let rsi_score := StrengthStrategy._calculate_rsi_score latest in
       let cci_score := StrengthStrategy._calculate_cci_score latest in
       let wr_score := StrengthStrategy._calculate_williams_score latest in
       let volume_score := StrengthStrategy._calculate_volume_score latest in
       let total_score :=
         0 + 0.3 * rsi_score + 0.2 * cci_score + 0.2 * wr_score
         + 0.2 * roc_score + 0.1 * volume_score in
       (0.6 < total_score
        /\ Labelled.signal_type s = BUY
        /\ Labelled.strength s
           = (if total_score >? 0.8 then STRONG else MEDIUM)
        /\ Labelled.confidence s = Qmin (Qabs total_score) 1.0)
       \/
       (total_score < -0.6
        /\ Labelled.signal_type s = SELL
        /\ Labelled.strength s
           = (if total_score <? -0.8 then STRONG else MEDIUM)
        /\ Labelled.confidence s = Qmin (Qabs total_score) 1.0).
Proof.
  unfold StrengthStrategy.calculate_signal.
  destruct (Z.of_nat (length data) <? StrengthStrategy.momentum_period self)%Z;
    [discriminate |].
  rewrite iloc_neg_last.
  destruct (last data) as [latest|]; [| discriminate].
  cbn [mbind Labelled.result_bind].
  destruct (StrengthStrategy._calculate_roc_score self data) as [roc|e];
    [| discriminate].
  cbn [mbind Labelled.result_bind zip zip_with fold_left fst snd].
  intros Hs. exists latest, roc.
  split; [reflexivity |]. split; [reflexivity |]. cbv zeta.
  match type of Hs with
  | context [Qltb 0.6 ?t] => set (total := t) in *
  end.
  destruct (Qltb 0.6 total) eqn:Hbuy.
  - left. apply Qltb_lt in Hbuy. injection Hs as <-.
    repeat split; [exact Hbuy].
  - destruct (Qltb total (-0.6)) eqn:Hsell; [| discriminate].
    right. apply Qltb_lt in Hsell. injection Hs as <-.
    repeat split; [exact Hsell].
Qed.

(** X29. [StrengthStrategy.calculate_signal] raises only on an empty frame
    with a non-positive momentum period ([IndexError]); on any other input
    it returns normally, whichever columns are missing.  A signal it
    returns is never a hold signal; its confidence lies above 0.6 and below
    0.95, for a sell signal below 0.9, so the cap of 1.0 on the confidence
    never applies. *)
Theorem strength_signal_total_and_bounded (self : StrengthStrategy.t)
    (data : Labelled.Frame) :
  (data = [] -> (StrengthStrategy.momentum_period self <= 0)%Z ->
   StrengthStrategy.calculate_signal self data
   = Labelled.Raise Labelled.IndexError)
  /\
  (data <> [] \/ (0 < StrengthStrategy.momentum_period self)%Z ->
   exists o, StrengthStrategy.calculate_signal self data = Labelled.Ok o)
  /\
  (forall s,
     StrengthStrategy.calculate_signal self data = Labelled.Ok (Some s) ->
     Labelled.signal_type s <> HOLD
     /\ 0.6 < Labelled.confidence s
     /\ Labelled.confidence s < 0.95
     /\ (Labelled.signal_type s = SELL -> Labelled.confidence s < 0.9)).
Proof.
  split; [| split].
  - intros -> Hperiod. unfold StrengthStrategy.calculate_signal.
    destruct (Z.ltb_spec (Z.of_nat (length (@nil Labelled.Series)))
                (StrengthStrategy.momentum_period self)) as [Hlt | _];
      [simpl in Hlt; lia | reflexivity].
  - intros Hinput. unfold StrengthStrategy.calculate_signal.
    destruct (Z.ltb_spec (Z.of_nat (length data))
                (StrengthStrategy.momentum_period self)) as [_ | Hge];
      [eexists; reflexivity |].
    rewrite iloc_neg_last.
    destruct (last data) as [latest|] eqn:Hlast.
    2: { apply last_None in Hlast. subst data. simpl in Hge.
         destruct Hinput as [Hne | Hpos]; [congruence | lia]. }
    cbn [mbind Labelled.result_bind].
    destruct (roc_score_ok self data latest Hlast) as (x & ->).
    cbn [mbind Labelled.result_bind].
    repeat match goal with
           | |- context [if ?b then _ else _] => destruct b
           end; eexists; reflexivity.
  - intros s Hrun.
    destruct (strength_signal_inv self data s Hrun)
      as (latest & roc & _ & Hroc & Hcases).
    cbv zeta in Hcases.
    apply roc_score_bounds in Hroc.
    pose proof (cci_score_bounds latest) as Hcci.
    pose proof (williams_score_bounds latest) as Hwr.
    pose proof (volume_score_bounds latest) as Hvol.
    assert (Hrsi : -1 <= StrengthStrategy._calculate_rsi_score latest <= 1).
    { pose proof (rsi_score_cases latest) as H. cbv zeta in H.
      destruct H as [[_ ->] | [(_ & _ & ->) | [[_ ->] | [(_ & _ & ->)
                   | [(_ & _ & ->) | (_ & _ & ->)]]]]]; lra. }
    set (r := StrengthStrategy._calculate_rsi_score latest) in *.
    set (c := StrengthStrategy._calculate_cci_score latest) in *.
    set (w := StrengthStrategy._calculate_williams_score latest) in *.
    set (v := StrengthStrategy._calculate_volume_score latest) in *.
    clearbody r c w v.
    set (total := 0 + 0.3 * r + 0.2 * c + 0.2 * w + 0.2 * roc + 0.1 * v) in *.
    assert (Hrange : -0.89 <= total <= 0.94) by (unfold total; lra).
    clearbody total.
    destruct Hcases as [(Hbuy & Hty & _ & Hconf) | (Hsell & Hty & _ & Hconf)];
      rewrite Hty, Hconf.
    + pose proof (Qabs_pos total ltac:(lra)) as Habs.
      destruct (Qmin_cases (Qabs total) 1.0) as [[_ ->] | [Hmin _]];
        [| exfalso; rewrite Habs in Hmin; lra].
      rewrite Habs.
      split; [discriminate |]. split; [lra |]. split; [lra | discriminate].
    + pose proof (Qabs_neg total ltac:(lra)) as Habs.
      destruct (Qmin_cases (Qabs total) 1.0) as [[_ ->] | [Hmin _]];
        [| exfalso; rewrite Habs in Hmin; lra].
      rewrite Habs.
      split; [discriminate |]. split; [lra |]. split; [lra | intros _; lra].
Qed.

Lemma strength_signal_total_and_bounded_witness :
  exists s,
    StrengthStrategy.calculate_signal StrengthStrategy.init
      LabelledExamples.overbought_frame = Labelled.Ok (Some s)
    /\ Labelled.confidence s < 0.9.
Proof.
  eexists. split; [vm_compute; reflexivity |].
  refine (proj2 (proj2 (proj2
            (proj2 (proj2 (strength_signal_total_and_bounded
                             StrengthStrategy.init
                             LabelledExamples.overbought_frame))
               _ _))) _).
  - vm_compute. reflexivity.
  - reflexivity.
Defined.

(** X30. The RSI gates the strength strategy.  Reading a missing RSI as 50,
    a buy signal needs an RSI below 30 or in (50, 70], and a sell signal an
    RSI above 70 or in [30, 50]; a strong buy needs an RSI below 20 and a
    strong sell an RSI above 80.  So a frame without an RSI column can give
    sell signals but never a buy signal. *)
Theorem strength_signal_rsi_gate (self : StrengthStrategy.t)
    (data : Labelled.Frame) (s : Labelled.Signal StrengthStrategy.Reason) :
  StrengthStrategy.calculate_signal self data = Labelled.Ok (Some s) ->
  exists latest,
    last data = Some latest
    /\ let rsi := Labelled.get latest "RSI" 50 in
       (Labelled.signal_type s = BUY ->
        (rsi < 30 \/ (50 < rsi /\ rsi <= 70))
        /\ (Labelled.strength s = STRONG -> rsi < 20))
       /\ (Labelled.signal_type s = SELL ->
           (70 < rsi \/ (30 <= rsi /\ rsi <= 50))
           /\ (Labelled.strength s = STRONG -> 80 < rsi))
       /\ (latest !! "RSI" = None -> Labelled.signal_type s = SELL).
Proof.
  intros Hrun.
  destruct (strength_signal_inv self data s Hrun)
    as (latest & roc & Hlast & Hroc & Hcases).
  cbv zeta in Hcases.
  exists latest. split; [exact Hlast |]. cbv zeta.
  apply roc_score_bounds in Hroc.
  pose proof (cci_score_bounds latest) as Hcci.
  pose proof (williams_score_bounds latest) as Hwr.
  pose proof (volume_score_bounds latest) as Hvol.
  pose proof (rsi_score_cases latest) as Hrsi. cbv zeta in Hrsi.
  assert (Hmissing : latest !! "RSI" = None ->
                     Labelled.get latest "RSI" 50 = 50).
  { intros Hnone. unfold Labelled.get. rewrite Hnone. reflexivity. }
  set (rsi := Labelled.get latest "RSI" 50) in *.
  set (r := StrengthStrategy._calculate_rsi_score latest) in *.
  set (c := StrengthStrategy._calculate_cci_score latest) in *.
  set (w := StrengthStrategy._calculate_williams_score latest) in *.
  set (v := StrengthStrategy._calculate_volume_score latest) in *.
  clearbody rsi r c w v.
  set (total := 0 + 0.3 * r + 0.2 * c + 0.2 * w + 0.2 * roc + 0.1 * v) in *.
  assert (Hstrong_buy : (if total >? 0.8 then STRONG else MEDIUM) = STRONG ->
                        0.8 < total).
  { destruct (Qltb 0.8 total) eqn:H; [intros _; apply Qltb_lt; exact H |
                                       discriminate]. }
  assert (Hstrong_sell : (if total <? -0.8 then STRONG else MEDIUM) = STRONG ->
                         total < -0.8).
  { destruct (Qltb total (-0.8)) eqn:H; [intros _; apply Qltb_lt; exact H |
                                          discriminate]. }
  destruct Hcases as [(Hbuy & Hty & Hst & _) | (Hsell & Hty & Hst & _)];
    rewrite Hty, Hst.
  - split; [intros _ | split; [discriminate |]].
    + split.
      * destruct Hrsi as [[H1 E] | [(H1 & H2 & E) | [[H1 E] | [(H1 & H2 & E)
                        | [(H1 & H2 & E) | (H1 & H2 & E)]]]]];
          unfold total in Hbuy; subst r;
          first [left; lra | right; split; lra | exfalso; lra].
      * intros Hstrong. apply Hstrong_buy in Hstrong.
        destruct Hrsi as [[H1 E] | [(H1 & H2 & E) | [[H1 E] | [(H1 & H2 & E)
                        | [(H1 & H2 & E) | (H1 & H2 & E)]]]]];
          unfold total in Hstrong; subst r;
          first [exact H1 | exfalso; lra].
    + intros Hnone. exfalso. apply Hmissing in Hnone.
      destruct Hrsi as [[H1 E] | [(H1 & H2 & E) | [[H1 E] | [(H1 & H2 & E)
                      | [(H1 & H2 & E) | (H1 & H2 & E)]]]]];
        unfold total in Hbuy; subst r; rewrite Hnone in *; lra.
  - split; [discriminate | split; [intros _ | intros _; reflexivity]].
    split.
    + destruct Hrsi as [[H1 E] | [(H1 & H2 & E) | [[H1 E] | [(H1 & H2 & E)
                      | [(H1 & H2 & E) | (H1 & H2 & E)]]]]];
        unfold total in Hsell; subst r;
        first [left; lra | right; split; lra | exfalso; lra].
    + intros Hstrong. apply Hstrong_sell in Hstrong.
      destruct Hrsi as [[H1 E] | [(H1 & H2 & E) | [[H1 E] | [(H1 & H2 & E)
                      | [(H1 & H2 & E) | (H1 & H2 & E)]]]]];
        unfold total in Hstrong; subst r;
        first [exact H1 | exfalso; lra].
Qed.

Lemma strength_signal_rsi_gate_witness :
  exists s latest,
    StrengthStrategy.calculate_signal StrengthStrategy.init
      LabelledExamples.oversold_frame = Labelled.Ok (Some s)
    /\ last LabelledExamples.oversold_frame = Some latest
    /\ Labelled.get latest "RSI" 50 < 20.
Proof.
  destruct (strength_signal_rsi_gate StrengthStrategy.init
              LabelledExamples.oversold_frame _ eq_refl)
    as (latest & Hlast & Hbuy & _).
  eexists _, latest. split; [reflexivity |]. split; [exact Hlast |].
  exact (proj2 (Hbuy eq_refl) eq_refl).
Defined.
